(** * luigi_pipeline/pipeline.py: a five-stage batch pipeline

    Shallow embedding of [src/luigi_pipeline/pipeline.py].  The Python
    module downloads an archive, unpacks it, splits section-delimited text
    files into tab-separated tables, drops a fixed set of columns from the
    [Probes] table and finally removes text files and leaves a marker.

    Layout of this development:
    - Python string primitives used by the module ([startswith],
      [endswith], [strip], [os.path.join]);
    - results and exceptions, data frames, insertion-ordered dictionaries;
    - the file system as a finite map from paths to entries, with a small
      state-and-exception monad;
    - the five tasks, their [requires]/[output]/[run] methods;
    - the properties of the splitter, the column trimmer, the cleanup
      task and the task chain. *)

From stdpp Require Import gmap strings list fin_maps pretty.
From Stdlib Require Import Ascii.
From Stdlib Require String.

Local Open Scope stdpp_scope.

(* ===================================================================== *)
(** * Python string primitives *)
(* ===================================================================== *)

Module Py.

(** The line feed character, ["\n"] in Python. *)
Definition LF : ascii := "010"%char.
Definition CR : ascii := "013"%char.

(** [s.startswith(p)] *)
Definition startswith (p s : string) : bool := String.prefix p s.

(** [s.endswith(suf)]: [s] itself is [suf], or its tail ends with [suf]. *)
Fixpoint endswith (suf s : string) : bool :=
  if String.eqb s suf then true
  else match s with
       | EmptyString => false
       | String _ r => endswith suf r
       end.

(** [s.lstrip(chars)], [s.rstrip(chars)], [s.strip(chars)]: remove the
    leading / trailing characters that belong to the set [chars]. *)
Fixpoint lstrip (chars : list ascii) (s : string) : string :=
  match s with
  | EmptyString => EmptyString
  | String c r => if bool_decide (c ∈ chars) then lstrip chars r else s
  end.

Definition rstrip (chars : list ascii) (s : string) : string :=
  String.rev (lstrip chars (String.rev s)).

Definition strip (chars : list ascii) (s : string) : string :=
  rstrip chars (lstrip chars s).

(** [os.path.join(a, b)] (posixpath, two components): an absolute [b]
    discards [a]; otherwise a separator is inserted unless [a] is empty
    or already ends with one. *)
Definition path_join (a b : string) : string :=
  if startswith "/" b then b
  else if String.eqb a "" then b
  else if endswith "/" a then a +:+ b
  else a +:+ "/" +:+ b.

(** Iterating over a file opened in text mode yields its lines, each one
    keeping its terminator; with universal newlines ["\r\n"] and ["\r"]
    are read as ["\n"]. *)
Fixpoint file_lines (s : string) : list string :=
  match s with
  | EmptyString => []
  | String c r =>
      if Ascii.eqb c LF then String LF "" :: file_lines r
      else if Ascii.eqb c CR then
        match r with
        | String c' r' =>
            if Ascii.eqb c' LF then String LF "" :: file_lines r'
            else String LF "" :: file_lines r
        | EmptyString => [String LF ""]
        end
      else match file_lines r with
           | [] => [String c ""]
           | l :: ls => String c l :: ls
           end
  end.

(** Concatenation of the pieces written to an [io.StringIO]. *)
Definition concat (ls : list string) : string :=
  foldr String.append "" ls.

End Py.

(* ===================================================================== *)
(** * Exceptions and results *)
(* ===================================================================== *)

(** The exceptions the modelled calls can raise.  [OtherError] stands for
    whatever else an external collaborator (pandas, wget, tarfile) may
    raise. *)
Inductive error : Type :=
| FileNotFoundError
| NotADirectoryError
| IsADirectoryError
| FileExistsError
| EmptyDataError
| KeyError (missing : list string)
| OtherError (msg : string).

Inductive result (A : Type) : Type :=
| Ok (a : A)
| Raise (e : error).
Arguments Ok {A} a.
Arguments Raise {A} e.

Definition rbind {A B} (r : result A) (k : A → result B) : result B :=
  match r with
  | Ok a => k a
  | Raise e => Raise e
  end.

Notation "'try' x ':=' e 'in' k" := (rbind e (λ x, k))
  (at level 10, x pattern, e at level 100, k at level 200,
   format "'[v' 'try'  x  ':='  e  'in' '/' k ']'").

(* ===================================================================== *)
(** * Data frames *)
(* ===================================================================== *)

(** A column label is a name taken from a header row, or a position when
    the table was read with [header=None]. *)
Inductive label : Type :=
| Name (s : string)
| Pos (i : nat).

Global Instance label_eq_dec : EqDecision label.
Proof. solve_decision. Defined.

(** A data frame, column by column: each column has its label and its
    cells. *)
Abbreviation DataFrame := (list (label * list string)).

Definition columns (df : DataFrame) : list label := df.*1.

(** The [header] argument of [pd.read_csv]: [None] or ['infer']. *)
Inductive header : Type :=
| HeaderNone
| HeaderInfer.

(** [df.drop(columns=labels)] with the default [errors='raise']: a label
    that is not a column raises [KeyError] (listing the labels not found);
    otherwise every column carrying one of the labels is removed and the
    other columns keep their order. *)
Definition drop_columns (labels : list string) (df : DataFrame)
  : result DataFrame :=
  match filter (λ l, Name l ∉ columns df) labels with
  | [] => Ok (filter (λ c, c.1 ∉ Name <$> labels) df)
  | missing => Raise (KeyError missing)
  end.

(* ===================================================================== *)
(** * Insertion-ordered dictionaries *)
(* ===================================================================== *)

(** A Python [dict] keeps its keys in insertion order; assigning to a key
    that is present replaces the value in place. *)
Section Dict.
Context {K V : Type} `{EqDecision K}.

Fixpoint dict_set (d : list (K * V)) (k : K) (v : V) : list (K * V) :=
  match d with
  | [] => [(k, v)]
  | (k', v') :: r =>
      if decide (k = k') then (k, v) :: r else (k', v') :: dict_set r k v
  end.

Fixpoint dict_get (d : list (K * V)) (k : K) : option V :=
  match d with
  | [] => None
  | (k', v') :: r => if decide (k = k') then Some v' else dict_get r k
  end.
End Dict.

(* ===================================================================== *)
(** * The module's constants *)
(* ===================================================================== *)

Definition DEFAULT_DATASET_NAME : string := "GSE68849".
Definition DATA_DIR : string := "data".
Definition COLUMNS_TO_DROP : list string :=
  [ "Definition"; "Ontology_Component"; "Ontology_Process";
    "Ontology_Function"; "Synonyms"; "Obsolete_Probe_Id"; "Probe_Sequence" ].

(* ===================================================================== *)
(** * The table splitter: the scan of [SplitTables._split_file] *)
(* ===================================================================== *)

(** [write_key] is [None] before the first marker and a [str] afterwards;
    [if write_key:] holds for a non-empty string only. *)
Definition truthy (k : option string) : bool :=
  match k with
  | Some s => negb (String.eqb s "")
  | None => false
  end.

(** [header = None if write_key == 'Heading' else 'infer'] *)
Definition header_for (k : option string) : header :=
  match k with
  | Some s => if String.eqb s "Heading" then HeaderNone else HeaderInfer
  | None => HeaderInfer
  end.

(** The three locals of the scan: the table dictionary [dfs], the current
    section name [write_key] and the text accumulated in [fio]. *)
Record split_state : Type := SplitState {
  dfs : list (option string * DataFrame);
  write_key : option string;
  fio : string
}.

Definition split_init : split_state :=
  {| dfs := []; write_key := None; fio := "" |}.

Definition MARKER_CHARS : list ascii := ["["%char; "]"%char; Py.LF].

Definition is_marker (line : string) : bool := Py.startswith "[" line.

Section Splitter.
(** [pd.read_csv(buf, sep='\t', header=h)] on the text of a buffer, and
    [df.to_csv(path, sep='\t', index=False)] as the text it writes. *)
Variable read_csv : header → string → result DataFrame.
Variable to_csv : DataFrame → string.

(** One iteration of [for line in f]. *)
Definition split_step (st : split_state) (line : string)
  : result split_state :=
  if is_marker line then
    try dfs' :=
      (if truthy (write_key st) then
         try df := read_csv (header_for (write_key st)) (fio st) in
         Ok (dict_set (dfs st) (write_key st) df)
       else Ok (dfs st)) in
    Ok {| dfs := dfs';
          write_key := Some (Py.strip MARKER_CHARS line);
          fio := "" |}
  else if truthy (write_key st) then
    Ok {| dfs := dfs st;
          write_key := write_key st;
          fio := fio st +:+ line |}
  else Ok st.

Fixpoint split_lines (lines : list string) (st : split_state)
  : result split_state :=
  match lines with
  | [] => Ok st
  | line :: rest => try st' := split_step st line in split_lines rest st'
  end.

(** The scan followed by the end-of-file statements
    [fio.seek(0); dfs[write_key] = pd.read_csv(fio, sep='\t')]. *)
Definition parse_tables (lines : list string)
  : result (list (option string * DataFrame)) :=
  try st := split_lines lines split_init in
  try df := read_csv HeaderInfer (fio st) in
  Ok (dict_set (dfs st) (write_key st) df).

(** [f"{key}.tsv"]: the key [None] is formatted as ["None"]. *)
Definition tsv_name (key : option string) : string :=
  match key with
  | Some s => s +:+ ".tsv"
  | None => "None.tsv"
  end.

(** The files the final loop over [dfs.items()] writes, in order. *)
Definition table_files (out_dir : string)
    (d : list (option string * DataFrame)) : list (string * string) :=
  (λ kv, (Py.path_join out_dir (tsv_name kv.1), to_csv kv.2)) <$> d.

End Splitter.

(** A key that is the name, not empty, of a marker line among [lines]. *)
Definition from_marker (lines : list string) (k : option string) : Prop :=
  ∃ m, m ∈ lines ∧ is_marker m = true
       ∧ Py.strip MARKER_CHARS m ≠ "" ∧ k = Some (Py.strip MARKER_CHARS m).

(** Where the scan of [lines] stands: the keys stored so far and the open
    section come from markers of the file, and the buffer is empty while
    no section is open. *)
Definition scan_inv (lines : list string) (st : split_state) : Prop :=
  (∀ k, k ∈ (dfs st).*1 → from_marker lines k)
  ∧ (truthy (write_key st) = true → from_marker lines (write_key st))
  ∧ (truthy (write_key st) = false → fio st = "").

(* ===================================================================== *)
(** * The file system *)
(* ===================================================================== *)

(** A path names a regular file with its text, or a directory.  Paths are
    the strings the module builds with [os.path.join]; they are compared as
    written. *)
Inductive entry : Type :=
| File (content : string)
| Dir.

Global Instance entry_eq_dec : EqDecision entry.
Proof. solve_decision. Defined.

(** Stateful, fallible code: a function of the file system that returns
    the file system it leaves behind together with a value or the
    exception raised.  What was written before an exception stays. *)
Definition M (A : Type) : Type :=
  gmap string entry → gmap string entry * result A.

Definition ret {A} (a : A) : M A := λ fs, (fs, Ok a).
Definition raise {A} (e : error) : M A := λ fs, (fs, Raise e).
Definition bind {A B} (m : M A) (k : A → M B) : M B :=
  λ fs, match m fs with
        | (fs', Ok a) => k a fs'
        | (fs', Raise e) => (fs', Raise e)
        end.
Definition lift {A} (r : result A) : M A := λ fs, (fs, r).

Notation "'do' x '<-' e ';' k" := (bind e (λ x, k))
  (at level 10, x pattern, e at level 100, k at level 200,
   format "'[v' 'do'  x  '<-'  e ';' '/' k ']'").
Notation "e ';;' k" := (bind e (λ _, k))
  (at level 100, k at level 200, right associativity).

(** [for x in xs: body(x)] *)
Fixpoint for_each {A} (xs : list A) (body : A → M unit) : M unit :=
  match xs with
  | [] => ret tt
  | x :: rest => body x ;; for_each rest body
  end.

Module Fs.

(** [os.path.exists(p)], which is also [luigi.LocalTarget(p).exists()]. *)
Definition path_exists (fs : gmap string entry) (p : string) : bool :=
  bool_decide (is_Some (fs !! p)).

Fixpoint has_slash (s : string) : bool :=
  match s with
  | EmptyString => false
  | String c r => Ascii.eqb c "/" || has_slash r
  end.

Definition all_slashes (s : string) : bool :=
  String.eqb (Py.lstrip ["/"%char] s) "".

(** [p[:p.rfind('/') + 1]] *)
Fixpoint head_part (s : string) : string :=
  match s with
  | EmptyString => EmptyString
  | String c r =>
      if Ascii.eqb c "/" || has_slash r then String c (head_part r)
      else EmptyString
  end.

(** [os.path.dirname(p)] *)
Definition dirname (p : string) : string :=
  let head := head_part p in
  if all_slashes head then head else Py.rstrip ["/"%char] head.

(** The directory a new file is created in is there: the working
    directory (empty [dirname]), the root, or a directory entry. *)
Definition dir_present (fs : gmap string entry) (d : string) : bool :=
  all_slashes d || bool_decide (fs !! d = Some Dir).

(** The proper ancestors of a path, outermost first. *)
Fixpoint ancestors_from (pre s : string) : list string :=
  match s with
  | EmptyString => []
  | String c r =>
      (if Ascii.eqb c "/" && negb (all_slashes pre)
          && negb (Py.endswith "/" pre)
       then [pre] else [])
      ++ ancestors_from (pre +:+ String c "") r
  end.

Definition ancestors (p : string) : list string := ancestors_from "" p.

(** [os.mkdir(d)] that tolerates an existing directory. *)
Definition mkdir_exist_ok (as_ancestor : bool) (d : string) : M unit :=
  λ fs, match fs !! d with
        | None => (<[d := Dir]> fs, Ok tt)
        | Some Dir => (fs, Ok tt)
        | Some (File _) =>
            (fs, Raise (if as_ancestor then NotADirectoryError
                        else FileExistsError))
        end.

(** [os.makedirs(p, exist_ok=True)]: the missing ancestors are created
    first, then the directory itself. *)
Definition makedirs (p : string) : M unit :=
  if String.eqb p "" then raise FileNotFoundError
  else for_each (ancestors p) (mkdir_exist_ok true) ;;
       mkdir_exist_ok false p.

(** The whole text of [open(p, "r")]. *)
Definition read_file (p : string) : M string :=
  λ fs, match fs !! p with
        | Some (File c) => (fs, Ok c)
        | Some Dir => (fs, Raise IsADirectoryError)
        | None => (fs, Raise FileNotFoundError)
        end.

(** Creating or truncating the file [p] and writing [content] to it, as
    [open(p, "w")] followed by [write], or [df.to_csv(p)], does. *)
Definition write_file (p content : string) : M unit :=
  λ fs, match fs !! p with
        | Some Dir => (fs, Raise IsADirectoryError)
        | _ =>
            if dir_present fs (dirname p)
            then (<[p := File content]> fs, Ok tt)
            else (fs, Raise FileNotFoundError)
        end.

(** [os.remove(p)] *)
Definition remove (p : string) : M unit :=
  λ fs, match fs !! p with
        | Some (File _) => (delete p fs, Ok tt)
        | Some Dir => (fs, Raise IsADirectoryError)
        | None => (fs, Raise FileNotFoundError)
        end.

Fixpoint strip_prefix (p s : string) : option string :=
  match p, s with
  | EmptyString, _ => Some s
  | String a p', String b s' =>
      if Ascii.eqb a b then strip_prefix p' s' else None
  | String _ _, EmptyString => None
  end.

Definition dir_prefix (d : string) : string :=
  if Py.endswith "/" d then d else d +:+ "/".

(** The name under which the path [p] is listed in the directory [d],
    when [p] lies directly in it. *)
Definition child_name (d p : string) : option string :=
  match strip_prefix (dir_prefix d) p with
  | Some n => if String.eqb n "" || has_slash n then None else Some n
  | None => None
  end.

(** [os.listdir(d)]; the order is the one the map enumerates its keys
    in. *)
Definition listdir (d : string) : M (list string) :=
  λ fs, if String.eqb d "" then (fs, Raise FileNotFoundError)
        else match fs !! d with
             | Some Dir => (fs, Ok (omap (child_name d) (map_to_list fs).*1))
             | Some (File _) => (fs, Raise NotADirectoryError)
             | None => (fs, Raise FileNotFoundError)
             end.

End Fs.

(** A path that does not end with a separator. *)
Definition plain_path (d : string) : Prop :=
  ∃ x c, d = x +:+ String c "" ∧ c ≠ "/"%char.

(** ** Relations between the file system before and after *)

(** Every path that satisfies [P] and was present is still present. *)
Definition fs_keeps (P : string → Prop) (fs fs' : gmap string entry) : Prop :=
  ∀ p, P p → is_Some (fs !! p) → is_Some (fs' !! p).

(** The paths that satisfy [P] hold what they held. *)
Definition fs_same (P : string → Prop) (fs fs' : gmap string entry) : Prop :=
  ∀ p, P p → fs' !! p = fs !! p.

(** Nothing changed but for directories created at free paths. *)
Definition fs_new_dirs (fs fs' : gmap string entry) : Prop :=
  ∀ p, fs' !! p = fs !! p ∨ (fs !! p = None ∧ fs' !! p = Some Dir).

(** The relation [R] holds between the file system a computation starts
    from and the one it leaves, whatever the outcome. *)
Definition along {A} (R : relation (gmap string entry)) (m : M A) : Prop :=
  ∀ fs, R fs (m fs).1.

(* ===================================================================== *)
(** * The tasks *)
(* ===================================================================== *)

(** The task classes of the module, each with its [dataset_name]
    parameter. *)
Inductive Task : Type :=
| DownloadDataset (dataset_name : string)
| ExtractArchive (dataset_name : string)
| SplitTables (dataset_name : string)
| RemoveColumns (dataset_name : string)
| Cleanup (dataset_name : string)
| Pipeline (dataset_name : string).

Global Instance Task_eq_dec : EqDecision Task.
Proof. solve_decision. Defined.

(** [requires()]: every task but the first names one upstream task, built
    with the same [dataset_name]. *)
Definition requires (t : Task) : option Task :=
  match t with
  | DownloadDataset _ => None
  | ExtractArchive n => Some (DownloadDataset n)
  | SplitTables n => Some (ExtractArchive n)
  | RemoveColumns n => Some (SplitTables n)
  | Cleanup n => Some (RemoveColumns n)
  | Pipeline n => Some (Cleanup n)
  end.

Definition DownloadDataset_output (n : string) : string :=
  Py.path_join DATA_DIR (n +:+ "_RAW.tar").
Definition ExtractArchive_output (n : string) : string :=
  Py.path_join DATA_DIR (n +:+ "_extracted").
Definition SplitTables_output (n : string) : string :=
  Py.path_join DATA_DIR (n +:+ "_split").
Definition RemoveColumns_output (n : string) : string :=
  Py.path_join DATA_DIR (n +:+ "_final").

(** [self.input()] is the [output()] of the task [requires()] returns. *)
Definition ExtractArchive_input (n : string) : string :=
  DownloadDataset_output n.
Definition SplitTables_input (n : string) : string :=
  ExtractArchive_output n.
Definition RemoveColumns_input (n : string) : string :=
  SplitTables_output n.
Definition Cleanup_input (n : string) : string :=
  RemoveColumns_output n.

Definition Cleanup_output (n : string) : string :=
  Py.path_join (Cleanup_input n) "cleanup_complete.txt".

(** [output()]; the wrapper task [Pipeline] declares none. *)
Definition output (t : Task) : option string :=
  match t with
  | DownloadDataset n => Some (DownloadDataset_output n)
  | ExtractArchive n => Some (ExtractArchive_output n)
  | SplitTables n => Some (SplitTables_output n)
  | RemoveColumns n => Some (RemoveColumns_output n)
  | Cleanup n => Some (Cleanup_output n)
  | Pipeline _ => None
  end.

Definition CLEANUP_MESSAGE : string := "Cleanup completed successfully".

Section Tasks.
Variable read_csv : header → string → result DataFrame.
Variable to_csv : DataFrame → string.
(** [wget.download(url, out=path)] *)
Variable download : string → string → M unit.
(** [tarfile.open(archive, "r")] followed by [extractall(path=dest)] *)
Variable extractall : string → string → M unit.

Definition DownloadDataset_run (n : string) : M unit :=
  Fs.makedirs DATA_DIR ;;
  let url := "https://www.ncbi.nlm.nih.gov/geo/download/?acc=" +:+ n
             +:+ "&format=file" in
  download url (DownloadDataset_output n).

Definition ExtractArchive_run (n : string) : M unit :=
  Fs.makedirs (ExtractArchive_output n) ;;
  extractall (ExtractArchive_input n) (ExtractArchive_output n).

(** [SplitTables._split_file(filepath)] *)
Definition _split_file (n : string) (filepath : string) : M unit :=
  do content <- Fs.read_file filepath;
  do tables <- lift (parse_tables read_csv (Py.file_lines content));
  for_each (table_files to_csv (SplitTables_output n) tables)
    (λ f, Fs.write_file f.1 f.2).

Definition SplitTables_run (n : string) : M unit :=
  Fs.makedirs (SplitTables_output n) ;;
  do names <- Fs.listdir (SplitTables_input n);
  for_each names (λ filename,
    if Py.endswith ".txt" filename
    then _split_file n (Py.path_join (SplitTables_input n) filename)
    else ret tt).

Definition RemoveColumns_run (n : string) : M unit :=
  Fs.makedirs (RemoveColumns_output n) ;;
  let probes_path := Py.path_join (RemoveColumns_input n) "Probes.tsv" in
  do text <- Fs.read_file probes_path;
  do df <- lift (read_csv HeaderInfer text);
  do df' <- lift (drop_columns COLUMNS_TO_DROP df);
  Fs.write_file (Py.path_join (RemoveColumns_output n) "Probes_trimmed.tsv")
    (to_csv df').

Definition Cleanup_run (n : string) : M unit :=
  do names <- Fs.listdir (Cleanup_input n);
  for_each names (λ filename,
    if Py.endswith ".txt" filename
    then Fs.remove (Py.path_join (Cleanup_input n) filename)
    else ret tt) ;;
  Fs.write_file (Cleanup_output n) CLEANUP_MESSAGE.

(** [run()]; a [luigi.WrapperTask] does nothing of its own. *)
Definition run (t : Task) : M unit :=
  match t with
  | DownloadDataset n => DownloadDataset_run n
  | ExtractArchive n => ExtractArchive_run n
  | SplitTables n => SplitTables_run n
  | RemoveColumns n => RemoveColumns_run n
  | Cleanup n => Cleanup_run n
  | Pipeline _ => ret tt
  end.

End Tasks.

(* ===================================================================== *)
(** * The orchestrator *)
(* ===================================================================== *)

(** The position of a task class in the chain; [requires] always points
    to a lower one. *)
Definition rank (t : Task) : nat :=
  match t with
  | DownloadDataset _ => 0
  | ExtractArchive _ => 1
  | SplitTables _ => 2
  | RemoveColumns _ => 3
  | Cleanup _ => 4
  | Pipeline _ => 5
  end.

(** Modelled from the spec: the engine that resolves the chain and runs
    the tasks is the luigi scheduler, which is not among the sources; only
    the [requires], [output] and [run] methods it calls are.  The spec's
    orchestrator builds the chain by walking the [requires] links backward
    from the final stage to the root. *)
Fixpoint upstream (fuel : nat) (t : Task) : list Task :=
  match requires t with
  | None => [t]
  | Some u =>
      match fuel with
      | 0 => [t]
      | S fuel' => upstream fuel' u ++ [t]
      end
  end.

(** Modelled from the spec: the chain of a final stage, root first. *)
Definition resolve_chain (final : Task) : list Task :=
  upstream (rank final) final.

(** Modelled from the spec: a stage is complete when its output target
    exists; nothing else is looked at.  The wrapper stage has no target of
    its own and is complete when the stage it requires is. *)
Definition is_complete (fs : gmap string entry) (t : Task) : bool :=
  match output t with
  | Some p => Fs.path_exists fs p
  | None =>
      match requires t ≫= output with
      | Some p => Fs.path_exists fs p
      | None => true
      end
  end.

(** What one invocation leaves behind: the file system, the outcome and
    the stages whose [run] was invoked, in order. *)
Record run_report : Type := RunReport {
  final_fs : gmap string entry;
  outcome : result unit;
  executed : list Task
}.

Section Orchestrator.
Variable read_csv : header → string → result DataFrame.
Variable to_csv : DataFrame → string.
Variable download : string → string → M unit.
Variable extractall : string → string → M unit.

(** Modelled from the spec: the stages are taken in chain order, root
    first; a stage whose target exists is skipped, any other one is run,
    and a failing run aborts what remains of the chain. *)
Fixpoint execute (chain : list Task) (fs : gmap string entry)
  : run_report :=
  match chain with
  | [] => {| final_fs := fs; outcome := Ok tt; executed := [] |}
  | t :: rest =>
      if is_complete fs t then execute rest fs
      else
        match run read_csv to_csv download extractall t fs with
        | (fs', Ok _) =>
            let r := execute rest fs' in
            {| final_fs := final_fs r; outcome := outcome r;
               executed := t :: executed r |}
        | (fs', Raise e) =>
            {| final_fs := fs'; outcome := Raise e; executed := [t] |}
        end
  end.

(** Modelled from the spec: [run(dataset_identifier, final_stage)]. *)
Definition build (final : Task) (fs : gmap string entry) : run_report :=
  execute (resolve_chain final) fs.

End Orchestrator.

(* ===================================================================== *)
(** * Sample collaborators *)
(* ===================================================================== *)

(** A plain reading of tab-separated text and two small stand-ins for the
    download and the archive, used to run the tasks on concrete files. *)
Module Sample.

Definition TAB : ascii := "009"%char.

Fixpoint split_on (sep : ascii) (s : string) : list string :=
  match s with
  | EmptyString => [EmptyString]
  | String c r =>
      if Ascii.eqb c sep then EmptyString :: split_on sep r
      else match split_on sep r with
           | [] => [String c ""]
           | h :: t => String c h :: t
           end
  end.

Definition rows (text : string) : list (list string) :=
  split_on TAB <$> filter (λ l, l ≠ "") (split_on Py.LF text).

Definition cell (i : nat) (r : list string) : string := default "" (r !! i).

Definition read_csv (h : header) (text : string) : result DataFrame :=
  match rows text with
  | [] => Raise EmptyDataError
  | first :: rest =>
      match h with
      | HeaderInfer => Ok (imap (λ i name, (Name name, cell i <$> rest)) first)
      | HeaderNone =>
          Ok (imap (λ i _, (Pos i, cell i <$> first :: rest)) first)
      end
  end.

Definition label_text (l : label) : string :=
  match l with
  | Name s => s
  | Pos i => pretty i
  end.

Fixpoint join (sep : string) (ls : list string) : string :=
  match ls with
  | [] => ""
  | [x] => x
  | x :: r => x +:+ sep +:+ join sep r
  end.

Definition to_csv (df : DataFrame) : string :=
  let line cells := join (String TAB "") cells +:+ String Py.LF "" in
  let height := match df with [] => 0 | c :: _ => length c.2 end in
  line (label_text <$> columns df)
  +:+ Py.concat ((λ i, line ((λ c, cell i c.2) <$> df)) <$> seq 0 height).

Definition download (url out : string) : M unit :=
  Fs.write_file out ("archive of " +:+ url).

Definition SAMPLE_TEXT : string :=
  "[Heading]" +:+ String Py.LF "" +:+
  "Date" +:+ String TAB "" +:+ "2015" +:+ String Py.LF "" +:+
  "[Probes]" +:+ String Py.LF "" +:+
  join (String TAB "") ("Probe_Id" :: "GeneSymbol" :: COLUMNS_TO_DROP)
    +:+ String Py.LF "" +:+
  join (String TAB "") ["p1"; "g1"; "a"; "b"; "c"; "d"; "e"; "f"; "g"]
    +:+ String Py.LF "".

Definition extractall (archive dest : string) : M unit :=
  Fs.read_file archive ;;
  Fs.write_file (Py.path_join dest "GPL10558.txt") SAMPLE_TEXT.

(** A line of text and a row of tab-separated cells, with their line
    feed. *)
Definition line (s : string) : string := s +:+ String Py.LF "".
Definition row (cells : list string) : string := line (join (String TAB "") cells).

(** A file with the sections [Heading] and [Probes]. *)
Definition HEADING_LINES : list string :=
  [line "[Heading]"; row ["Date"; "2015"]; line "[Probes]"].

(** A file in which the name [A] is used by two sections. *)
Definition REPEATED_PRE : list string :=
  [line "[A]"; row ["x"; "y"]; row ["1"; "2"]].
Definition REPEATED_BODY : list string := [row ["u"; "v"]; row ["3"; "4"]].

(** A text without any marker line, and one that ends with a marker. *)
Definition NO_MARKER_TEXT : string := row ["a"; "b"] +:+ row ["1"; "2"].
Definition TRAILING_MARKER_TEXT : string :=
  line "[Probes]" +:+ row ["a"; "b"] +:+ row ["1"; "2"] +:+ line "[Tail]".

(** An extracted directory that holds the two texts above. *)
Definition EXTRACTED_FS : gmap string entry :=
  <["data/GSE68849_extracted/trailing.txt" := File TRAILING_MARKER_TEXT]>
  (<["data/GSE68849_extracted/plain.txt" := File NO_MARKER_TEXT]>
  (<["data/GSE68849_extracted" := Dir]> (<["data" := Dir]> ∅))).

(** A [Probes] table with the five columns of the trimming example, and
    one with every target column. *)
Definition FIVE_COLUMNS_TEXT : string :=
  row ["Probe_Id"; "Definition"; "Ontology_Component"; "GeneSymbol";
       "Probe_Sequence"]
  +:+ row ["ILMN_1"; "d"; "oc"; "G1"; "ACGT"].
Definition FIVE_COLUMNS_DF : DataFrame :=
  [(Name "Probe_Id", ["ILMN_1"]); (Name "Definition", ["d"]);
   (Name "Ontology_Component", ["oc"]); (Name "GeneSymbol", ["G1"]);
   (Name "Probe_Sequence", ["ACGT"])].

Definition ALL_COLUMNS_TEXT : string :=
  row ("Probe_Id" :: "GeneSymbol" :: COLUMNS_TO_DROP)
  +:+ row ["ILMN_1"; "G1"; "d"; "oc"; "op"; "of"; "s"; "o"; "ACGT"].
Definition ALL_COLUMNS_DF : DataFrame :=
  [(Name "Probe_Id", ["ILMN_1"]); (Name "GeneSymbol", ["G1"]);
   (Name "Definition", ["d"]); (Name "Ontology_Component", ["oc"]);
   (Name "Ontology_Process", ["op"]); (Name "Ontology_Function", ["of"]);
   (Name "Synonyms", ["s"]); (Name "Obsolete_Probe_Id", ["o"]);
   (Name "Probe_Sequence", ["ACGT"])].

Definition split_fs (probes : string) : gmap string entry :=
  <["data/GSE68849_split/Probes.tsv" := File probes]>
  (<["data/GSE68849_split" := Dir]> (<["data" := Dir]> ∅)).

(** The directories as the trim stage leaves them, with a stray text file
    in each of the split and the final directory. *)
Definition TRIMMED_FS : gmap string entry :=
  <["data/GSE68849_final/notes.txt" := File "notes"]>
  (<["data/GSE68849_final/Probes_trimmed.tsv" := File "Probe_Id"]>
  (<["data/GSE68849_final" := Dir]>
  (<["data/GSE68849_split/GPL10558.txt" := File "raw"]>
  (<["data/GSE68849_split/Probes.tsv" := File "Probe_Id"]>
  (<["data/GSE68849_split" := Dir]> (<["data" := Dir]> ∅)))))).

(** A file with one section and the table it holds, in a file system
    where the split directory is there. *)
Definition ONE_SECTION_TEXT : string :=
  line "[A]" +:+ row ["x"; "y"] +:+ row ["1"; "2"].
Definition ONE_SECTION_TABLES : list (option string * DataFrame) :=
  [(Some "A", [(Name "x", ["1"]); (Name "y", ["2"])])].
Definition ONE_SECTION_FS : gmap string entry :=
  <["data/GSE68849_split" := Dir]>
  (<["data/GSE68849_extracted/one.txt" := File ONE_SECTION_TEXT]>
  (<["data/GSE68849_extracted" := Dir]> (<["data" := Dir]> ∅))).

(** An extracted directory that holds a compressed file only. *)
Definition COMPRESSED_FS : gmap string entry :=
  <["data/GSE68849_extracted/GPL10558.txt.gz" := File "gz"]>
  (<["data/GSE68849_extracted" := Dir]> (<["data" := Dir]> ∅)).

(** The [Probes] table once trimmed. *)
Definition TWO_COLUMNS_TEXT : string :=
  row ["Probe_Id"; "GeneSymbol"] +:+ row ["ILMN_1"; "G1"].
Definition TWO_COLUMNS_DF : DataFrame :=
  [(Name "Probe_Id", ["ILMN_1"]); (Name "GeneSymbol", ["G1"])].

(** The file in which the name [A] is used twice, in a file system where
    the split directory is there. *)
Definition REPEATED_TEXT : string :=
  Py.concat (REPEATED_PRE ++ line "[A]" :: REPEATED_BODY).
Definition REPEATED_FS : gmap string entry :=
  <["data/GSE68849_split" := Dir]>
  (<["data/GSE68849_extracted/twice.txt" := File REPEATED_TEXT]>
  (<["data/GSE68849_extracted" := Dir]> (<["data" := Dir]> ∅))).

End Sample.

(* ===================================================================== *)
(** * Facts about strings *)
(* ===================================================================== *)

Lemma append_nil_l (s : string) : "" +:+ s = s.
Proof. reflexivity. Qed.

Lemma append_cons (c : ascii) (s t : string) :
  String c s +:+ t = String c (s +:+ t).
Proof. reflexivity. Qed.

Lemma append_nil_r (s : string) : s +:+ "" = s.
Proof.
  induction s as [|c s IH]; [reflexivity|].
  by rewrite append_cons, IH.
Qed.

Lemma append_assoc (s t u : string) : (s +:+ t) +:+ u = s +:+ (t +:+ u).
Proof.
  induction s as [|c s IH]; [reflexivity|].
  by rewrite !append_cons, IH.
Qed.

(* ===================================================================== *)
(** * Facts about dictionaries *)
(* ===================================================================== *)

Section DictFacts.
Context {K V : Type} `{EqDecision K}.
Implicit Types (d : list (K * V)) (k : K) (v : V).

Lemma dict_get_set_eq d k v : dict_get (dict_set d k v) k = Some v.
Proof.
  induction d as [|[k' v'] d IH]; cbn.
  - by rewrite decide_True.
  - destruct (decide (k = k')) as [->|Hne]; cbn.
    + by rewrite decide_True.
    + by rewrite decide_False.
Qed.

Lemma dict_get_set_ne d k k' v :
  k ≠ k' → dict_get (dict_set d k v) k' = dict_get d k'.
Proof.
  intros Hne. induction d as [|[k1 v1] d IH]; cbn.
  - by rewrite decide_False.
  - destruct (decide (k = k1)) as [->|Hk]; cbn.
    + by rewrite !decide_False.
    + by rewrite IH.
Qed.

Lemma dict_set_keys d k v k' :
  k' ∈ (dict_set d k v).*1 ↔ k' = k ∨ k' ∈ d.*1.
Proof.
  induction d as [|[k1 v1] d IH]; cbn.
  - rewrite list_elem_of_singleton, elem_of_nil. tauto.
  - destruct (decide (k = k1)) as [->|Hk]; cbn;
      rewrite !elem_of_cons; [tauto|]. rewrite IH. tauto.
Qed.

Lemma dict_set_NoDup d k v : NoDup d.*1 → NoDup (dict_set d k v).*1.
Proof.
  induction d as [|[k1 v1] d IH]; cbn; intros Hnd.
  - apply NoDup_singleton.
  - apply NoDup_cons in Hnd as [Hk1 Hnd].
    destruct (decide (k = k1)) as [->|Hk]; cbn.
    + by apply NoDup_cons.
    + apply NoDup_cons. split; [|by apply IH].
      rewrite dict_set_keys. intros [?|?]; congruence.
Qed.

(** In a dictionary without repeated keys, the entry of a key splits
    the items in two parts that do not mention the key. *)
Lemma dict_get_split d k v :
  dict_get d k = Some v →
  ∃ d1 d2, d = d1 ++ (k, v) :: d2 ∧ (k ∉ d1.*1) ∧ (NoDup (d.*1) → k ∉ (d2.*1)).
Proof.
  induction d as [|[k1 v1] d IH]; cbn; [done|].
  destruct (decide (k = k1)) as [->|Hk].
  - intros [= ->]. exists [], d. split; [done|]. split; [apply not_elem_of_nil|].
    intros Hnd. by apply NoDup_cons in Hnd as [? _].
  - intros (d1 & d2 & -> & H1 & H2)%IH.
    exists ((k1, v1) :: d1), d2. split; [done|]. split.
    + cbn. rewrite elem_of_cons. intros [?|?]; [congruence|done].
    + intros Hnd. apply NoDup_cons in Hnd as [_ ?]. auto.
Qed.
End DictFacts.

(* ===================================================================== *)
(** * The scan of the splitter *)
(* ===================================================================== *)

Section SplitterFacts.
Variable read_csv : header → string → result DataFrame.
Variable to_csv : DataFrame → string.

Local Abbreviation split_step := (split_step read_csv).
Local Abbreviation split_lines := (split_lines read_csv).
Local Abbreviation parse_tables := (parse_tables read_csv).

Lemma split_lines_app (xs ys : list string) (st : split_state) :
  split_lines (xs ++ ys) st =
  try st' := split_lines xs st in split_lines ys st'.
Proof.
  revert st. induction xs as [|x xs IH]; intros st; cbn; [done|].
  destruct (split_step st x) as [st'|e]; cbn; [apply IH|done].
Qed.

(** Lines that are not markers are appended to the buffer of an open
    section... *)
Lemma split_lines_body (body : list string) (st : split_state) :
  Forall (λ l, is_marker l = false) body →
  truthy (write_key st) = true →
  split_lines body st =
  Ok {| dfs := dfs st; write_key := write_key st;
        fio := fio st +:+ Py.concat body |}.
Proof.
  intros Hbody. revert st.
  induction Hbody as [|l body Hl _ IH]; intros st Hk; cbn.
  - rewrite append_nil_r. by destruct st.
  - unfold split_step. rewrite Hl, Hk. cbn.
    rewrite IH by done. cbn. by rewrite append_assoc.
Qed.

(** ... and are dropped while no section is open. *)
Lemma split_lines_discard (body : list string) (st : split_state) :
  Forall (λ l, is_marker l = false) body →
  truthy (write_key st) = false →
  split_lines body st = Ok st.
Proof.
  intros Hbody Hk. induction Hbody as [|l body Hl _ IH]; cbn; [done|].
  unfold split_step. by rewrite Hl, Hk.
Qed.

(** A marker line leaves an empty buffer under the name it carries. *)
Lemma split_step_marker (st st' : split_state) (m : string) :
  is_marker m = true →
  split_step st m = Ok st' →
  write_key st' = Some (Py.strip MARKER_CHARS m) ∧ fio st' = "".
Proof.
  intros Hm. unfold split_step. rewrite Hm.
  destruct (truthy (write_key st)); cbn.
  - destruct (read_csv _ _); cbn; [|done]. by intros [= <-].
  - by intros [= <-].
Qed.

Lemma split_lines_marker_last (pre : list string) (m : string)
    (st0 st1 : split_state) :
  is_marker m = true →
  split_lines (pre ++ [m]) st0 = Ok st1 →
  write_key st1 = Some (Py.strip MARKER_CHARS m) ∧ fio st1 = "".
Proof.
  intros Hm. rewrite split_lines_app.
  destruct (split_lines pre st0) as [st|e]; cbn; [|done].
  destruct (split_step st m) as [st'|e] eqn:Hstep; cbn; [|done].
  intros [= <-]. by eapply split_step_marker.
Qed.

Lemma truthy_Some (s : string) : s ≠ "" → truthy (Some s) = true.
Proof. intros Hs. cbn. by apply negb_true_iff, String.eqb_neq. Qed.

Lemma header_for_Some (s : string) :
  header_for (Some s) =
  if decide (s = "Heading") then HeaderNone else HeaderInfer.
Proof.
  cbn. destruct (String.eqb_spec s "Heading"); by case_decide.
Qed.

(** The state after a whole section that a further marker closes. *)
Lemma split_lines_section_closed (pre body : list string) (m m2 : string)
    (st1 : split_state) :
  is_marker m = true → is_marker m2 = true →
  Forall (λ l, is_marker l = false) body →
  Py.strip MARKER_CHARS m ≠ "" →
  split_lines (pre ++ [m]) split_init = Ok st1 →
  split_lines (pre ++ m :: body ++ [m2]) split_init =
  try df := read_csv (header_for (Some (Py.strip MARKER_CHARS m)))
              (Py.concat body) in
  Ok {| dfs := dict_set (dfs st1) (Some (Py.strip MARKER_CHARS m)) df;
        write_key := Some (Py.strip MARKER_CHARS m2);
        fio := "" |}.
Proof.
  intros Hm Hm2 Hbody Hname Hst1.
  destruct (split_lines_marker_last _ _ _ _ Hm Hst1) as [Hk Hf].
  replace (pre ++ m :: body ++ [m2]) with ((pre ++ [m]) ++ body ++ [m2])
    by (by rewrite <-app_assoc).
  rewrite split_lines_app, Hst1. cbn.
  rewrite split_lines_app, split_lines_body; [|done|].
  2:{ rewrite Hk. by apply truthy_Some. }
  cbn. unfold split_step. rewrite Hm2. cbn [write_key fio dfs].
  rewrite Hk, truthy_Some, Hf by done.
  by destruct (read_csv _ _).
Qed.

(** The tables after a last section that the end of the file closes. *)
Lemma parse_tables_section_open (pre body : list string) (m : string)
    (st1 : split_state) :
  is_marker m = true →
  Forall (λ l, is_marker l = false) body →
  Py.strip MARKER_CHARS m ≠ "" →
  split_lines (pre ++ [m]) split_init = Ok st1 →
  parse_tables (pre ++ m :: body) =
  try df := read_csv HeaderInfer (Py.concat body) in
  Ok (dict_set (dfs st1) (Some (Py.strip MARKER_CHARS m)) df).
Proof.
  intros Hm Hbody Hname Hst1.
  destruct (split_lines_marker_last _ _ _ _ Hm Hst1) as [Hk Hf].
  replace (pre ++ m :: body) with ((pre ++ [m]) ++ body)
    by (by rewrite <-app_assoc).
  unfold parse_tables. rewrite split_lines_app, Hst1. cbn.
  rewrite split_lines_body; [|done|].
  2:{ rewrite Hk. by apply truthy_Some. }
  cbn. by rewrite Hk, Hf.
Qed.

(** A file without markers never opens a section. *)
Lemma split_lines_no_marker (lines : list string) :
  Forall (λ l, is_marker l = false) lines →
  split_lines lines split_init = Ok split_init.
Proof. intros Hl. by apply split_lines_discard. Qed.

(** The keys of the table dictionary never repeat. *)
Lemma split_step_NoDup (st st' : split_state) (l : string) :
  NoDup (dfs st).*1 → split_step st l = Ok st' → NoDup (dfs st').*1.
Proof.
  intros Hnd. unfold split_step.
  destruct (is_marker l); [|destruct (truthy _); by intros [= <-]].
  destruct (truthy _); cbn; [|by intros [= <-]].
  destruct (read_csv _ _); cbn; [|done].
  intros [= <-]. by apply dict_set_NoDup.
Qed.

Lemma split_lines_NoDup (lines : list string) (st st' : split_state) :
  NoDup (dfs st).*1 → split_lines lines st = Ok st' → NoDup (dfs st').*1.
Proof.
  revert st. induction lines as [|l lines IH]; intros st Hnd; cbn.
  - by intros [= <-].
  - destruct (split_step st l) as [st1|e] eqn:Hstep; cbn; [|done].
    apply IH. by eapply split_step_NoDup.
Qed.

Lemma parse_tables_NoDup (lines : list string)
    (tables : list (option string * DataFrame)) :
  parse_tables lines = Ok tables → NoDup tables.*1.
Proof.
  unfold parse_tables.
  destruct (split_lines lines split_init) as [st|e] eqn:Hst; cbn; [|done].
  destruct (read_csv _ _); cbn; [|done].
  intros [= <-]. apply dict_set_NoDup.
  eapply split_lines_NoDup; [|done]. apply NoDup_nil_2.
Qed.

(** Sections under other names leave the table of a name alone. *)
Lemma split_step_other (name : string) (st st' : split_state) (l : string) :
  write_key st ≠ Some name →
  (is_marker l = true → Py.strip MARKER_CHARS l ≠ name) →
  split_step st l = Ok st' →
  write_key st' ≠ Some name ∧
  dict_get (dfs st') (Some name) = dict_get (dfs st) (Some name).
Proof.
  intros Hk Hl. unfold split_step.
  destruct (is_marker l) eqn:Hm.
  - destruct (truthy _); cbn.
    + destruct (read_csv _ _); cbn; [|done]. intros [= <-]. cbn.
      split; [intros [= ?]; by apply Hl|]. by apply dict_get_set_ne.
    + intros [= <-]. cbn. split; [intros [= ?]; by apply Hl|done].
  - destruct (truthy _); by intros [= <-].
Qed.

Lemma split_lines_other (name : string) (rest : list string)
    (st st' : split_state) :
  write_key st ≠ Some name →
  Forall (λ l, is_marker l = true → Py.strip MARKER_CHARS l ≠ name) rest →
  split_lines rest st = Ok st' →
  write_key st' ≠ Some name ∧
  dict_get (dfs st') (Some name) = dict_get (dfs st) (Some name).
Proof.
  intros Hk Hrest. revert st Hk.
  induction Hrest as [|l rest Hl _ IH]; intros st Hk; cbn.
  - by intros [= <-].
  - destruct (split_step st l) as [st1|e] eqn:Hstep; cbn; [|done].
    destruct (split_step_other name _ _ _ Hk Hl Hstep) as [Hk1 Hg1].
    intros Hst'. destruct (IH _ Hk1 Hst') as [? ?]. split; [done|congruence].
Qed.

End SplitterFacts.

(* ===================================================================== *)
(** * Suffixes, reversal and paths *)
(* ===================================================================== *)

Lemma rev_app_spec (s t : string) :
  String.rev_app s t = String.rev s +:+ t.
Proof.
  revert t. induction s as [|c s IH]; intros t; [reflexivity|].
  unfold String.rev. cbn. rewrite (IH (String c t)), (IH (String c "")).
  by rewrite append_assoc.
Qed.

Lemma rev_cons (c : ascii) (s : string) :
  String.rev (String c s) = String.rev s +:+ String c "".
Proof. unfold String.rev at 1. cbn. apply rev_app_spec. Qed.

Lemma rev_snoc (s : string) (c : ascii) :
  String.rev (s +:+ String c "") = String c (String.rev s).
Proof.
  induction s as [|a s IH]; [reflexivity|].
  by rewrite append_cons, !rev_cons, IH.
Qed.

Lemma rev_involutive (s : string) : String.rev (String.rev s) = s.
Proof.
  induction s as [|c s IH]; [reflexivity|].
  by rewrite rev_cons, rev_snoc, IH.
Qed.

Lemma rstrip_snoc (chars : list ascii) (s : string) (c : ascii) :
  Py.rstrip chars (s +:+ String c "") =
  if bool_decide (c ∈ chars) then Py.rstrip chars s else s +:+ String c "".
Proof.
  unfold Py.rstrip. rewrite rev_snoc. cbn [Py.lstrip].
  case_bool_decide; [done|]. by rewrite rev_cons, rev_involutive.
Qed.

Lemma endswith_spec (suf s : string) :
  Py.endswith suf s = true ↔ ∃ a, s = a +:+ suf.
Proof.
  induction s as [|c s IH]; cbn [Py.endswith].
  - destruct (String.eqb_spec "" suf) as [<-|Hne].
    + split; [by exists ""|done].
    + split; [done|]. intros [[|??] Ha].
      * by rewrite append_nil_l in Ha.
      * by rewrite append_cons in Ha.
  - destruct (String.eqb_spec (String c s) suf) as [<-|Hne].
    + split; [by exists ""|done].
    + rewrite IH. split.
      * intros [a ->]. by exists (String c a).
      * intros [[|c' a] Ha]; [by rewrite append_nil_l in Ha|].
        rewrite append_cons in Ha. injection Ha as -> ->. by exists a.
Qed.

Lemma endswith_app (suf a : string) : Py.endswith suf (a +:+ suf) = true.
Proof. apply endswith_spec. by exists a. Qed.

Lemma append_length (s t : string) :
  String.length (s +:+ t) = String.length s + String.length t.
Proof.
  induction s as [|c s IH]; [reflexivity|].
  rewrite append_cons. cbn. by rewrite IH.
Qed.

(** Two suffixes of equal length of the same string coincide. *)
Lemma append_inj_length (a b u v : string) :
  a +:+ u = b +:+ v → String.length u = String.length v → a = b ∧ u = v.
Proof.
  revert b. induction a as [|c a IH]; intros [|c' b] Heq Hlen.
  - done.
  - rewrite append_nil_l in Heq. subst u.
    rewrite append_cons in Hlen. cbn in Hlen.
    rewrite append_length in Hlen. lia.
  - rewrite append_nil_l in Heq. subst v.
    rewrite append_cons in Hlen. cbn in Hlen.
    rewrite append_length in Hlen. lia.
  - rewrite !append_cons in Heq. injection Heq as -> Heq.
    destruct (IH _ Heq Hlen) as [-> ->]. done.
Qed.

(** A string that ends with [v] ends with [u], of the same length, only
    when [u] is [v]. *)
Lemma endswith_same_length (u v a : string) :
  String.length u = String.length v → u ≠ v →
  Py.endswith u (a +:+ v) = false.
Proof.
  intros Hlen Hne. apply not_true_is_false. intros [b Hb]%endswith_spec.
  apply append_inj_length in Hb as [_ ->]; done.
Qed.

(** The result of [os.path.join] ends with its second argument. *)
Lemma path_join_suffix (a b : string) : ∃ x, Py.path_join a b = x +:+ b.
Proof.
  unfold Py.path_join.
  destruct (Py.startswith "/" b); [by exists ""|].
  destruct (String.eqb a ""); [by exists ""|].
  destruct (Py.endswith "/" a); [by exists a|].
  exists (a +:+ "/"). by rewrite append_assoc.
Qed.

Lemma has_slash_startswith (b : string) :
  Fs.has_slash b = false → Py.startswith "/" b = false.
Proof.
  destruct b as [|c b]; [done|]. cbn [Fs.has_slash].
  intros [Hc _]%orb_false_iff. apply Ascii.eqb_neq in Hc.
  unfold Py.startswith. cbn [String.prefix].
  destruct (ascii_dec "/" c) as [<-|?]; done.
Qed.

(** Joining a directory and a plain name. *)
Lemma path_join_child (d b : string) :
  d ≠ "" → Fs.has_slash b = false →
  Py.path_join d b = Fs.dir_prefix d +:+ b.
Proof.
  intros Hd Hb. unfold Py.path_join, Fs.dir_prefix.
  rewrite has_slash_startswith by done.
  apply String.eqb_neq in Hd as ->.
  destruct (Py.endswith "/" d); [done|]. by rewrite append_assoc.
Qed.

Lemma strip_prefix_app (p s : string) : Fs.strip_prefix p (p +:+ s) = Some s.
Proof.
  induction p as [|c p IH]; [by destruct s|].
  rewrite append_cons. cbn. by rewrite Ascii.eqb_refl.
Qed.

Lemma strip_prefix_Some (p s r : string) :
  Fs.strip_prefix p s = Some r → s = p +:+ r.
Proof.
  revert s. induction p as [|c p IH]; intros s; cbn.
  - by intros [= ->].
  - destruct s as [|c' s]; [done|].
    destruct (Ascii.eqb_spec c c') as [<-|?]; [|done].
    intros ->%IH. by rewrite append_cons.
Qed.

(** The paths listed in a directory are the joins with their names. *)
Lemma child_name_Some (d p name : string) :
  d ≠ "" → Fs.child_name d p = Some name →
  p = Py.path_join d name ∧ Fs.has_slash name = false ∧ name ≠ "".
Proof.
  intros Hd. unfold Fs.child_name.
  destruct (Fs.strip_prefix _ p) as [r|] eqn:Hr; [|done].
  destruct (String.eqb_spec r "") as [->|Hne]; cbn; [done|].
  destruct (Fs.has_slash r) eqn:Hs; [done|]. intros [= <-].
  apply strip_prefix_Some in Hr. by rewrite path_join_child.
Qed.

Lemma child_name_join (d name : string) :
  d ≠ "" → Fs.has_slash name = false → name ≠ "" →
  Fs.child_name d (Py.path_join d name) = Some name.
Proof.
  intros Hd Hs Hne. unfold Fs.child_name.
  rewrite path_join_child, strip_prefix_app by done.
  apply String.eqb_neq in Hne as ->. by rewrite Hs.
Qed.

(* ===================================================================== *)
(** * Facts about the monad and the file system *)
(* ===================================================================== *)

Lemma bind_Ok {A B} (m : M A) (k : A → M B) (fs fs' : gmap string entry)
    (a : A) :
  m fs = (fs', Ok a) → bind m k fs = k a fs'.
Proof. intros Hm. unfold bind. by rewrite Hm. Qed.

Lemma bind_Raise {A B} (m : M A) (k : A → M B) (fs fs' : gmap string entry)
    (e : error) :
  m fs = (fs', Raise e) → bind m k fs = (fs', Raise e).
Proof. intros Hm. unfold bind. by rewrite Hm. Qed.

Lemma bind_inv_Ok {A B} (m : M A) (k : A → M B) (fs fs2 : gmap string entry)
    (b : B) :
  bind m k fs = (fs2, Ok b) →
  ∃ fs1 a, m fs = (fs1, Ok a) ∧ k a fs1 = (fs2, Ok b).
Proof.
  unfold bind. destruct (m fs) as [fs1 [a|e]]; [|done]. eauto.
Qed.

(** A relation between the file system before and after holds along a
    computation when it holds along each of its parts. *)
Lemma along_bind {A B} (R : relation (gmap string entry)) `{!PreOrder R}
    (m : M A) (k : A → M B) :
  along R m → (∀ a, along R (k a)) → along R (bind m k).
Proof.
  intros Hm Hk fs. unfold bind. specialize (Hm fs).
  destruct (m fs) as [fs1 [a|e]]; [|done].
  etrans; [exact Hm|apply Hk].
Qed.

Lemma along_ret {A} (R : relation (gmap string entry)) `{!Reflexive R}
    (a : A) : along R (ret a).
Proof. intros fs. reflexivity. Qed.

Lemma along_lift {A} (R : relation (gmap string entry)) `{!Reflexive R}
    (r : result A) : along R (lift r).
Proof. intros fs. reflexivity. Qed.

Lemma along_for_each {A} (R : relation (gmap string entry)) `{!PreOrder R}
    (xs : list A) (body : A → M unit) :
  (∀ x, x ∈ xs → along R (body x)) → along R (for_each xs body).
Proof.
  induction xs as [|x xs IH]; intros Hbody; cbn.
  - intros fs. reflexivity.
  - apply along_bind; [done|apply Hbody; left|].
    intros _. apply IH. intros y Hy. apply Hbody. by right.
Qed.

Global Instance fs_keeps_preorder (P : string → Prop) : PreOrder (fs_keeps P).
Proof.
  split.
  - by intros fs p.
  - intros fs1 fs2 fs3 H12 H23 p Hp ?. by apply H23, H12.
Qed.

Global Instance fs_same_preorder (P : string → Prop) : PreOrder (fs_same P).
Proof.
  split.
  - by intros fs p.
  - intros fs1 fs2 fs3 H12 H23 p Hp. by rewrite H23, H12.
Qed.

Global Instance fs_new_dirs_preorder : PreOrder fs_new_dirs.
Proof.
  split.
  - intros fs p. by left.
  - intros fs1 fs2 fs3 H12 H23 p.
    destruct (H12 p) as [E12|[E1 E2]], (H23 p) as [E23|[E2' E3]].
    + left. congruence.
    + right. split; congruence.
    + right. split; congruence.
    + congruence.
Qed.

Lemma fs_new_dirs_keeps (P : string → Prop) (fs fs' : gmap string entry) :
  fs_new_dirs fs fs' → fs_keeps P fs fs'.
Proof.
  intros H p _ Hp. destruct (H p) as [->|[_ ->]]; [done|by eexists].
Qed.

Lemma fs_new_dirs_file (fs fs' : gmap string entry) (p c : string) :
  fs_new_dirs fs fs' →
  fs' !! p = Some (File c) ↔ fs !! p = Some (File c).
Proof. intros H. destruct (H p) as [->|[E1 E2]]; [done|]. rewrite E1, E2. done. Qed.

Lemma mkdir_exist_ok_new_dirs (b : bool) (d : string) :
  along fs_new_dirs (Fs.mkdir_exist_ok b d).
Proof.
  intros fs p. unfold Fs.mkdir_exist_ok.
  destruct (fs !! d) as [[c|]|] eqn:Hd; cbn; [by left..|].
  destruct (decide (p = d)) as [->|Hne].
  - right. by rewrite lookup_insert_eq.
  - left. by rewrite lookup_insert_ne.
Qed.

(** [os.makedirs] only adds directories at paths that were free. *)
Lemma makedirs_new_dirs (d : string) : along fs_new_dirs (Fs.makedirs d).
Proof.
  unfold Fs.makedirs. destruct (String.eqb d ""); [by intros fs; left|].
  apply along_bind; [apply _| |intros _; apply mkdir_exist_ok_new_dirs].
  apply along_for_each; [apply _|]. intros x _. apply mkdir_exist_ok_new_dirs.
Qed.

(** When it returns, the directory is there. *)
Lemma makedirs_Ok (d : string) (fs fs' : gmap string entry) :
  Fs.makedirs d fs = (fs', Ok tt) → fs' !! d = Some Dir.
Proof.
  unfold Fs.makedirs. destruct (String.eqb d ""); [done|].
  intros (fs1 & [] & _ & H)%bind_inv_Ok. revert H.
  unfold Fs.mkdir_exist_ok. destruct (fs1 !! d) as [[c|]|] eqn:Hd.
  - done.
  - by intros [= <-].
  - intros [= <-]. by rewrite lookup_insert_eq.
Qed.

Lemma read_file_fs (p : string) (fs : gmap string entry) :
  (Fs.read_file p fs).1 = fs.
Proof. unfold Fs.read_file. by destruct (fs !! p) as [[]|]. Qed.

Lemma read_file_Ok (p c : string) (fs : gmap string entry) :
  fs !! p = Some (File c) → Fs.read_file p fs = (fs, Ok c).
Proof. intros H. unfold Fs.read_file. by rewrite H. Qed.

Lemma listdir_fs (d : string) (fs : gmap string entry) :
  (Fs.listdir d fs).1 = fs.
Proof.
  unfold Fs.listdir. destruct (String.eqb d ""); [done|].
  by destruct (fs !! d) as [[]|].
Qed.

Lemma write_file_lookup (p c : string) (fs : gmap string entry) (q : string) :
  q ≠ p → (Fs.write_file p c fs).1 !! q = fs !! q.
Proof.
  intros Hne. unfold Fs.write_file.
  destruct (fs !! p) as [[]|], (Fs.dir_present fs (Fs.dirname p)); cbn;
    by rewrite ?lookup_insert_ne.
Qed.

Lemma write_file_Ok (p c : string) (fs fs' : gmap string entry) :
  Fs.write_file p c fs = (fs', Ok tt) → fs' = <[p := File c]> fs.
Proof.
  unfold Fs.write_file.
  destruct (fs !! p) as [[]|], (Fs.dir_present fs (Fs.dirname p)); by intros [= <-].
Qed.

Lemma write_file_keeps (P : string → Prop) (p c : string) :
  along (fs_keeps P) (Fs.write_file p c).
Proof.
  intros fs q _ Hq. destruct (decide (q = p)) as [->|Hne].
  - unfold Fs.write_file.
    destruct (fs !! p) as [[]|] eqn:Hp, (Fs.dir_present fs (Fs.dirname p)); cbn;
      rewrite ?lookup_insert_eq, ?Hp; by eauto.
  - by rewrite write_file_lookup.
Qed.

Lemma remove_lookup (p : string) (fs : gmap string entry) (q : string) :
  q ≠ p → (Fs.remove p fs).1 !! q = fs !! q.
Proof.
  intros Hne. unfold Fs.remove.
  destruct (fs !! p) as [[]|]; cbn; by rewrite ?lookup_delete_ne.
Qed.

(* ===================================================================== *)
(** * Properties of the table splitter *)
(* ===================================================================== *)

Section SplitterProperties.
Variable read_csv : header → string → result DataFrame.
Variable to_csv : DataFrame → string.

Local Abbreviation split_lines := (split_lines read_csv).
Local Abbreviation parse_tables := (parse_tables read_csv).
Local Abbreviation _split_file := (_split_file read_csv to_csv).

(** C1. A section that a further marker line closes (a marker met while a
    section name is set) is parsed from the lines buffered since its own
    marker, with no header row exactly when its name is the literal
    ["Heading"] and with the header inferred for any other name, and the
    table is stored under the section name. *)
Theorem C1_midfile_section_header_rule
    (pre body : list string) (m m2 : string) (st1 : split_state) :
  is_marker m = true → is_marker m2 = true →
  Forall (λ l, is_marker l = false) body →
  Py.strip MARKER_CHARS m ≠ "" →
  split_lines (pre ++ [m]) split_init = Ok st1 →
  let name := Py.strip MARKER_CHARS m in
  let h := if decide (name = "Heading") then HeaderNone else HeaderInfer in
  split_lines (pre ++ m :: body ++ [m2]) split_init =
    (try df := read_csv h (Py.concat body) in
     Ok {| dfs := dict_set (dfs st1) (Some name) df;
           write_key := Some (Py.strip MARKER_CHARS m2);
           fio := "" |})
  ∧ (h = HeaderNone ↔ name = "Heading")
  ∧ (name ≠ "Heading" → h = HeaderInfer)
  ∧ ∀ df, read_csv h (Py.concat body) = Ok df →
      ∃ st2, split_lines (pre ++ m :: body ++ [m2]) split_init = Ok st2
             ∧ dict_get (dfs st2) (Some name) = Some df.
Proof.
  intros Hm Hm2 Hbody Hname Hst1 name h.
  assert (Hscan := split_lines_section_closed read_csv pre body m m2 st1
                     Hm Hm2 Hbody Hname Hst1).
  rewrite header_for_Some in Hscan. fold name h in Hscan.
  split; [exact Hscan|]. split; [|split].
  - subst h. case_decide; [done|]. split; [done|]. intros; done.
  - intros Hne. subst h. by case_decide.
  - intros df Hdf. rewrite Hscan, Hdf. cbn. eexists. split; [done|].
    cbn. apply dict_get_set_eq.
Qed.

(** C2. A last section that the end of the file closes is parsed from
    its buffered lines with the header inferred, whatever its name; for a
    section named ["Heading"] this differs from what the same lines give
    when a further marker follows, which is a parse with no header row. *)
Theorem C2_eof_section_header_inferred
    (pre body : list string) (m : string) (st1 : split_state) :
  is_marker m = true →
  Forall (λ l, is_marker l = false) body →
  Py.strip MARKER_CHARS m ≠ "" →
  split_lines (pre ++ [m]) split_init = Ok st1 →
  let name := Py.strip MARKER_CHARS m in
  parse_tables (pre ++ m :: body) =
    (try df := read_csv HeaderInfer (Py.concat body) in
     Ok (dict_set (dfs st1) (Some name) df))
  ∧ (name = "Heading" → ∀ m2, is_marker m2 = true →
       split_lines (pre ++ m :: body ++ [m2]) split_init =
        (try df := read_csv HeaderNone (Py.concat body) in
         Ok {| dfs := dict_set (dfs st1) (Some name) df;
               write_key := Some (Py.strip MARKER_CHARS m2);
               fio := "" |})).
Proof.
  intros Hm Hbody Hname Hst1 name. split.
  - by apply parse_tables_section_open.
  - intros Hh m2 Hm2.
    rewrite (split_lines_section_closed read_csv pre body m m2 st1) by done.
    fold name. by rewrite Hh.
Qed.

(** The last section under a name decides the table kept under it. *)
Lemma parse_tables_last_section
    (pre body rest : list string) (m : string)
    (tables : list (option string * DataFrame)) :
  is_marker m = true →
  Py.strip MARKER_CHARS m ≠ "" →
  Forall (λ l, is_marker l = false) body →
  match rest with [] => True | m2 :: _ => is_marker m2 = true end →
  Forall (λ l, is_marker l = true →
               Py.strip MARKER_CHARS l ≠ Py.strip MARKER_CHARS m) rest →
  parse_tables (pre ++ m :: body ++ rest) = Ok tables →
  ∃ df,
    read_csv (match rest with
              | [] => HeaderInfer
              | _ => header_for (Some (Py.strip MARKER_CHARS m))
              end) (Py.concat body) = Ok df
    ∧ dict_get tables (Some (Py.strip MARKER_CHARS m)) = Some df.
Proof.
  intros Hm Hname Hbody Hrest Hother Htab.
  set (name := Py.strip MARKER_CHARS m) in *.
  destruct (split_lines (pre ++ [m]) split_init) as [st1|e] eqn:Hst1.
  2:{ exfalso. revert Htab. unfold parse_tables.
      replace (pre ++ m :: body ++ rest) with ((pre ++ [m]) ++ body ++ rest)
        by (by rewrite <-app_assoc).
      by rewrite split_lines_app, Hst1. }
  destruct rest as [|m2 rest].
  - rewrite app_nil_r in Htab.
    rewrite (parse_tables_section_open read_csv pre body m st1) in Htab
      by done.
    destruct (read_csv HeaderInfer (Py.concat body)) as [df|e]; [|done].
    exists df. split; [done|]. cbn in Htab. injection Htab as <-.
    apply dict_get_set_eq.
  - apply Forall_cons in Hother as [Hm2 Hother].
    revert Htab. unfold parse_tables.
    replace (pre ++ m :: body ++ m2 :: rest)
      with ((pre ++ m :: body ++ [m2]) ++ rest)
      by (by rewrite <-!app_assoc, <-app_comm_cons, <-app_assoc).
    rewrite split_lines_app.
    rewrite (split_lines_section_closed read_csv pre body m m2 st1) by done.
    fold name.
    destruct (read_csv (header_for (Some name)) (Py.concat body))
      as [df|e]; [|done].
    cbn [rbind].
    match goal with |- context [split_lines rest ?s] => set (st2 := s) end.
    destruct (split_lines rest st2) as [st3|e] eqn:Hst3; [|done]. cbn [rbind].
    destruct (read_csv HeaderInfer (fio st3)) as [df3|e]; [|done]. cbn.
    intros [= <-]. exists df. split; [done|].
    assert (Hk2 : write_key st2 ≠ Some name).
    { subst st2. cbn. intros [= ?]. by apply Hm2. }
    destruct (split_lines_other read_csv name rest st2 st3 Hk2 Hother Hst3)
      as [Hk3 Hg3].
    rewrite dict_get_set_ne by done. rewrite Hg3. subst st2. cbn.
    apply dict_get_set_eq.
Qed.

(** Without a marker line the scan leaves its locals as they were, and the
    end-of-file statements read the empty buffer under the key [None]. *)
Lemma parse_tables_no_marker (lines : list string) :
  Forall (λ l, is_marker l = false) lines →
  parse_tables lines =
  try df := read_csv HeaderInfer "" in Ok [(None, df)].
Proof.
  intros Hl. unfold parse_tables.
  by rewrite split_lines_no_marker.
Qed.

(** After a marker on the last line the buffer is empty at the end of the
    file. *)
Lemma parse_tables_marker_last (pre : list string) (m : string) :
  is_marker m = true →
  parse_tables (pre ++ [m]) =
  try st := split_lines (pre ++ [m]) split_init in
  try df := read_csv HeaderInfer "" in
  Ok (dict_set (dfs st) (write_key st) df).
Proof.
  intros Hm. unfold parse_tables.
  destruct (split_lines (pre ++ [m]) split_init) as [st|e] eqn:Hst; [|done].
  destruct (split_lines_marker_last read_csv pre m _ _ Hm Hst) as [_ Hf].
  cbn. by rewrite Hf.
Qed.

(** A file whose text does not parse is left at that: nothing is written. *)
Lemma split_file_parse_error (n filepath text : string) (e : error)
    (fs : gmap string entry) :
  fs !! filepath = Some (File text) →
  parse_tables (Py.file_lines text) = Raise e →
  _split_file n filepath fs = (fs, Raise e).
Proof.
  intros Hf Hp. unfold _split_file.
  rewrite (bind_Ok _ _ fs fs text) by by apply read_file_Ok.
  unfold bind, lift. by rewrite Hp.
Qed.

End SplitterProperties.

(* ===================================================================== *)
(** * Directories of the tasks *)
(* ===================================================================== *)

Lemma lstrip_app_stop (chars : list ascii) (x y : string) (c : ascii) :
  c ∉ chars → Py.lstrip chars (x +:+ String c y) ≠ "".
Proof.
  intros Hc. induction x as [|a x IH].
  - rewrite append_nil_l. cbn. by rewrite bool_decide_eq_false_2.
  - rewrite append_cons. cbn. by case_bool_decide.
Qed.

Lemma has_slash_app (a b : string) :
  Fs.has_slash (a +:+ b) = Fs.has_slash a || Fs.has_slash b.
Proof.
  induction a as [|c a IH]; [done|].
  rewrite append_cons. cbn. by rewrite IH, orb_assoc.
Qed.

Lemma head_part_no_slash (b : string) :
  Fs.has_slash b = false → Fs.head_part b = "".
Proof.
  destruct b as [|c b]; [done|]. cbn. by intros ->.
Qed.

Lemma head_part_app (a b : string) :
  Fs.head_part (a +:+ String "/" b) = a +:+ String "/" (Fs.head_part b).
Proof.
  induction a as [|c a IH].
  - by rewrite !append_nil_l.
  - rewrite !append_cons. cbn [Fs.head_part].
    rewrite has_slash_app. cbn [Fs.has_slash]. rewrite Ascii.eqb_refl.
    cbn [orb]. by rewrite !orb_true_r, IH.
Qed.

Lemma plain_path_nonempty (d : string) : plain_path d → d ≠ "".
Proof. intros (x & c & -> & _). by destruct x. Qed.

Lemma plain_path_endswith (d : string) :
  plain_path d → Py.endswith "/" d = false.
Proof.
  intros (x & c & -> & Hc). apply endswith_same_length; [done|congruence].
Qed.

Lemma plain_path_join (d b : string) :
  plain_path d → Fs.has_slash b = false →
  Py.path_join d b = d +:+ String "/" b.
Proof.
  intros Hd Hb. rewrite path_join_child by eauto using plain_path_nonempty.
  unfold Fs.dir_prefix. rewrite plain_path_endswith by done.
  by rewrite append_assoc.
Qed.

(** [os.path.dirname(os.path.join(d, b)) == d] for a plain name [b]. *)
Lemma dirname_join (d b : string) :
  plain_path d → Fs.has_slash b = false →
  Fs.dirname (Py.path_join d b) = d.
Proof.
  intros Hd Hb. rewrite plain_path_join by done.
  unfold Fs.dirname. rewrite head_part_app, head_part_no_slash by done.
  destruct Hd as (x & c & -> & Hc).
  assert (Hnot : Fs.all_slashes ((x +:+ String c "") +:+ "/") = false).
  { unfold Fs.all_slashes. apply String.eqb_neq.
    rewrite append_assoc. apply lstrip_app_stop.
    rewrite list_elem_of_singleton. congruence. }
  rewrite Hnot.
  rewrite (rstrip_snoc _ (x +:+ String c "") "/").
  rewrite bool_decide_eq_true_2 by (by apply list_elem_of_singleton).
  rewrite rstrip_snoc. rewrite bool_decide_eq_false_2; [done|].
  rewrite list_elem_of_singleton. congruence.
Qed.

(** A path that [os.path.join] ends with a name that is not empty and
    does not end with a separator is plain. *)
Lemma path_join_plain (a b : string) (c : ascii) :
  c ≠ "/"%char → plain_path (Py.path_join a (b +:+ String c "")).
Proof.
  intros Hc. destruct (path_join_suffix a (b +:+ String c "")) as [x ->].
  exists (x +:+ b), c. by rewrite append_assoc.
Qed.

Lemma SplitTables_output_plain (n : string) :
  plain_path (SplitTables_output n).
Proof.
  unfold SplitTables_output.
  replace (n +:+ "_split") with ((n +:+ "_spli") +:+ "t")
    by (by rewrite append_assoc).
  by apply path_join_plain.
Qed.

Lemma RemoveColumns_output_plain (n : string) :
  plain_path (RemoveColumns_output n).
Proof.
  unfold RemoveColumns_output.
  replace (n +:+ "_final") with ((n +:+ "_fina") +:+ "l")
    by (by rewrite append_assoc).
  by apply path_join_plain.
Qed.

(** [os.makedirs(d)] touches no path longer than [d]. *)
Lemma ancestors_from_length (pre s x : string) :
  x ∈ Fs.ancestors_from pre s →
  String.length x < String.length pre + String.length s.
Proof.
  revert pre. induction s as [|c s IH]; intros pre; cbn [Fs.ancestors_from].
  - by intros ?%elem_of_nil.
  - intros [Hx|Hx]%elem_of_app.
    + destruct (_ && _); [|by apply elem_of_nil in Hx].
      apply list_elem_of_singleton in Hx as ->. cbn. lia.
    + apply IH in Hx. rewrite append_length in Hx. cbn in *. lia.
Qed.

Lemma for_each_mkdir_lookup (xs : list string) (b : bool) (p : string)
    (fs : gmap string entry) :
  p ∉ xs → (for_each xs (Fs.mkdir_exist_ok b) fs).1 !! p = fs !! p.
Proof.
  revert fs. induction xs as [|x xs IH]; intros fs Hp; [done|].
  apply not_elem_of_cons in Hp as [Hne Hp].
  cbn. unfold bind.
  destruct (Fs.mkdir_exist_ok b x fs) as [fs1 [[]|e]] eqn:Hx.
  - rewrite IH by done. revert Hx. unfold Fs.mkdir_exist_ok.
    destruct (fs !! x) as [[]|]; intros [= <-]; [done|].
    by rewrite lookup_insert_ne.
  - revert Hx. unfold Fs.mkdir_exist_ok.
    destruct (fs !! x) as [[]|]; by intros [= <-].
Qed.

Lemma makedirs_lookup_longer (d p : string) (fs : gmap string entry) :
  String.length d < String.length p →
  (Fs.makedirs d fs).1 !! p = fs !! p.
Proof.
  intros Hlen. unfold Fs.makedirs. destruct (String.eqb d ""); [done|].
  unfold bind.
  destruct (for_each _ _ fs) as [fs1 [[]|e]] eqn:Hfor.
  - assert (fs1 !! p = fs !! p) as <-.
    { change fs1 with (fs1, Ok tt : result unit).1. rewrite <-Hfor.
      apply for_each_mkdir_lookup. intros Hx%ancestors_from_length.
      cbn in Hx. lia. }
    unfold Fs.mkdir_exist_ok.
    destruct (fs1 !! d) as [[]|]; cbn; [done..|].
    rewrite lookup_insert_ne; [done|]. intros ->. lia.
  - change fs1 with (fs1, Raise e : result unit).1. rewrite <-Hfor.
    apply for_each_mkdir_lookup. intros Hx%ancestors_from_length.
    cbn in Hx. lia.
Qed.

(* ===================================================================== *)
(** * Properties of the column trimmer *)
(* ===================================================================== *)

Lemma drop_columns_missing (labels : list string) (df : DataFrame)
    (c : string) :
  c ∈ labels → Name c ∉ columns df →
  ∃ missing,
    drop_columns labels df = Raise (KeyError missing)
    ∧ c ∈ missing
    ∧ missing = filter (λ l, Name l ∉ columns df) labels.
Proof.
  intros Hc Hmiss. unfold drop_columns.
  assert (Hin : c ∈ filter (λ l, Name l ∉ columns df) labels)
    by (by apply list_elem_of_filter).
  destruct (filter _ labels) as [|l ls] eqn:Hf.
  - by apply elem_of_nil in Hin.
  - by exists (l :: ls).
Qed.

Lemma drop_columns_present (labels : list string) (df : DataFrame) :
  (∀ c, c ∈ labels → Name c ∈ columns df) →
  drop_columns labels df = Ok (filter (λ c, c.1 ∉ Name <$> labels) df).
Proof.
  intros Hall. unfold drop_columns.
  destruct (filter _ labels) as [|l ls] eqn:Hf; [done|].
  assert (Hl : l ∈ filter (λ l, Name l ∉ columns df) labels)
    by (rewrite Hf; left).
  apply list_elem_of_filter in Hl as [Hl1 Hl2]. by destruct Hl1; apply Hall.
Qed.

Lemma columns_drop (labels : list string) (df : DataFrame) :
  columns (filter (λ c, c.1 ∉ Name <$> labels) df)
  = filter (λ l, l ∉ Name <$> labels) (columns df).
Proof.
  unfold columns. induction df as [|[l cells] df IH]; [done|].
  rewrite filter_cons, fmap_cons, filter_cons. cbn [fst].
  case_decide; [rewrite fmap_cons; cbn [fst]|]; by rewrite IH.
Qed.

Lemma filter_ext_in {A} (P Q : A → Prop) `{!∀ x, Decision (P x)}
    `{!∀ x, Decision (Q x)} (l : list A) :
  (∀ x, x ∈ l → P x ↔ Q x) → filter P l = filter Q l.
Proof.
  induction l as [|x l IH]; intros Hl; [done|].
  rewrite !filter_cons.
  rewrite IH by (intros y Hy; apply Hl; by right).
  destruct (decide (P x)) as [HP|HP], (decide (Q x)) as [HQ|HQ]; try done.
  - destruct HQ. by apply Hl; [left|].
  - destruct HP. by apply Hl; [left|].
Qed.

Section TrimmerProperties.
Variable read_csv : header → string → result DataFrame.
Variable to_csv : DataFrame → string.

Local Abbreviation RemoveColumns_run := (RemoveColumns_run read_csv to_csv).

(** What the stage does once its directory is there and the [Probes]
    table has been read. *)
Lemma RemoveColumns_run_read (n text : string) (df : DataFrame)
    (fs fs1 : gmap string entry) :
  Fs.makedirs (RemoveColumns_output n) fs = (fs1, Ok tt) →
  fs !! Py.path_join (RemoveColumns_input n) "Probes.tsv" = Some (File text) →
  read_csv HeaderInfer text = Ok df →
  RemoveColumns_run n fs =
  match drop_columns COLUMNS_TO_DROP df with
  | Ok df' =>
      Fs.write_file
        (Py.path_join (RemoveColumns_output n) "Probes_trimmed.tsv")
        (to_csv df') fs1
  | Raise e => (fs1, Raise e)
  end.
Proof.
  intros Hmk Hfile Hread. unfold RemoveColumns_run.
  rewrite (bind_Ok _ _ _ _ _ Hmk).
  assert (Hfile1 : fs1 !! Py.path_join (RemoveColumns_input n) "Probes.tsv"
                   = Some (File text)).
  { eapply fs_new_dirs_file; [|exact Hfile].
    change fs1 with (fs1, Ok tt : result unit).1. rewrite <-Hmk.
    apply makedirs_new_dirs. }
  rewrite (bind_Ok _ _ _ _ _ (read_file_Ok _ _ _ Hfile1)).
  unfold bind at 1, lift at 1. rewrite Hread.
  unfold bind, lift. by destruct (drop_columns _ _).
Qed.

(** C4. When the [Probes] table lacks one of the seven target columns,
    the stage fails and writes no table: every file it leaves was there
    before with the same text; once its directory could be made, the
    failure is the [KeyError] of the missing columns, raised with the
    directory as the only change.  The failure is what [run] returns for
    the task. *)
Theorem C4_missing_column_fails
    (download extractall : string → string → M unit)
    (n text c : string) (df : DataFrame) (fs : gmap string entry) :
  fs !! Py.path_join (RemoveColumns_input n) "Probes.tsv" = Some (File text) →
  read_csv HeaderInfer text = Ok df →
  c ∈ COLUMNS_TO_DROP → Name c ∉ columns df →
  ∃ fs' e,
    RemoveColumns_run n fs = (fs', Raise e)
    ∧ run read_csv to_csv download extractall (RemoveColumns n) fs
      = (fs', Raise e)
    ∧ (∀ p t, fs' !! p = Some (File t) → fs !! p = Some (File t))
    ∧ (∀ fs1, Fs.makedirs (RemoveColumns_output n) fs = (fs1, Ok tt) →
         fs' = fs1
         ∧ e = KeyError (filter (λ l, Name l ∉ columns df) COLUMNS_TO_DROP)
         ∧ c ∈ filter (λ l, Name l ∉ columns df) COLUMNS_TO_DROP).
Proof.
  intros Hfile Hread Hc Hmiss.
  destruct (drop_columns_missing _ _ _ Hc Hmiss) as (missing & Hdrop & Hin & ->).
  assert (Hdirs := makedirs_new_dirs (RemoveColumns_output n) fs).
  destruct (Fs.makedirs (RemoveColumns_output n) fs) as [fs1 [[]|e]] eqn:Hmk.
  - exists fs1, (KeyError (filter (λ l, Name l ∉ columns df) COLUMNS_TO_DROP)).
    assert (Hrun := RemoveColumns_run_read n text df fs fs1 Hmk Hfile Hread).
    rewrite Hdrop in Hrun. split; [done|]. split; [done|]. split.
    + intros p t Hp. by apply (fs_new_dirs_file fs fs1 p t Hdirs).
    + by intros ? [= <-].
  - assert (Hrun : RemoveColumns_run n fs = (fs1, Raise e)).
    { unfold RemoveColumns_run. by rewrite (bind_Raise _ _ _ _ _ Hmk). }
    exists fs1, e. split; [done|]. split; [done|]. split; [|done].
    intros p t Hp. by apply (fs_new_dirs_file fs fs1 p t Hdirs).
Qed.

(** C5, as the code has it. When the [Probes] table has the columns
    [Probe_Id] and [GeneSymbol] and all seven target columns, in any
    order, the stage writes to [Probes_trimmed.tsv] a table whose columns
    are exactly [Probe_Id] and [GeneSymbol], in the order they had. *)
Theorem C5_trim_keeps_other_columns
    (n text : string) (df : DataFrame) (fs fs1 : gmap string entry) :
  Fs.makedirs (RemoveColumns_output n) fs = (fs1, Ok tt) →
  fs !! Py.path_join (RemoveColumns_input n) "Probes.tsv" = Some (File text) →
  read_csv HeaderInfer text = Ok df →
  columns df ≡ₚ Name <$> "Probe_Id" :: "GeneSymbol" :: COLUMNS_TO_DROP →
  fs !! Py.path_join (RemoveColumns_output n) "Probes_trimmed.tsv"
    ≠ Some Dir →
  ∃ df',
    drop_columns COLUMNS_TO_DROP df = Ok df'
    ∧ columns df'
      = filter (λ l, l ∈ [Name "Probe_Id"; Name "GeneSymbol"]) (columns df)
    ∧ columns df' ≡ₚ [Name "Probe_Id"; Name "GeneSymbol"]
    ∧ RemoveColumns_run n fs =
        (<[Py.path_join (RemoveColumns_output n) "Probes_trimmed.tsv"
           := File (to_csv df')]> fs1, Ok tt).
Proof.
  intros Hmk Hfile Hread Hcols Hnodir.
  set (trimmed := Py.path_join (RemoveColumns_output n) "Probes_trimmed.tsv")
    in *.
  assert (Hall : ∀ c, c ∈ COLUMNS_TO_DROP → Name c ∈ columns df).
  { intros c Hc. rewrite Hcols. do 2 right. by apply list_elem_of_fmap_2. }
  eexists. split; [by apply drop_columns_present|].
  assert (Hsame :
    filter (λ l, l ∉ Name <$> COLUMNS_TO_DROP) (columns df)
    = filter (λ l, l ∈ [Name "Probe_Id"; Name "GeneSymbol"]) (columns df)).
  { apply filter_ext_in. intros l Hl. rewrite Hcols in Hl.
    revert Hl. cbn. rewrite !elem_of_cons, !elem_of_nil.
    intros Hl. split.
    - intros Hnot.
      destruct Hl as [->|[->|Hl]]; [tauto..|]. exfalso. tauto.
    - intros [->|[->|[]]] Hin;
        repeat (destruct Hin as [?|Hin]; [done|]); done. }
  split; [|split].
  - by rewrite columns_drop.
  - rewrite columns_drop, Hsame.
    rewrite Hcols. done.
  - rewrite (RemoveColumns_run_read n text df fs fs1) by done.
    rewrite drop_columns_present by done.
    unfold Fs.write_file. fold trimmed.
    assert (Hlen : String.length (RemoveColumns_output n)
                   < String.length trimmed).
    { subst trimmed. rewrite plain_path_join
        by (auto using RemoveColumns_output_plain).
      rewrite append_length. cbn. lia. }
    assert (Ht1 : fs1 !! trimmed = fs !! trimmed).
    { change fs1 with (fs1, Ok tt : result unit).1. rewrite <-Hmk.
      by apply makedirs_lookup_longer. }
    assert (Hdir : Fs.dir_present fs1 (Fs.dirname trimmed) = true).
    { subst trimmed. rewrite dirname_join
        by (auto using RemoveColumns_output_plain).
      unfold Fs.dir_present. rewrite (makedirs_Ok _ _ _ Hmk).
      rewrite bool_decide_eq_true_2 by done. apply orb_true_r. }
    rewrite Ht1, Hdir. by destruct (fs !! trimmed) as [[]|].
Qed.

End TrimmerProperties.

(* ===================================================================== *)
(** * Listing and emptying a directory *)
(* ===================================================================== *)

Lemma NoDup_omap_inj {A B} (f : A → option B) (l : list A) :
  (∀ x y z, f x = Some z → f y = Some z → x = y) →
  NoDup l → NoDup (omap f l).
Proof.
  intros Hinj. induction 1 as [|x l Hx _ IH]; cbn; [apply NoDup_nil_2|].
  destruct (f x) as [z|] eqn:Hz; [|done].
  apply NoDup_cons. split; [|done].
  intros (y & Hy & Hfy)%list_elem_of_omap.
  by rewrite (Hinj _ _ _ Hz Hfy) in Hx.
Qed.

Lemma path_join_child_inj (d a b : string) :
  d ≠ "" → Fs.has_slash a = false → Fs.has_slash b = false →
  Py.path_join d a = Py.path_join d b → a = b.
Proof.
  intros Hd Ha Hb. rewrite !path_join_child by done.
  apply String.app_inj.
Qed.

(** What [os.listdir] returns for a directory: the names, without
    repetition, of the paths that lie directly in it. *)
Lemma listdir_Ok (d : string) (fs : gmap string entry) :
  d ≠ "" → fs !! d = Some Dir →
  ∃ names,
    Fs.listdir d fs = (fs, Ok names)
    ∧ NoDup names
    ∧ ∀ name, name ∈ names ↔
        Fs.has_slash name = false ∧ name ≠ ""
        ∧ is_Some (fs !! Py.path_join d name).
Proof.
  intros Hd Hdir. eexists. split; [|split].
  - unfold Fs.listdir. apply String.eqb_neq in Hd as ->. by rewrite Hdir.
  - apply NoDup_omap_inj; [|apply NoDup_fst_map_to_list].
    intros x y z [-> _]%child_name_Some [-> _]%child_name_Some; done.
  - intros name. rewrite list_elem_of_omap. split.
    + intros (p & Hp & Hname).
      apply child_name_Some in Hname as (-> & ? & ?); [|done].
      split; [done|]. split; [done|].
      apply list_elem_of_fmap in Hp as ([p e] & -> & Hp).
      apply elem_of_map_to_list in Hp. by exists e.
    + intros (Hs & Hne & [e He]).
      exists (Py.path_join d name). split; [|by apply child_name_join].
      apply list_elem_of_fmap. exists (Py.path_join d name, e).
      split; [done|]. by apply elem_of_map_to_list.
Qed.

(** The loop of [Cleanup.run] over the names of a listing. *)
Lemma cleanup_loop_Ok (d : string) (names : list string)
    (fs : gmap string entry) :
  d ≠ "" → NoDup names →
  (∀ name, name ∈ names → Fs.has_slash name = false) →
  (∀ name, name ∈ names → Py.endswith ".txt" name = true →
           ∃ c, fs !! Py.path_join d name = Some (File c)) →
  ∃ fs1,
    for_each names (λ filename,
      if Py.endswith ".txt" filename
      then Fs.remove (Py.path_join d filename) else ret tt) fs
    = (fs1, Ok tt)
    ∧ (∀ name, name ∈ names → Py.endswith ".txt" name = true →
               fs1 !! Py.path_join d name = None)
    ∧ (∀ p, (∀ name, name ∈ names → Py.endswith ".txt" name = true →
                     p ≠ Py.path_join d name) →
            fs1 !! p = fs !! p).
Proof.
  intros Hd Hnd. revert fs.
  induction Hnd as [|x xs Hx Hnd IH]; intros fs Hplain Hfiles.
  { exists fs. split; [done|]. split; [by intros ? ?%elem_of_nil|done]. }
  assert (Hinj : ∀ name, name ∈ xs → Py.path_join d name ≠ Py.path_join d x).
  { intros name Hname Heq.
    apply path_join_child_inj in Heq; [|done|apply Hplain; by right
                                       |apply Hplain; by left].
    by subst. }
  cbn [for_each].
  destruct (Py.endswith ".txt" x) eqn:Htxt.
  - destruct (Hfiles x) as [c Hc]; [by left|done|].
    destruct (IH (delete (Py.path_join d x) fs)) as (fs1 & Hrun & Hgone & Hrest).
    { intros name Hname. apply Hplain. by right. }
    { intros name Hname Hn. destruct (Hfiles name) as [c' Hc']; [by right|done|].
      exists c'. rewrite lookup_delete_ne; [done|]. intros Heq.
      by apply (Hinj name). }
    exists fs1. split; [|split].
    + unfold bind. unfold Fs.remove at 1. by rewrite Hc.
    + intros name [->|Hname]%elem_of_cons Hn; [|by apply Hgone].
      rewrite Hrest; [apply lookup_delete_eq|].
      intros name Hname _ Heq. by apply (Hinj name).
    + intros p Hp. rewrite Hrest.
      * apply lookup_delete_ne. intros Heq. apply (Hp x); [by left|done|done].
      * intros name Hname. apply Hp. by right.
  - destruct (IH fs) as (fs1 & Hrun & Hgone & Hrest).
    { intros name Hname. apply Hplain. by right. }
    { intros name Hname. apply Hfiles. by right. }
    exists fs1. split; [done|]. split.
    + intros name [->|Hname]%elem_of_cons Hn; [congruence|by apply Hgone].
    + intros p Hp. apply Hrest. intros name Hname. apply Hp. by right.
Qed.

Lemma endswith_nonempty (suf s : string) :
  suf ≠ "" → Py.endswith suf s = true → s ≠ "".
Proof.
  intros Hsuf [a ->]%endswith_spec Heq.
  destruct a; [by rewrite append_nil_l in Heq|by rewrite append_cons in Heq].
Qed.

Lemma endswith_path_join (suf d name : string) :
  Py.endswith suf name = true → Py.endswith suf (Py.path_join d name) = true.
Proof.
  intros [a ->]%endswith_spec.
  destruct (path_join_suffix d (a +:+ suf)) as [x ->].
  rewrite <-append_assoc. apply endswith_app.
Qed.

Lemma remove_same (P : string → Prop) (p : string) :
  ¬ P p → along (fs_same P) (Fs.remove p).
Proof.
  intros Hp fs q Hq. apply remove_lookup. by intros ->.
Qed.

Lemma write_file_same (P : string → Prop) (p c : string) :
  ¬ P p → along (fs_same P) (Fs.write_file p c).
Proof.
  intros Hp fs q Hq. apply write_file_lookup. by intros ->.
Qed.

Lemma listdir_along (R : relation (gmap string entry)) `{!Reflexive R}
    (d : string) : along R (Fs.listdir d).
Proof. intros fs. by rewrite listdir_fs. Qed.

Lemma read_file_along (R : relation (gmap string entry)) `{!Reflexive R}
    (p : string) : along R (Fs.read_file p).
Proof. intros fs. by rewrite read_file_fs. Qed.

(** [Cleanup.run] changes nothing but paths that end with [".txt"]. *)
Lemma Cleanup_run_same (n : string) :
  along (fs_same (λ p, Py.endswith ".txt" p = false)) (Cleanup_run n).
Proof.
  unfold Cleanup_run.
  apply along_bind; [apply _|by apply listdir_along|]. intros names.
  apply along_bind; [apply _| |].
  - apply along_for_each; [apply _|]. intros name _.
    destruct (Py.endswith ".txt" name) eqn:Hn; [|by apply along_ret].
    apply remove_same. by rewrite endswith_path_join.
  - intros _. apply write_file_same. unfold Cleanup_output.
    by rewrite endswith_path_join.
Qed.

(** When [Cleanup.run] returns, the marker is there. *)
Lemma Cleanup_run_marker (n : string) (fs fs' : gmap string entry) :
  Cleanup_run n fs = (fs', Ok tt) →
  fs' !! Cleanup_output n = Some (File CLEANUP_MESSAGE).
Proof.
  unfold Cleanup_run.
  intros (fs1 & names & _ & (fs2 & [] & _ & Hw)%bind_inv_Ok)%bind_inv_Ok.
  apply write_file_Ok in Hw as ->. apply lookup_insert_eq.
Qed.

(** [Cleanup.run] returns when its input directory is there and holds no
    directory under a name that ends with [".txt"]. *)
Lemma Cleanup_run_Ok (n : string) (fs : gmap string entry) :
  fs !! Cleanup_input n = Some Dir →
  (∀ name, Py.endswith ".txt" name = true →
           fs !! Py.path_join (Cleanup_input n) name ≠ Some Dir) →
  ∃ fs', Cleanup_run n fs = (fs', Ok tt).
Proof.
  intros Hdir Hnodir.
  assert (Hplain := RemoveColumns_output_plain n).
  fold (Cleanup_input n) in Hplain.
  assert (Hd : Cleanup_input n ≠ "") by by apply plain_path_nonempty.
  destruct (listdir_Ok _ _ Hd Hdir) as (names & Hls & Hnd & Hnames).
  destruct (cleanup_loop_Ok (Cleanup_input n) names fs)
    as (fs1 & Hloop & Hgone & Hrest); [done|done|..].
  { intros name Hname. by apply Hnames. }
  { intros name (_ & _ & [e He])%Hnames Htxt.
    destruct e as [c|]; [by exists c|]. by destruct (Hnodir name). }
  unfold Cleanup_run. rewrite (bind_Ok _ _ _ _ _ Hls).
  rewrite (bind_Ok _ _ _ _ _ Hloop).
  assert (Hdir1 : fs1 !! Cleanup_input n = Some Dir).
  { rewrite Hrest; [done|]. intros name (_ & _ & [e He])%Hnames Htxt Heq.
    rewrite <-Heq, Hdir in He. injection He as <-.
    destruct (Hnodir name Htxt). by rewrite <-Heq. }
  assert (Hmarker : fs1 !! Cleanup_output n ≠ Some Dir).
  { unfold Cleanup_output.
    destruct (decide ("cleanup_complete.txt" ∈ names)) as [Hin|Hout].
    - by rewrite Hgone.
    - rewrite Hrest; [by apply Hnodir|].
      intros name Hname _ Heq.
      apply path_join_child_inj in Heq; [|done|done|by apply Hnames].
      by subst. }
  assert (Hdn : Fs.dirname (Cleanup_output n) = Cleanup_input n)
    by (by apply dirname_join).
  unfold Fs.write_file, Fs.dir_present. rewrite Hdn, Hdir1.
  rewrite bool_decide_eq_true_2, orb_true_r by done.
  destruct (fs1 !! Cleanup_output n) as [[]|]; by eauto.
Qed.

(* ===================================================================== *)
(** * Properties of the cleanup task *)
(* ===================================================================== *)

Lemma head_part_join (d b : string) :
  plain_path d → Fs.has_slash b = false →
  Fs.head_part (Py.path_join d b) = d +:+ "/".
Proof.
  intros Hd Hb. rewrite plain_path_join by done.
  by rewrite head_part_app, head_part_no_slash.
Qed.

(** Paths that lie directly in two directories coincide only when the
    directories do. *)
Lemma path_join_same_dir (d1 d2 a b : string) :
  plain_path d1 → plain_path d2 →
  Fs.has_slash a = false → Fs.has_slash b = false →
  Py.path_join d1 a = Py.path_join d2 b → d1 = d2.
Proof.
  intros H1 H2 Ha Hb Heq.
  assert (Hh : d1 +:+ "/" = d2 +:+ "/").
  { rewrite <-(head_part_join d1 a), <-(head_part_join d2 b) by done.
    by rewrite Heq. }
  by apply append_inj_length in Hh as [-> _].
Qed.

Lemma final_dir_not_split_dir (n : string) :
  RemoveColumns_output n ≠ SplitTables_output n.
Proof.
  unfold RemoveColumns_output, SplitTables_output.
  destruct (path_join_suffix DATA_DIR (n +:+ "_final")) as [x ->].
  destruct (path_join_suffix DATA_DIR (n +:+ "_split")) as [y ->].
  rewrite <-!append_assoc. intros Heq.
  by apply append_inj_length in Heq as [_ ?].
Qed.

(** The effect of [Cleanup.run]: the marker is written, the other names
    of the input directory that end with [".txt"] are gone, and nothing
    changes outside the input directory. *)
Lemma Cleanup_run_spec (n : string) (fs : gmap string entry) :
  fs !! Cleanup_input n = Some Dir →
  (∀ name, Py.endswith ".txt" name = true →
           fs !! Py.path_join (Cleanup_input n) name ≠ Some Dir) →
  ∃ fs',
    Cleanup_run n fs = (fs', Ok tt)
    ∧ fs' !! Cleanup_output n = Some (File CLEANUP_MESSAGE)
    ∧ (∀ p, (∀ name, Fs.has_slash name = false →
                     p ≠ Py.path_join (Cleanup_input n) name) →
            fs' !! p = fs !! p)
    ∧ (∀ name, Fs.has_slash name = false →
               Py.endswith ".txt" name = true →
               name ≠ "cleanup_complete.txt" →
               fs' !! Py.path_join (Cleanup_input n) name = None).
Proof.
  intros Hdir Hnodir.
  destruct (Cleanup_run_Ok n fs Hdir Hnodir) as [fs' Hrun].
  exists fs'. split; [done|]. split; [by eapply Cleanup_run_marker|].
  assert (Hplain := RemoveColumns_output_plain n).
  fold (Cleanup_input n) in Hplain.
  assert (Hd : Cleanup_input n ≠ "") by by apply plain_path_nonempty.
  destruct (listdir_Ok _ _ Hd Hdir) as (names & Hls & Hnd & Hnames).
  destruct (cleanup_loop_Ok (Cleanup_input n) names fs)
    as (fs1 & Hloop & Hgone & Hrest); [done|done|..].
  { intros name Hname. by apply Hnames. }
  { intros name (_ & _ & [e He])%Hnames Htxt.
    destruct e as [c|]; [by exists c|]. by destruct (Hnodir name). }
  revert Hrun. unfold Cleanup_run. rewrite (bind_Ok _ _ _ _ _ Hls).
  rewrite (bind_Ok _ _ _ _ _ Hloop). intros ->%write_file_Ok.
  split.
  - intros p Hp.
    rewrite lookup_insert_ne by (symmetry; by apply Hp).
    apply Hrest. intros name Hname _. apply Hp. by apply Hnames.
  - intros name Hs Htxt Hne.
    rewrite lookup_insert_ne.
    2:{ unfold Cleanup_output. intros Heq.
        apply path_join_child_inj in Heq; [|done..]. by subst. }
    destruct (decide (name ∈ names)) as [Hin|Hout]; [by apply Hgone|].
    rewrite Hrest.
    + apply eq_None_not_Some. intros Hsome. apply Hout, Hnames.
      split; [done|]. split; [|done]. by apply (endswith_nonempty ".txt").
    + intros name' Hname' _ Heq.
      apply path_join_child_inj in Heq; [|done|done|by apply Hnames].
      by subst.
Qed.

(** C3, as the code has it. [Cleanup] takes the output of [RemoveColumns],
    the final directory, as its input directory: after its deletion pass
    it writes the marker [cleanup_complete.txt] there, not in the split
    directory, where no marker appears; the marker is the output target
    of the task, whose presence makes the task complete. *)
Theorem C3_cleanup_marker_in_final_dir (n : string) (fs : gmap string entry) :
  fs !! RemoveColumns_output n = Some Dir →
  (∀ name, Py.endswith ".txt" name = true →
           fs !! Py.path_join (RemoveColumns_output n) name ≠ Some Dir) →
  output (Cleanup n)
    = Some (Py.path_join (RemoveColumns_output n) "cleanup_complete.txt")
  ∧ Py.path_join (RemoveColumns_output n) "cleanup_complete.txt"
    ≠ Py.path_join (SplitTables_output n) "cleanup_complete.txt"
  ∧ ∃ fs',
      Cleanup_run n fs = (fs', Ok tt)
      ∧ fs' !! Py.path_join (RemoveColumns_output n) "cleanup_complete.txt"
        = Some (File CLEANUP_MESSAGE)
      ∧ fs' !! Py.path_join (SplitTables_output n) "cleanup_complete.txt"
        = fs !! Py.path_join (SplitTables_output n) "cleanup_complete.txt"
      ∧ is_complete fs' (Cleanup n) = true.
Proof.
  intros Hdir Hnodir. split; [done|].
  assert (Hf := RemoveColumns_output_plain n).
  assert (Hs := SplitTables_output_plain n).
  split.
  { intros Heq%path_join_same_dir; [|done..].
    by apply (final_dir_not_split_dir n). }
  destruct (Cleanup_run_spec n fs Hdir Hnodir)
    as (fs' & Hrun & Hm & Hrest & _).
  exists fs'. split; [done|]. split; [done|]. split.
  - apply Hrest. intros name Hname Heq%path_join_same_dir; [|done..].
    by apply (final_dir_not_split_dir n).
  - unfold is_complete. cbn. unfold Fs.path_exists.
    apply bool_decide_eq_true_2. by eexists.
Qed.

(* ===================================================================== *)
(** * Properties of the task chain *)
(* ===================================================================== *)

Lemma fs_keeps_weaken (P Q : string → Prop) (fs fs' : gmap string entry) :
  (∀ p, Q p → P p) → fs_keeps P fs fs' → fs_keeps Q fs fs'.
Proof. intros HPQ H p Hp. apply H. by apply HPQ. Qed.

Lemma fs_same_keeps (P : string → Prop) (fs fs' : gmap string entry) :
  fs_same P fs fs' → fs_keeps P fs fs'.
Proof. intros H p Hp. by rewrite H. Qed.

Lemma makedirs_keeps (P : string → Prop) (d : string) :
  along (fs_keeps P) (Fs.makedirs d).
Proof. intros fs. apply fs_new_dirs_keeps, makedirs_new_dirs. Qed.

(** The targets of the first four tasks do not end with [".txt"]. *)
Lemma path_join_not_txt (a b suf : string) :
  String.length suf = 4 → suf ≠ ".txt" →
  Py.endswith ".txt" (Py.path_join a (b +:+ suf)) = false.
Proof.
  intros Hlen Hne. destruct (path_join_suffix a (b +:+ suf)) as [x ->].
  rewrite <-append_assoc. apply endswith_same_length; [by rewrite Hlen|done].
Qed.

Lemma DownloadDataset_output_not_txt (n : string) :
  Py.endswith ".txt" (DownloadDataset_output n) = false.
Proof.
  unfold DownloadDataset_output.
  replace (n +:+ "_RAW.tar") with ((n +:+ "_RAW") +:+ ".tar")
    by (by rewrite append_assoc).
  by apply path_join_not_txt.
Qed.

Lemma ExtractArchive_output_not_txt (n : string) :
  Py.endswith ".txt" (ExtractArchive_output n) = false.
Proof.
  unfold ExtractArchive_output.
  replace (n +:+ "_extracted") with ((n +:+ "_extra") +:+ "cted")
    by (by rewrite append_assoc).
  by apply path_join_not_txt.
Qed.

Lemma SplitTables_output_not_txt (n : string) :
  Py.endswith ".txt" (SplitTables_output n) = false.
Proof.
  unfold SplitTables_output.
  replace (n +:+ "_split") with ((n +:+ "_s") +:+ "plit")
    by (by rewrite append_assoc).
  by apply path_join_not_txt.
Qed.

Lemma RemoveColumns_output_not_txt (n : string) :
  Py.endswith ".txt" (RemoveColumns_output n) = false.
Proof.
  unfold RemoveColumns_output.
  replace (n +:+ "_final") with ((n +:+ "_f") +:+ "inal")
    by (by rewrite append_assoc).
  by apply path_join_not_txt.
Qed.

Lemma resolve_chain_Pipeline (n : string) :
  resolve_chain (Pipeline n) =
  [DownloadDataset n; ExtractArchive n; SplitTables n; RemoveColumns n;
   Cleanup n; Pipeline n].
Proof. reflexivity. Qed.

Lemma is_complete_output (fs : gmap string entry) (t : Task) (p : string) :
  output t = Some p → is_complete fs t = true ↔ is_Some (fs !! p).
Proof.
  intros Hp. unfold is_complete, Fs.path_exists. rewrite Hp.
  apply bool_decide_eq_true.
Qed.

(** Closes a goal [along R m] for a computation that leaves the file
    system alone. *)
Ltac along_idle :=
  first [ apply read_file_along | apply listdir_along
        | apply along_lift | apply along_ret ];
  apply _.

Section ChainProperties.
Variable read_csv : header → string → result DataFrame.
Variable to_csv : DataFrame → string.
Variable download : string → string → M unit.
Variable extractall : string → string → M unit.

Local Abbreviation run := (run read_csv to_csv download extractall).
Local Abbreviation execute := (execute read_csv to_csv download extractall).
Local Abbreviation build := (build read_csv to_csv download extractall).

Lemma execute_app (xs ys : list Task) (fs : gmap string entry) :
  execute (xs ++ ys) fs =
  match outcome (execute xs fs) with
  | Ok _ =>
      {| final_fs := final_fs (execute ys (final_fs (execute xs fs)));
         outcome := outcome (execute ys (final_fs (execute xs fs)));
         executed := executed (execute xs fs)
                     ++ executed (execute ys (final_fs (execute xs fs))) |}
  | Raise _ => execute xs fs
  end.
Proof.
  revert fs. induction xs as [|t xs IH]; intros fs; cbn [app execute].
  - cbn. by destruct (execute ys fs).
  - destruct (is_complete fs t); [apply IH|].
    destruct (run t fs) as [fs1 [[]|e]]; [|done].
    cbn [outcome final_fs executed]. rewrite IH.
    destruct (outcome (execute xs fs1)) eqn:Hxs; cbn; [done|].
    by rewrite Hxs.
Qed.

(** The stages that were run appear in chain order, each at most once. *)
Lemma execute_sublist (chain : list Task) (fs : gmap string entry) :
  sublist (executed (execute chain fs)) chain.
Proof.
  revert fs. induction chain as [|t chain IH]; intros fs; cbn [execute].
  - done.
  - destruct (is_complete fs t); [by apply sublist_cons|].
    destruct (run t fs) as [fs1 [[]|e]]; cbn [executed].
    + by apply sublist_skip.
    + apply sublist_skip, sublist_nil_l.
Qed.

(** A stage that is reached while its target is missing is run. *)
Lemma execute_incomplete_head (t : Task) (rest : list Task)
    (fs : gmap string entry) :
  is_complete fs t = false →
  ∃ tr, executed (execute (t :: rest) fs) = t :: tr.
Proof.
  intros Ht. cbn [execute]. rewrite Ht.
  destruct (run t fs) as [fs1 [[]|e]]; cbn [executed]; eauto.
Qed.

(** When every stage is complete nothing is run and nothing changes. *)
Lemma execute_all_complete (chain : list Task) (fs : gmap string entry) :
  (∀ t, t ∈ chain → is_complete fs t = true) →
  execute chain fs = {| final_fs := fs; outcome := Ok tt; executed := [] |}.
Proof.
  induction chain as [|t chain IH]; intros Hall; cbn [execute]; [done|].
  rewrite Hall by left. apply IH. intros t' Ht'. apply Hall. by right.
Qed.

(** [Cleanup] is complete after a chain that ends with it. *)
Lemma execute_Cleanup_complete (pre : list Task) (n : string)
    (fs : gmap string entry) :
  outcome (execute (pre ++ [Cleanup n]) fs) = Ok tt →
  is_complete (final_fs (execute (pre ++ [Cleanup n]) fs)) (Cleanup n) = true.
Proof.
  rewrite execute_app.
  destruct (outcome (execute pre fs)) as [[]|e] eqn:Hpre; [|by rewrite Hpre].
  cbn [final_fs outcome execute].
  destruct (is_complete _ (Cleanup n)) eqn:Hc; [done|].
  cbn [run].
  destruct (Cleanup_run n _) as [fs1 [[]|e]] eqn:Hrun; [|done].
  intros _. cbn [final_fs].
  apply (is_complete_output _ _ (Cleanup_output n)); [done|].
  rewrite (Cleanup_run_marker _ _ _ Hrun). by eexists.
Qed.

(** C7. Walking the [requires] links back from [Pipeline] gives the chain
    Download, Extract, Split, Trim Columns, Cleanup (and the wrapper
    itself, which has nothing to run).  The stages an invocation runs
    form a subsequence of that chain, in that order; and a stage of the
    chain that is reached, the stages before it having been skipped or run
    without failure, while its output target is missing, is run. *)
Theorem C7_chain_order (n : string) (fs : gmap string entry) :
  resolve_chain (Pipeline n) =
    [DownloadDataset n; ExtractArchive n; SplitTables n; RemoveColumns n;
     Cleanup n] ++ [Pipeline n]
  ∧ sublist (executed (build (Pipeline n) fs))
      [DownloadDataset n; ExtractArchive n; SplitTables n; RemoveColumns n;
       Cleanup n]
  ∧ ∀ pre t post,
      [DownloadDataset n; ExtractArchive n; SplitTables n; RemoveColumns n;
       Cleanup n] = pre ++ t :: post →
      outcome (execute pre fs) = Ok tt →
      is_complete (final_fs (execute pre fs)) t = false →
      t ∈ executed (build (Pipeline n) fs).
Proof.
  split; [done|].
  set (five := [DownloadDataset n; ExtractArchive n; SplitTables n;
                RemoveColumns n; Cleanup n]).
  assert (Hbuild : build (Pipeline n) fs = execute (five ++ [Pipeline n]) fs)
    by done.
  split.
  - rewrite Hbuild, execute_app.
    destruct (outcome (execute five fs)) as [[]|e] eqn:Hfive;
      [|apply execute_sublist].
    cbn [executed execute].
    assert (Hc : is_complete (final_fs (execute five fs)) (Pipeline n) = true).
    { change (is_complete (final_fs (execute five fs)) (Pipeline n))
        with (is_complete (final_fs (execute five fs)) (Cleanup n)).
      by apply (execute_Cleanup_complete
                  [DownloadDataset n; ExtractArchive n; SplitTables n;
                   RemoveColumns n]). }
    rewrite Hc. cbn [executed]. rewrite app_nil_r. apply execute_sublist.
  - intros pre t post Hsplit Hpre Ht.
    rewrite Hbuild, Hsplit.
    replace ((pre ++ t :: post) ++ [Pipeline n])
      with (pre ++ t :: (post ++ [Pipeline n]))
      by (by rewrite <-app_assoc).
    rewrite execute_app, Hpre. cbn [executed].
    destruct (execute_incomplete_head t (post ++ [Pipeline n]) _ Ht)
      as [tr ->].
    apply elem_of_app. right. left.
Qed.

(** From here on the two external collaborators are taken to honour
    their contracts: neither removes a path, and a download that returns
    has left its file. *)
Hypothesis download_keeps :
  ∀ url out, along (fs_keeps (λ _, True)) (download url out).
Hypothesis download_Ok :
  ∀ url out fs fs', download url out fs = (fs', Ok tt) → is_Some (fs' !! out).
Hypothesis extractall_keeps :
  ∀ archive dest, along (fs_keeps (λ _, True)) (extractall archive dest).

Local Abbreviation not_txt := (λ p : string, Py.endswith ".txt" p = false).

Lemma split_file_keeps (P : string → Prop) (n filepath : string) :
  along (fs_keeps P) (_split_file read_csv to_csv n filepath).
Proof.
  unfold _split_file.
  apply along_bind; [apply _|along_idle|]. intros text.
  apply along_bind; [apply _|along_idle|]. intros tables.
  apply along_for_each; [apply _|]. intros f _. apply write_file_keeps.
Qed.

(** No task removes a path, but for [Cleanup] and the paths that end
    with [".txt"]. *)
Lemma run_keeps (t : Task) : along (fs_keeps not_txt) (run t).
Proof.
  destruct t as [n|n|n|n|n|n]; cbn [run].
  - unfold DownloadDataset_run.
    apply along_bind; [apply _|apply makedirs_keeps|]. intros _ fs.
    eapply fs_keeps_weaken; [|apply download_keeps]. done.
  - unfold ExtractArchive_run.
    apply along_bind; [apply _|apply makedirs_keeps|]. intros _ fs.
    eapply fs_keeps_weaken; [|apply extractall_keeps]. done.
  - unfold SplitTables_run.
    apply along_bind; [apply _|apply makedirs_keeps|]. intros _.
    apply along_bind; [apply _|along_idle|]. intros names.
    apply along_for_each; [apply _|]. intros name _.
    destruct (Py.endswith ".txt" name); [apply split_file_keeps|].
    along_idle.
  - unfold RemoveColumns_run.
    apply along_bind; [apply _|apply makedirs_keeps|]. intros _.
    apply along_bind; [apply _|along_idle|]. intros text.
    apply along_bind; [apply _|along_idle|]. intros df.
    apply along_bind; [apply _|along_idle|]. intros df'.
    apply write_file_keeps.
  - intros fs. apply fs_same_keeps, Cleanup_run_same.
  - along_idle.
Qed.

(** A task that first makes its directory and then removes nothing has
    its directory when it returns. *)
Lemma makedirs_then_Ok (d : string) (rest : M unit)
    (fs fs' : gmap string entry) :
  along (fs_keeps not_txt) rest → Py.endswith ".txt" d = false →
  (Fs.makedirs d ;; rest) fs = (fs', Ok tt) → is_Some (fs' !! d).
Proof.
  intros Hrest Hd (fs1 & [] & Hmk & Hr)%bind_inv_Ok.
  specialize (Hrest fs1). rewrite Hr in Hrest.
  apply Hrest; [done|]. rewrite (makedirs_Ok _ _ _ Hmk). by eexists.
Qed.

(** The completion contract: a task that returns has left its target. *)
Lemma run_complete (t : Task) (fs fs' : gmap string entry) :
  is_Some (output t) → run t fs = (fs', Ok tt) → is_complete fs' t = true.
Proof.
  intros [p Hp] Hrun. apply (is_complete_output _ _ _ Hp).
  destruct t as [n|n|n|n|n|n]; cbn [output] in Hp; simplify_eq;
    cbn [run] in Hrun.
  - apply bind_inv_Ok in Hrun as (fs1 & [] & _ & Hd). by eapply download_Ok.
  - revert Hrun. apply makedirs_then_Ok.
    + intros fs1. eapply fs_keeps_weaken; [|apply extractall_keeps]. done.
    + apply ExtractArchive_output_not_txt.
  - revert Hrun. apply makedirs_then_Ok.
    + apply along_bind; [apply _|along_idle|]. intros names.
      apply along_for_each; [apply _|]. intros name _.
      destruct (Py.endswith ".txt" name); [apply split_file_keeps|].
      along_idle.
    + apply SplitTables_output_not_txt.
  - revert Hrun. apply makedirs_then_Ok.
    + apply along_bind; [apply _|along_idle|]. intros text.
      apply along_bind; [apply _|along_idle|]. intros df.
      apply along_bind; [apply _|along_idle|]. intros df'.
      apply write_file_keeps.
    + apply RemoveColumns_output_not_txt.
  - rewrite (Cleanup_run_marker _ _ _ Hrun). by eexists.
Qed.

Lemma execute_keeps (chain : list Task) (fs : gmap string entry) :
  fs_keeps not_txt fs (final_fs (execute chain fs)).
Proof.
  revert fs. induction chain as [|t chain IH]; intros fs; cbn [execute].
  - done.
  - destruct (is_complete fs t); [apply IH|].
    assert (Hk := run_keeps t fs).
    destruct (run t fs) as [fs1 [[]|e]]; cbn [final_fs]; [|done].
    etrans; [exact Hk|apply IH].
Qed.

(** After a chain that ran through, every stage whose target does not
    end with [".txt"] is complete. *)
Lemma execute_complete (chain : list Task) (fs : gmap string entry) :
  (∀ t, t ∈ chain → ∃ p, output t = Some p ∧ not_txt p) →
  outcome (execute chain fs) = Ok tt →
  ∀ t, t ∈ chain → is_complete (final_fs (execute chain fs)) t = true.
Proof.
  revert fs. induction chain as [|t chain IH]; intros fs Hout Hok t' Ht'.
  { by apply elem_of_nil in Ht'. }
  assert (Hrest : ∀ t, t ∈ chain → ∃ p, output t = Some p ∧ not_txt p).
  { intros t0 Ht0. apply Hout. by right. }
  assert (Hhead : ∀ fs1, is_complete fs1 t = true →
            is_complete (final_fs (execute chain fs1)) t = true).
  { intros fs1 Hc. destruct (Hout t) as (p & Hp & Hnot); [by left|].
    apply (is_complete_output _ _ _ Hp).
    apply (is_complete_output _ _ _ Hp) in Hc.
    by apply (execute_keeps chain fs1). }
  revert Hok. cbn [execute].
  destruct (is_complete fs t) eqn:Hc.
  - intros Hok. apply elem_of_cons in Ht' as [->|Ht']; [by apply Hhead|].
    by apply IH.
  - destruct (run t fs) as [fs1 [[]|e]] eqn:Hrun; cbn [outcome final_fs];
      [|done].
    intros Hok. apply elem_of_cons in Ht' as [->|Ht']; [|by apply IH].
    apply Hhead. eapply run_complete; [|done].
    destruct (Hout t) as (p & -> & _); [by left|by eexists].
Qed.

(** C8. After an invocation that ran through, every stage of the chain
    has its output target; a second invocation on the file system the
    first one left runs no stage and leaves that file system as it is. *)
Theorem C8_second_run_does_nothing (n : string) (fs : gmap string entry) :
  outcome (build (Pipeline n) fs) = Ok tt →
  (∀ t, t ∈ resolve_chain (Pipeline n) →
        is_complete (final_fs (build (Pipeline n) fs)) t = true)
  ∧ build (Pipeline n) (final_fs (build (Pipeline n) fs)) =
      {| final_fs := final_fs (build (Pipeline n) fs);
         outcome := Ok tt;
         executed := [] |}.
Proof.
  intros Hok.
  set (four := [DownloadDataset n; ExtractArchive n; SplitTables n;
                RemoveColumns n]).
  assert (Hbuild : ∀ fs0, build (Pipeline n) fs0
                   = execute (four ++ [Cleanup n; Pipeline n]) fs0) by done.
  assert (Hall : ∀ t, t ∈ resolve_chain (Pipeline n) →
            is_complete (final_fs (build (Pipeline n) fs)) t = true).
  { rewrite Hbuild in Hok |- *. rewrite execute_app in Hok |- *.
    destruct (outcome (execute four fs)) as [[]|e] eqn:Hfour;
      [|by rewrite Hfour in Hok].
    cbn [outcome final_fs] in Hok |- *.
    set (fs4 := final_fs (execute four fs)) in *.
    assert (Hfour_c : ∀ t, t ∈ four → is_complete fs4 t = true).
    { apply execute_complete; [|done].
      intros t Ht. subst four.
      repeat (apply elem_of_cons in Ht as [->|Ht]);
        [eexists; split; [done|] ..|by apply elem_of_nil in Ht].
      - apply DownloadDataset_output_not_txt.
      - apply ExtractArchive_output_not_txt.
      - apply SplitTables_output_not_txt.
      - apply RemoveColumns_output_not_txt. }
    assert (Hfinal_c :
      is_complete (final_fs (execute [Cleanup n; Pipeline n] fs4)) (Cleanup n)
      = true
      ∧ fs_keeps not_txt fs4 (final_fs (execute [Cleanup n; Pipeline n] fs4))).
    { split; [|apply execute_keeps].
      revert Hok. cbn [execute].
      destruct (is_complete fs4 (Cleanup n)) eqn:Hc.
      - change (is_complete fs4 (Pipeline n))
          with (is_complete fs4 (Cleanup n)). by rewrite Hc.
      - cbn [run].
        destruct (Cleanup_run n fs4) as [fs5 [[]|e]] eqn:Hrun; [|done].
        assert (Hc5 : is_complete fs5 (Cleanup n) = true).
        { apply (is_complete_output _ _ (Cleanup_output n)); [done|].
          rewrite (Cleanup_run_marker _ _ _ Hrun). by eexists. }
        change (is_complete fs5 (Pipeline n))
          with (is_complete fs5 (Cleanup n)). by rewrite Hc5. }
    destruct Hfinal_c as [Hc Hkeep].
    intros t Ht. rewrite resolve_chain_Pipeline in Ht.
    repeat (apply elem_of_cons in Ht as [->|Ht]);
      [..|by apply elem_of_nil in Ht]; try done.
    - apply (is_complete_output _ _ (DownloadDataset_output n)); [done|].
      apply Hkeep; [apply DownloadDataset_output_not_txt|].
      apply (is_complete_output _ (DownloadDataset n)); [done|].
      apply Hfour_c. subst four. by left.
    - apply (is_complete_output _ _ (ExtractArchive_output n)); [done|].
      apply Hkeep; [apply ExtractArchive_output_not_txt|].
      apply (is_complete_output _ (ExtractArchive n)); [done|].
      apply Hfour_c. subst four. right. by left.
    - apply (is_complete_output _ _ (SplitTables_output n)); [done|].
      apply Hkeep; [apply SplitTables_output_not_txt|].
      apply (is_complete_output _ (SplitTables n)); [done|].
      apply Hfour_c. subst four. do 2 right. by left.
    - apply (is_complete_output _ _ (RemoveColumns_output n)); [done|].
      apply Hkeep; [apply RemoveColumns_output_not_txt|].
      apply (is_complete_output _ (RemoveColumns n)); [done|].
      apply Hfour_c. subst four. do 3 right. by left. }
  split; [done|]. by apply execute_all_complete.
Qed.

End ChainProperties.

(* ===================================================================== *)
(** * Properties of the split stage on files it cannot parse *)
(* ===================================================================== *)

(** A loop fails when one of its iterations fails in every state that
    satisfies an invariant of the loop body. *)
Lemma for_each_Raise {A} (I : gmap string entry → Prop) (xs : list A)
    (body : A → M unit) (x : A) (fs : gmap string entry) :
  (∀ y fs, I fs → I (body y fs).1) →
  (∀ fs, I fs → ∃ e, (body x fs).2 = Raise e) →
  x ∈ xs → I fs →
  ∃ e, (for_each xs body fs).2 = Raise e.
Proof.
  intros Hinv Hfail Hx. revert fs.
  induction xs as [|y xs IH]; intros fs HI; [by apply elem_of_nil in Hx|].
  cbn [for_each]. unfold bind.
  apply elem_of_cons in Hx as [<-|Hx].
  - destruct (Hfail fs HI) as [e He].
    destruct (body x fs) as [fs1 [[]|e1]]; [done|by exists e1].
  - specialize (Hinv y fs HI).
    destruct (body y fs) as [fs1 [[]|e1]]; [|by exists e1].
    by apply IH.
Qed.

Lemma listdir_inv (d : string) (fs fs' : gmap string entry)
    (names : list string) :
  Fs.listdir d fs = (fs', Ok names) → fs' = fs ∧ d ≠ "" ∧ fs !! d = Some Dir.
Proof.
  unfold Fs.listdir. destruct (String.eqb_spec d ""); [done|].
  destruct (fs !! d) as [[]|]; [done| |done]. by intros [= <- _].
Qed.

Lemma endswith_tsv_name (out_dir : string) (key : option string) :
  Py.endswith ".tsv" (Py.path_join out_dir (tsv_name key)) = true.
Proof.
  apply endswith_path_join. destruct key as [s|]; cbn [tsv_name].
  - apply endswith_app.
  - done.
Qed.

Section UnparsableFiles.
Variable read_csv : header → string → result DataFrame.
Variable to_csv : DataFrame → string.
Hypothesis read_csv_empty : ∀ h, read_csv h "" = Raise EmptyDataError.

Local Abbreviation parse_tables := (parse_tables read_csv).
Local Abbreviation _split_file := (_split_file read_csv to_csv).
Local Abbreviation SplitTables_run := (SplitTables_run read_csv to_csv).

(** [_split_file] writes to paths that end with [".tsv"] only. *)
Lemma split_file_same (n filepath : string) :
  along (fs_same (λ p, Py.endswith ".tsv" p = false)) (_split_file n filepath).
Proof.
  unfold _split_file.
  apply along_bind; [apply _|along_idle|]. intros text.
  apply along_bind; [apply _|along_idle|]. intros tables.
  apply along_for_each; [apply _|]. intros f Hf.
  apply write_file_same.
  apply list_elem_of_fmap in Hf as ([k df] & -> & _). cbn [fst].
  by rewrite endswith_tsv_name.
Qed.

Lemma parse_tables_marker_last_fails (pre : list string) (m : string) :
  is_marker m = true → ∃ e, parse_tables (pre ++ [m]) = Raise e.
Proof.
  intros Hm. rewrite parse_tables_marker_last by done.
  destruct (split_lines read_csv (pre ++ [m]) split_init) as [st|e];
    cbn [rbind]; [|by exists e].
  rewrite read_csv_empty. by eexists.
Qed.

(** C6. A text file without a marker line yields no table: the scan
    opens no section, the end-of-file statements read the empty buffer,
    which pandas rejects, and [_split_file] raises that error without
    having written any file. *)
Theorem C6_no_marker_no_tables
    (n filepath text : string) (fs : gmap string entry) :
  fs !! filepath = Some (File text) →
  Forall (λ l, is_marker l = false) (Py.file_lines text) →
  parse_tables (Py.file_lines text) = Raise EmptyDataError
  ∧ _split_file n filepath fs = (fs, Raise EmptyDataError).
Proof.
  intros Hfile Hlines.
  assert (Hparse : parse_tables (Py.file_lines text) = Raise EmptyDataError).
  { rewrite parse_tables_no_marker by done. by rewrite read_csv_empty. }
  split; [done|]. by eapply split_file_parse_error.
Qed.

(** C10. A [.txt] file of the input directory whose last line is a
    marker makes the split stage fail: at the end of the file the buffer
    is empty and parsing it raises, unless parsing an earlier section
    raised before; [_split_file] raises on that file without writing, and
    so does [SplitTables.run] whatever else the directory holds. *)
Theorem C10_trailing_marker_fails
    (n name text m : string) (pre : list string) (fs : gmap string entry) :
  fs !! Py.path_join (SplitTables_input n) name = Some (File text) →
  Py.endswith ".txt" name = true →
  Fs.has_slash name = false →
  Py.file_lines text = pre ++ [m] →
  is_marker m = true →
  (∃ e, _split_file n (Py.path_join (SplitTables_input n) name) fs
        = (fs, Raise e))
  ∧ ∃ e, (SplitTables_run n fs).2 = Raise e.
Proof.
  intros Hfile Htxt Hplain Hlines Hm.
  set (path := Py.path_join (SplitTables_input n) name) in *.
  assert (Hone : ∀ fs1, fs1 !! path = Some (File text) →
            ∃ e, _split_file n path fs1 = (fs1, Raise e)).
  { intros fs1 Hf. destruct (parse_tables_marker_last_fails pre m Hm) as [e He].
    exists e. eapply split_file_parse_error; [done|]. by rewrite Hlines. }
  split; [by apply Hone|].
  unfold SplitTables_run, bind.
  assert (Hdirs := makedirs_new_dirs (SplitTables_output n) fs).
  destruct (Fs.makedirs (SplitTables_output n) fs) as [fs0 [[]|e]];
    [|by exists e].
  assert (Hfile0 : fs0 !! path = Some (File text))
    by (by apply (fs_new_dirs_file fs fs0 path text Hdirs)).
  destruct (Fs.listdir (SplitTables_input n) fs0) as [fs1 [names|e]] eqn:Hls;
    [|by exists e].
  apply listdir_inv in Hls as Hinv. destruct Hinv as (-> & Hd & Hdir).
  destruct (listdir_Ok _ _ Hd Hdir) as (names' & Hls' & _ & Hnames).
  rewrite Hls in Hls'. injection Hls' as <-.
  assert (Hpath_not_tsv : Py.endswith ".tsv" path = false).
  { subst path. apply endswith_spec in Htxt as [a ->].
    destruct (path_join_suffix (SplitTables_input n) (a +:+ ".txt"))
      as [x ->].
    rewrite <-append_assoc. by apply endswith_same_length. }
  apply (for_each_Raise (λ fs1, fs1 !! path = Some (File text)) names _ name).
  - intros y fs1 Hf. destruct (Py.endswith ".txt" y); [|done].
    by rewrite (split_file_same n _ fs1 path Hpath_not_tsv).
  - intros fs1 Hf. rewrite Htxt. fold path.
    destruct (Hone fs1 Hf) as [e He]. rewrite He. by exists e.
  - apply Hnames. split; [done|]. split; [|by eexists].
    by apply (endswith_nonempty ".txt").
  - done.
Qed.

End UnparsableFiles.

(* ===================================================================== *)
(** * The properties at work on sample files *)
(* ===================================================================== *)

(** Decides a closed decidable proposition by evaluation. *)
Ltac by_evaluation :=
  match goal with
  | |- ?P => apply (bool_decide_unpack P); vm_compute; exact I
  end.

Lemma Sample_read_csv_empty (h : header) :
  Sample.read_csv h "" = Raise EmptyDataError.
Proof. by destruct h. Qed.

Lemma Sample_download_keeps (url out : string) :
  along (fs_keeps (λ _, True)) (Sample.download url out).
Proof. apply write_file_keeps. Qed.

Lemma Sample_download_Ok (url out : string) (fs fs' : gmap string entry) :
  Sample.download url out fs = (fs', Ok tt) → is_Some (fs' !! out).
Proof. intros ->%write_file_Ok. rewrite lookup_insert_eq. by eexists. Qed.

Lemma Sample_extractall_keeps (archive dest : string) :
  along (fs_keeps (λ _, True)) (Sample.extractall archive dest).
Proof.
  unfold Sample.extractall.
  apply along_bind; [apply _|along_idle|]. intros _. apply write_file_keeps.
Qed.

(** In a file system none of whose directories has a name that ends with
    [".txt"], no such name in a directory is a directory. *)
Lemma no_txt_dir_child (fs : gmap string entry) (d : string) :
  map_Forall (λ p e, e = Dir → Py.endswith ".txt" p = false) fs →
  ∀ name, Py.endswith ".txt" name = true →
          fs !! Py.path_join d name ≠ Some Dir.
Proof.
  intros Hfs name Htxt Hdir.
  specialize (Hfs _ _ Hdir eq_refl).
  by rewrite endswith_path_join in Hfs.
Qed.

(** On an empty file system the five stages are run, in chain order. *)
Example build_from_scratch :
  executed (build Sample.read_csv Sample.to_csv Sample.download
              Sample.extractall (Pipeline DEFAULT_DATASET_NAME) ∅)
  = [DownloadDataset DEFAULT_DATASET_NAME; ExtractArchive DEFAULT_DATASET_NAME;
     SplitTables DEFAULT_DATASET_NAME; RemoveColumns DEFAULT_DATASET_NAME;
     Cleanup DEFAULT_DATASET_NAME].
Proof. vm_compute. reflexivity. Qed.

Lemma C1_witness :
  ∃ st2,
    split_lines Sample.read_csv Sample.HEADING_LINES split_init = Ok st2
    ∧ dict_get (dfs st2) (Some "Heading")
      = Some [(Pos 0, ["Date"]); (Pos 1, ["2015"])].
Proof.
  destruct (C1_midfile_section_header_rule Sample.read_csv
              [] [Sample.row ["Date"; "2015"]]
              (Sample.line "[Heading]") (Sample.line "[Probes]")
              {| dfs := []; write_key := Some "Heading"; fio := "" |})
    as (_ & _ & _ & H).
  - reflexivity.
  - reflexivity.
  - repeat constructor.
  - intros Hname. vm_compute in Hname. discriminate Hname.
  - reflexivity.
  - apply H. reflexivity.
Defined.

Lemma C2_witness :
  parse_tables Sample.read_csv
    [Sample.line "[Heading]"; Sample.row ["Date"; "2015"];
     Sample.row ["Lot"; "7"]]
  = Ok [(Some "Heading", [(Name "Date", ["Lot"]); (Name "2015", ["7"])])].
Proof.
  destruct (C2_eof_section_header_inferred Sample.read_csv
              [] [Sample.row ["Date"; "2015"]; Sample.row ["Lot"; "7"]]
              (Sample.line "[Heading]")
              {| dfs := []; write_key := Some "Heading"; fio := "" |})
    as [H _].
  - reflexivity.
  - repeat constructor.
  - intros Hname. vm_compute in Hname. discriminate Hname.
  - reflexivity.
  - exact H.
Defined.

Lemma C6_witness :
  _split_file Sample.read_csv Sample.to_csv DEFAULT_DATASET_NAME
    "data/GSE68849_extracted/plain.txt" Sample.EXTRACTED_FS
  = (Sample.EXTRACTED_FS, Raise EmptyDataError).
Proof.
  apply (C6_no_marker_no_tables Sample.read_csv Sample.to_csv
           Sample_read_csv_empty DEFAULT_DATASET_NAME
           "data/GSE68849_extracted/plain.txt" Sample.NO_MARKER_TEXT).
  - reflexivity.
  - vm_compute. repeat constructor.
Defined.

Lemma C10_witness :
  ∃ e, (SplitTables_run Sample.read_csv Sample.to_csv DEFAULT_DATASET_NAME
          Sample.EXTRACTED_FS).2 = Raise e.
Proof.
  apply (C10_trailing_marker_fails Sample.read_csv Sample.to_csv
           Sample_read_csv_empty DEFAULT_DATASET_NAME "trailing.txt"
           Sample.TRAILING_MARKER_TEXT (Sample.line "[Tail]")
           [Sample.line "[Probes]"; Sample.row ["a"; "b"];
            Sample.row ["1"; "2"]]).
  - reflexivity.
  - reflexivity.
  - reflexivity.
  - reflexivity.
  - reflexivity.
Defined.

Lemma C4_witness :
  ∃ fs' e,
    RemoveColumns_run Sample.read_csv Sample.to_csv DEFAULT_DATASET_NAME
      (Sample.split_fs Sample.FIVE_COLUMNS_TEXT) = (fs', Raise e).
Proof.
  destruct (C4_missing_column_fails Sample.read_csv Sample.to_csv
              Sample.download Sample.extractall DEFAULT_DATASET_NAME
              Sample.FIVE_COLUMNS_TEXT "Synonyms" Sample.FIVE_COLUMNS_DF
              (Sample.split_fs Sample.FIVE_COLUMNS_TEXT))
    as (fs' & e & Hrun & _).
  - reflexivity.
  - reflexivity.
  - by_evaluation.
  - by_evaluation.
  - exists fs', e. exact Hrun.
Defined.

Lemma C5_witness :
  ∃ df',
    drop_columns COLUMNS_TO_DROP Sample.ALL_COLUMNS_DF = Ok df'
    ∧ columns df' ≡ₚ [Name "Probe_Id"; Name "GeneSymbol"].
Proof.
  destruct (C5_trim_keeps_other_columns Sample.read_csv Sample.to_csv
              DEFAULT_DATASET_NAME Sample.ALL_COLUMNS_TEXT Sample.ALL_COLUMNS_DF
              (Sample.split_fs Sample.ALL_COLUMNS_TEXT)
              (Fs.makedirs (RemoveColumns_output DEFAULT_DATASET_NAME)
                 (Sample.split_fs Sample.ALL_COLUMNS_TEXT)).1)
    as (df' & Hdrop & _ & Hperm & _).
  - vm_compute. reflexivity.
  - reflexivity.
  - reflexivity.
  - reflexivity.
  - intros Hdir. vm_compute in Hdir. discriminate Hdir.
  - exists df'. split; [exact Hdrop|exact Hperm].
Defined.

Lemma C3_witness :
  ∃ fs',
    Cleanup_run DEFAULT_DATASET_NAME Sample.TRIMMED_FS = (fs', Ok tt)
    ∧ fs' !! "data/GSE68849_final/cleanup_complete.txt"
      = Some (File CLEANUP_MESSAGE).
Proof.
  destruct (C3_cleanup_marker_in_final_dir DEFAULT_DATASET_NAME Sample.TRIMMED_FS)
    as (_ & _ & fs' & Hrun & Hmarker & _).
  - reflexivity.
  - apply no_txt_dir_child. by_evaluation.
  - exists fs'. split; [exact Hrun|exact Hmarker].
Defined.

Lemma C7_witness :
  DownloadDataset DEFAULT_DATASET_NAME
  ∈ executed (build Sample.read_csv Sample.to_csv Sample.download
                Sample.extractall (Pipeline DEFAULT_DATASET_NAME) ∅).
Proof.
  destruct (C7_chain_order Sample.read_csv Sample.to_csv Sample.download
              Sample.extractall DEFAULT_DATASET_NAME ∅) as (_ & _ & H).
  apply (H [] (DownloadDataset DEFAULT_DATASET_NAME)
           [ExtractArchive DEFAULT_DATASET_NAME; SplitTables DEFAULT_DATASET_NAME;
            RemoveColumns DEFAULT_DATASET_NAME; Cleanup DEFAULT_DATASET_NAME]).
  - reflexivity.
  - reflexivity.
  - reflexivity.
Defined.

Lemma C8_witness :
  executed (build Sample.read_csv Sample.to_csv Sample.download
              Sample.extractall (Pipeline DEFAULT_DATASET_NAME)
              (final_fs (build Sample.read_csv Sample.to_csv Sample.download
                           Sample.extractall (Pipeline DEFAULT_DATASET_NAME) ∅)))
  = [].
Proof.
  destruct (C8_second_run_does_nothing Sample.read_csv Sample.to_csv
              Sample.download Sample.extractall
              Sample_download_keeps Sample_download_Ok Sample_extractall_keeps
              DEFAULT_DATASET_NAME ∅) as [_ H].
  - vm_compute. reflexivity.
  - by rewrite H.
Defined.

(** The claim C3 as the spec words it fails on [Sample.TRIMMED_FS]: the
    text file of the split directory survives [Cleanup.run] and no marker
    appears at [D_split/cleanup_complete.txt]; the marker is written in
    the final directory. *)
Lemma C3_counterexample :
  (Cleanup_run DEFAULT_DATASET_NAME Sample.TRIMMED_FS).2 = Ok tt
  ∧ (Cleanup_run DEFAULT_DATASET_NAME Sample.TRIMMED_FS).1
      !! "data/GSE68849_split/GPL10558.txt" = Some (File "raw")
  ∧ (Cleanup_run DEFAULT_DATASET_NAME Sample.TRIMMED_FS).1
      !! "data/GSE68849_split/cleanup_complete.txt" = None
  ∧ (Cleanup_run DEFAULT_DATASET_NAME Sample.TRIMMED_FS).1
      !! "data/GSE68849_final/cleanup_complete.txt"
    = Some (File CLEANUP_MESSAGE).
Proof. vm_compute. done. Qed.

(** The claim C5 as the spec words it fails on the table with the columns
    [Probe_Id; Definition; Ontology_Component; GeneSymbol;
    Probe_Sequence]: four target columns are missing, [df.drop] raises
    [KeyError], and the stage writes no [Probes_trimmed.tsv]. *)
Lemma C5_counterexample :
  Sample.read_csv HeaderInfer Sample.FIVE_COLUMNS_TEXT
    = Ok Sample.FIVE_COLUMNS_DF
  ∧ columns Sample.FIVE_COLUMNS_DF
    = [Name "Probe_Id"; Name "Definition"; Name "Ontology_Component";
       Name "GeneSymbol"; Name "Probe_Sequence"]
  ∧ (RemoveColumns_run Sample.read_csv Sample.to_csv DEFAULT_DATASET_NAME
       (Sample.split_fs Sample.FIVE_COLUMNS_TEXT)).2
    = Raise (KeyError ["Ontology_Process"; "Ontology_Function"; "Synonyms";
                       "Obsolete_Probe_Id"])
  ∧ (RemoveColumns_run Sample.read_csv Sample.to_csv DEFAULT_DATASET_NAME
       (Sample.split_fs Sample.FIVE_COLUMNS_TEXT)).1
      !! "data/GSE68849_final/Probes_trimmed.tsv" = None.
Proof. vm_compute. done. Qed.

(* ===================================================================== *)
(** * Further properties of the scan *)
(* ===================================================================== *)

Section ScanProperties.
Variable read_csv : header → string → result DataFrame.

Local Abbreviation split_step := (split_step read_csv).
Local Abbreviation split_lines := (split_lines read_csv).
Local Abbreviation parse_tables := (parse_tables read_csv).

(** X1. The lines that come before the first marker do not count: a
    file gives the tables of the same file without them. *)
Theorem X1_lines_before_first_marker_dropped (junk lines : list string) :
  Forall (λ l, is_marker l = false) junk →
  parse_tables (junk ++ lines) = parse_tables lines.
Proof.
  intros Hjunk. unfold parse_tables.
  by rewrite split_lines_app, split_lines_no_marker.
Qed.

(** X2. A marker whose name is empty once the brackets and the line feed
    are stripped, such as ["[]"], opens no section: the lines up to the
    next marker are lost, as if they were not in the file. *)
Theorem X2_empty_name_drops_lines
    (pre body rest : list string) (m : string) :
  is_marker m = true →
  Py.strip MARKER_CHARS m = "" →
  Forall (λ l, is_marker l = false) body →
  split_lines (pre ++ m :: body ++ rest) split_init
    = split_lines (pre ++ m :: rest) split_init
  ∧ parse_tables (pre ++ m :: body ++ rest) = parse_tables (pre ++ m :: rest).
Proof.
  intros Hm Hname Hbody.
  assert (Hscan : split_lines (pre ++ m :: body ++ rest) split_init
                  = split_lines (pre ++ m :: rest) split_init).
  { replace (pre ++ m :: body ++ rest) with ((pre ++ [m]) ++ body ++ rest)
      by (by rewrite <-app_assoc).
    replace (pre ++ m :: rest) with ((pre ++ [m]) ++ rest)
      by (by rewrite <-app_assoc).
    rewrite !(split_lines_app read_csv (pre ++ [m])).
    destruct (split_lines (pre ++ [m]) split_init) as [st1|e] eqn:Hst1;
      [|done].
    cbn [rbind]. rewrite split_lines_app.
    destruct (split_lines_marker_last read_csv pre m _ _ Hm Hst1) as [Hk _].
    rewrite split_lines_discard; [done|done|].
    by rewrite Hk, Hname. }
  split; [done|]. unfold parse_tables. by rewrite Hscan.
Qed.

Lemma truthy_true (k : option string) :
  truthy k = true → ∃ s, k = Some s ∧ s ≠ "".
Proof.
  destruct k as [s|]; [|done]. cbn. intros H%negb_true_iff%String.eqb_neq.
  by exists s.
Qed.

Lemma split_step_inv (lines : list string) (st st' : split_state)
    (l : string) :
  l ∈ lines → scan_inv lines st → split_step st l = Ok st' →
  scan_inv lines st'.
Proof.
  intros Hl (Hkeys & Hopen & Hbuf). unfold split_step.
  destruct (is_marker l) eqn:Hm.
  - assert (Hnew : truthy (Some (Py.strip MARKER_CHARS l)) = true →
                   from_marker lines (Some (Py.strip MARKER_CHARS l))).
    { intros (s & [= <-] & Hs)%truthy_true. by exists l. }
    destruct (truthy (write_key st)) eqn:Ht; cbn [rbind].
    + destruct (read_csv _ _) as [df|e]; cbn [rbind]; [|done].
      intros [= <-]. split; [|split]; cbn [dfs write_key fio].
      * intros k [->|Hk]%dict_set_keys; [by apply Hopen|by apply Hkeys].
      * exact Hnew.
      * done.
    + intros [= <-]. split; [|split]; cbn [dfs write_key fio].
      * exact Hkeys.
      * exact Hnew.
      * done.
  - destruct (truthy (write_key st)) eqn:Ht.
    + intros [= <-]. split; [|split]; cbn [dfs write_key fio].
      * exact Hkeys.
      * intros _. by apply Hopen.
      * intros Hf. congruence.
    + intros [= <-]. split; [|split].
      * exact Hkeys.
      * rewrite Ht. exact Hopen.
      * rewrite Ht. exact Hbuf.
Qed.

Lemma split_lines_inv (lines ls : list string) (st st' : split_state) :
  (∀ l, l ∈ ls → l ∈ lines) → scan_inv lines st →
  split_lines ls st = Ok st' → scan_inv lines st'.
Proof.
  revert st. induction ls as [|l ls IH]; intros st Hsub Hinv; cbn.
  - by intros [= <-].
  - destruct (split_step st l) as [st1|e] eqn:Hstep; cbn [rbind]; [|done].
    apply IH.
    + intros l' Hl'. apply Hsub. by right.
    + eapply split_step_inv; [|done..]. apply Hsub. by left.
Qed.

(** From here on pandas is taken to reject an empty buffer. *)
Hypothesis read_csv_empty : ∀ h, read_csv h "" = Raise EmptyDataError.

(** X3. When the file is parsed without error, every table is kept under
    the name, not empty, of a marker line of the file: no table is ever
    kept under [None] or under the empty name. *)
Theorem X3_table_names_are_marker_names
    (lines : list string) (tables : list (option string * DataFrame)) :
  parse_tables lines = Ok tables →
  ∀ k, k ∈ tables.*1 →
    ∃ m, m ∈ lines ∧ is_marker m = true
         ∧ Py.strip MARKER_CHARS m ≠ "" ∧ k = Some (Py.strip MARKER_CHARS m).
Proof.
  unfold parse_tables.
  destruct (split_lines lines split_init) as [st|e] eqn:Hst; [|done].
  cbn [rbind].
  assert (Hinv : scan_inv lines st).
  { eapply split_lines_inv; [| |exact Hst]; [done|].
    split; [|split]; [by intros k ?%elem_of_nil|done..]. }
  destruct Hinv as (Hkeys & Hopen & Hbuf).
  destruct (truthy (write_key st)) eqn:Ht.
  - destruct (read_csv HeaderInfer (fio st)) as [df|e]; [|done].
    cbn [rbind]. intros [= <-] k [->|Hk]%dict_set_keys.
    + by apply Hopen.
    + by apply Hkeys.
  - rewrite Hbuf by done. by rewrite read_csv_empty.
Qed.

End ScanProperties.

(* ===================================================================== *)
(** * Further properties of the split stage *)
(* ===================================================================== *)

Lemma tsv_name_plain (s : string) :
  Fs.has_slash s = false → Fs.has_slash (tsv_name (Some s)) = false.
Proof. intros Hs. cbn [tsv_name]. by rewrite has_slash_app, Hs. Qed.

Lemma tsv_path_inj (d s1 s2 : string) :
  d ≠ "" → Fs.has_slash s1 = false → Fs.has_slash s2 = false →
  Py.path_join d (tsv_name (Some s1)) = Py.path_join d (tsv_name (Some s2)) →
  s1 = s2.
Proof.
  intros Hd H1 H2 Heq.
  apply path_join_child_inj in Heq; [|done|by apply tsv_name_plain..].
  cbn [tsv_name] in Heq. by apply append_inj_length in Heq as [-> _].
Qed.

Lemma path_join_longer (d b : string) :
  plain_path d → Fs.has_slash b = false →
  String.length d < String.length (Py.path_join d b).
Proof.
  intros Hd Hb. rewrite plain_path_join by done.
  rewrite append_length. cbn. lia.
Qed.

Lemma startswith_slash_app (n suf : string) :
  Py.startswith "/" suf = false →
  Py.startswith "/" (n +:+ suf) = Py.startswith "/" n.
Proof.
  intros Hsuf. destruct n as [|c n]; [by rewrite append_nil_l|].
  rewrite append_cons. unfold Py.startswith. cbn [String.prefix].
  destruct (ascii_dec "/" c); [|done]. by destruct n, suf.
Qed.

(** The length of a target [os.path.join(DATA_DIR, n + suf)]. *)
Lemma data_path_length (n suf : string) :
  Py.startswith "/" suf = false →
  String.length (Py.path_join DATA_DIR (n +:+ suf))
  = (if Py.startswith "/" n then 0 else 5)
    + String.length n + String.length suf.
Proof.
  intros Hsuf. unfold Py.path_join. rewrite startswith_slash_app by done.
  destruct (Py.startswith "/" n).
  - by rewrite append_length.
  - change (String.eqb DATA_DIR "") with false.
    change (Py.endswith "/" DATA_DIR) with false. cbn match.
    rewrite !append_length. cbn. lia.
Qed.

Lemma split_dir_not_longer (n : string) :
  String.length (SplitTables_output n)
  ≤ String.length (SplitTables_input n).
Proof.
  unfold SplitTables_input, SplitTables_output, ExtractArchive_output.
  rewrite !data_path_length by done. cbn. lia.
Qed.

Lemma SplitTables_input_plain (n : string) :
  plain_path (SplitTables_input n).
Proof.
  unfold SplitTables_input, ExtractArchive_output.
  replace (n +:+ "_extracted") with ((n +:+ "_extracte") +:+ "d")
    by (by rewrite append_assoc).
  by apply path_join_plain.
Qed.

Section SplitStageProperties.
Variable read_csv : header → string → result DataFrame.
Variable to_csv : DataFrame → string.

Local Abbreviation _split_file := (_split_file read_csv to_csv).
Local Abbreviation SplitTables_run := (SplitTables_run read_csv to_csv).

(** The loop that writes the tables, for section names without a
    separator and an output directory that is there. *)
Lemma write_tables_Ok (d : string)
    (tables : list (option string * DataFrame)) (fs : gmap string entry) :
  plain_path d → fs !! d = Some Dir →
  NoDup tables.*1 →
  (∀ k, k ∈ tables.*1 → ∃ s, k = Some s ∧ Fs.has_slash s = false) →
  (∀ k, k ∈ tables.*1 → fs !! Py.path_join d (tsv_name k) ≠ Some Dir) →
  ∃ fs',
    for_each (table_files to_csv d tables) (λ f, Fs.write_file f.1 f.2) fs
    = (fs', Ok tt)
    ∧ (∀ k df, (k, df) ∈ tables →
         fs' !! Py.path_join d (tsv_name k) = Some (File (to_csv df)))
    ∧ (∀ p, (∀ k, k ∈ tables.*1 → p ≠ Py.path_join d (tsv_name k)) →
         fs' !! p = fs !! p).
Proof.
  intros Hd. revert fs.
  induction tables as [|[k df] tables IH]; intros fs Hdir Hnd Hplain Hfree.
  { exists fs. split; [done|]. split; [by intros ?? ?%elem_of_nil|done]. }
  cbn [fmap list_fmap fst] in Hnd. apply NoDup_cons in Hnd as [Hk Hnd].
  destruct (Hplain k) as (s & -> & Hs); [by left|].
  assert (Hne : d ≠ "") by by apply plain_path_nonempty.
  set (p := Py.path_join d (tsv_name (Some s))).
  assert (Hother : ∀ k', k' ∈ tables.*1 → Py.path_join d (tsv_name k') ≠ p).
  { intros k' Hk' Heq. destruct (Hplain k') as (s' & -> & Hs'); [by right|].
    apply tsv_path_inj in Heq; [|done..]. by subst. }
  assert (Hpd : p ≠ d).
  { intros Heq. assert (Hlen := path_join_longer d (tsv_name (Some s)) Hd
                                  (tsv_name_plain s Hs)).
    fold p in Hlen. rewrite Heq in Hlen. lia. }
  assert (Hwrite : Fs.write_file p (to_csv df) fs
                   = (<[p := File (to_csv df)]> fs, Ok tt)).
  { unfold Fs.write_file, Fs.dir_present. subst p.
    rewrite dirname_join by (by try apply tsv_name_plain).
    rewrite Hdir, bool_decide_eq_true_2, orb_true_r by done.
    specialize (Hfree (Some s) ltac:(by left)).
    by destruct (fs !! Py.path_join d (tsv_name (Some s))) as [[]|]. }
  destruct (IH (<[p := File (to_csv df)]> fs)) as (fs' & Hrun & Hin & Hout).
  - by rewrite lookup_insert_ne.
  - done.
  - intros k' Hk'. apply Hplain. by right.
  - intros k' Hk'. rewrite lookup_insert_ne by (symmetry; by apply Hother).
    apply Hfree. by right.
  - exists fs'. split; [|split].
    + cbn [table_files fmap list_fmap for_each fst snd]. unfold bind.
      fold p. by rewrite Hwrite.
    + intros k' df' [[= -> ->]|Hin']%elem_of_cons; [|by apply Hin].
      fold p. rewrite Hout by (intros k' Hk'; symmetry; by apply Hother).
      apply lookup_insert_eq.
    + intros q Hq. rewrite Hout.
      * apply lookup_insert_ne. symmetry. apply Hq. by left.
      * intros k' Hk'. apply Hq. by right.
Qed.

(** X4. When the text of a file parses into tables whose names hold no
    separator, and the output directory is there with no directory in
    the way, [_split_file] returns and has written, for each table, the
    file [<name>.tsv] of the output directory with the text of that
    table; every other path is as it was. *)
Theorem X4_split_file_writes_each_table
    (n filepath text : string) (tables : list (option string * DataFrame))
    (fs : gmap string entry) :
  fs !! filepath = Some (File text) →
  parse_tables read_csv (Py.file_lines text) = Ok tables →
  fs !! SplitTables_output n = Some Dir →
  (∀ k, k ∈ tables.*1 → ∃ s, k = Some s ∧ Fs.has_slash s = false) →
  (∀ k, k ∈ tables.*1 →
        fs !! Py.path_join (SplitTables_output n) (tsv_name k) ≠ Some Dir) →
  ∃ fs',
    _split_file n filepath fs = (fs', Ok tt)
    ∧ (∀ s df, dict_get tables (Some s) = Some df →
         fs' !! Py.path_join (SplitTables_output n) (s +:+ ".tsv")
         = Some (File (to_csv df)))
    ∧ (∀ p, (∀ k, k ∈ tables.*1 →
                  p ≠ Py.path_join (SplitTables_output n) (tsv_name k)) →
         fs' !! p = fs !! p).
Proof.
  intros Hfile Hparse Hdir Hplain Hfree.
  destruct (write_tables_Ok (SplitTables_output n) tables fs)
    as (fs' & Hrun & Hin & Hout); [|done| |done|done|].
  { apply SplitTables_output_plain. }
  { by eapply parse_tables_NoDup. }
  exists fs'. split; [|split; [|done]].
  - unfold _split_file.
    rewrite (bind_Ok _ _ fs fs text) by by apply read_file_Ok.
    unfold bind at 1, lift. by rewrite Hparse.
  - intros s df Hget.
    destruct (dict_get_split _ _ _ Hget) as (d1 & d2 & -> & _).
    apply (Hin (Some s) df). apply elem_of_app. right. left.
Qed.

(** The stage after its directory was made. *)
Lemma split_loop_same (n : string) :
  along (fs_same (λ p, Py.endswith ".tsv" p = false))
    (do names <- Fs.listdir (SplitTables_input n);
     for_each names (λ filename,
       if Py.endswith ".txt" filename
       then _split_file n (Py.path_join (SplitTables_input n) filename)
       else ret tt)).
Proof.
  apply along_bind; [apply _|along_idle|]. intros names.
  apply along_for_each; [apply _|]. intros name _.
  destruct (Py.endswith ".txt" name); [apply split_file_same|along_idle].
Qed.

(** X5. Whatever its outcome, the split stage leaves every file whose
    path does not end with [".tsv"] as it was, its input text files
    among them, and creates no such file. *)
Theorem X5_split_leaves_other_files
    (n p c : string) (fs : gmap string entry) :
  Py.endswith ".tsv" p = false →
  (SplitTables_run n fs).1 !! p = Some (File c) ↔ fs !! p = Some (File c).
Proof.
  intros Hp. unfold SplitTables_run, bind.
  assert (Hdirs := makedirs_new_dirs (SplitTables_output n) fs).
  destruct (Fs.makedirs (SplitTables_output n) fs) as [fs0 [[]|e]];
    cbn [fst] in *.
  - assert (Hloop := split_loop_same n fs0 p Hp). unfold bind in Hloop.
    rewrite Hloop. by apply fs_new_dirs_file.
  - by apply fs_new_dirs_file.
Qed.

(** X6. In an input directory without any name that ends with [".txt"]
    the split stage reads nothing and writes nothing: it does what
    making its output directory does, and no more. *)
Theorem X6_split_without_text_files (n : string) (fs : gmap string entry) :
  fs !! SplitTables_input n = Some Dir →
  (∀ name, Py.endswith ".txt" name = true → Fs.has_slash name = false →
           fs !! Py.path_join (SplitTables_input n) name = None) →
  SplitTables_run n fs = Fs.makedirs (SplitTables_output n) fs.
Proof.
  intros Hdir Hnone. unfold SplitTables_run.
  assert (Hdirs := makedirs_new_dirs (SplitTables_output n) fs).
  destruct (Fs.makedirs (SplitTables_output n) fs) as [fs0 [[]|e]] eqn:Hmk;
    [|by rewrite (bind_Raise _ _ _ _ _ Hmk)].
  rewrite (bind_Ok _ _ _ _ _ Hmk). cbn [fst] in Hdirs.
  assert (Hplain := SplitTables_input_plain n).
  assert (Hd : SplitTables_input n ≠ "") by by apply plain_path_nonempty.
  assert (Hdir0 : fs0 !! SplitTables_input n = Some Dir).
  { destruct (Hdirs (SplitTables_input n)) as [->|[? _]]; congruence. }
  destruct (listdir_Ok _ _ Hd Hdir0) as (names & Hls & _ & Hnames).
  rewrite (bind_Ok _ _ _ _ _ Hls).
  assert (Hskip : ∀ name, name ∈ names → Py.endswith ".txt" name = false).
  { intros name (Hs & _ & [e He])%Hnames.
    destruct (Py.endswith ".txt" name) eqn:Htxt; [|done].
    assert (Hsame : fs0 !! Py.path_join (SplitTables_input n) name
                    = fs !! Py.path_join (SplitTables_input n) name).
    { change fs0 with (fs0, Ok tt : result unit).1. rewrite <-Hmk.
      apply makedirs_lookup_longer.
      eapply Nat.le_lt_trans; [apply split_dir_not_longer|].
      by apply path_join_longer. }
    rewrite Hsame, Hnone in He by done. done. }
  clear Hls Hnames. induction names as [|name names IH]; [done|].
  cbn [for_each]. rewrite Hskip by left. unfold bind, ret. cbn.
  apply IH. intros name' Hname'. apply Hskip. by right.
Qed.

End SplitStageProperties.

Section RepeatedSections.
Variable read_csv : header → string → result DataFrame.
Variable to_csv : DataFrame → string.

(** C9. Section names may repeat within a file.  Whatever sections come
    before it, the last section under a name alone decides the table kept
    under that name: the dictionary holds the name once, with the table
    parsed from the lines of that last section, the tables of earlier
    sections of that name being overwritten without notice.  When the
    file parses, the names hold no separator and the output directory is
    there with no directory in the way, [_split_file] returns and the
    file [<section-name>.tsv] of the output directory holds the text of
    that last table. *)
Theorem C9_repeated_section_last_written
    (n filepath text m : string) (pre body rest : list string)
    (tables : list (option string * DataFrame)) (fs : gmap string entry) :
  fs !! filepath = Some (File text) →
  Py.file_lines text = pre ++ m :: body ++ rest →
  is_marker m = true →
  Py.strip MARKER_CHARS m ≠ "" →
  Forall (λ l, is_marker l = false) body →
  match rest with [] => True | m2 :: _ => is_marker m2 = true end →
  Forall (λ l, is_marker l = true →
               Py.strip MARKER_CHARS l ≠ Py.strip MARKER_CHARS m) rest →
  parse_tables read_csv (pre ++ m :: body ++ rest) = Ok tables →
  fs !! SplitTables_output n = Some Dir →
  (∀ k, k ∈ tables.*1 → ∃ s, k = Some s ∧ Fs.has_slash s = false) →
  (∀ k, k ∈ tables.*1 →
        fs !! Py.path_join (SplitTables_output n) (tsv_name k) ≠ Some Dir) →
  let name := Py.strip MARKER_CHARS m in
  ∃ df before after fs',
    read_csv (match rest with
              | [] => HeaderInfer
              | _ => header_for (Some name)
              end) (Py.concat body) = Ok df
    ∧ dict_get tables (Some name) = Some df
    ∧ tables = before ++ (Some name, df) :: after
    ∧ (Some name ∉ before.*1) ∧ (Some name ∉ after.*1)
    ∧ _split_file read_csv to_csv n filepath fs = (fs', Ok tt)
    ∧ fs' !! Py.path_join (SplitTables_output n) (name +:+ ".tsv")
      = Some (File (to_csv df)).
Proof.
  intros Hfile Hlines Hm Hname Hbody Hrest Hother Hparse Hdir Hplain Hfree
    name.
  destruct (parse_tables_last_section read_csv pre body rest m tables)
    as (df & Hdf & Hget); [done..|].
  assert (Hnd : NoDup tables.*1) by (by eapply parse_tables_NoDup).
  destruct (write_tables_Ok to_csv (SplitTables_output n) tables fs)
    as (fs' & Hrun & Hin & _); [|done|done|done|done|].
  { apply SplitTables_output_plain. }
  destruct (dict_get_split _ _ _ Hget) as (before & after & Htab & Hb & Ha).
  exists df, before, after, fs'.
  split; [exact Hdf|]. split; [exact Hget|]. split; [exact Htab|].
  split; [exact Hb|]. split; [by apply Ha|]. split.
  - unfold _split_file.
    rewrite (bind_Ok _ _ fs fs text) by by apply read_file_Ok.
    unfold bind at 1, lift. by rewrite Hlines, Hparse.
  - apply (Hin (Some name) df). rewrite Htab.
    apply elem_of_app. right. left.
Qed.

End RepeatedSections.

(* ===================================================================== *)
(** * Further properties of the column trimmer *)
(* ===================================================================== *)

Lemma filter_all {A} (P : A → Prop) `{!∀ x, Decision (P x)} (l : list A) :
  (∀ x, x ∈ l → P x) → filter P l = l.
Proof.
  induction l as [|x l IH]; intros Hl; [done|].
  rewrite filter_cons, decide_True by (apply Hl; left).
  f_equal. apply IH. intros y Hy. apply Hl. by right.
Qed.

(** A table that [df.drop] returned has none of the dropped labels. *)
Lemma drop_columns_gone (labels : list string) (df df' : DataFrame)
    (c : string) :
  drop_columns labels df = Ok df' → c ∈ labels → Name c ∉ columns df'.
Proof.
  unfold drop_columns. destruct (filter _ labels); [|done].
  intros [= <-] Hc. rewrite columns_drop.
  intros [Hnot _]%list_elem_of_filter. apply Hnot.
  by apply list_elem_of_fmap_2.
Qed.

Lemma drop_columns_twice (labels : list string) (df df' : DataFrame) :
  labels ≠ [] →
  drop_columns labels df = Ok df' →
  drop_columns labels df' = Raise (KeyError labels).
Proof.
  intros Hne Hdrop. unfold drop_columns.
  rewrite filter_all by (intros c Hc; by eapply drop_columns_gone).
  by destruct labels.
Qed.

Lemma RemoveColumns_trimmed_longer (n : string) :
  String.length (RemoveColumns_output n)
  < String.length (Py.path_join (RemoveColumns_output n) "Probes_trimmed.tsv").
Proof. apply path_join_longer; [apply RemoveColumns_output_plain|done]. Qed.

(** Writing the trimmed table, once the output directory is made. *)
Lemma RemoveColumns_write_Ok (n c : string) (fs fs1 : gmap string entry) :
  Fs.makedirs (RemoveColumns_output n) fs = (fs1, Ok tt) →
  fs !! Py.path_join (RemoveColumns_output n) "Probes_trimmed.tsv"
    ≠ Some Dir →
  Fs.write_file (Py.path_join (RemoveColumns_output n) "Probes_trimmed.tsv")
    c fs1
  = (<[Py.path_join (RemoveColumns_output n) "Probes_trimmed.tsv"
       := File c]> fs1, Ok tt).
Proof.
  intros Hmk Hnodir.
  set (trimmed := Py.path_join (RemoveColumns_output n) "Probes_trimmed.tsv")
    in *.
  assert (Ht1 : fs1 !! trimmed = fs !! trimmed).
  { change fs1 with (fs1, Ok tt : result unit).1. rewrite <-Hmk.
    apply makedirs_lookup_longer, RemoveColumns_trimmed_longer. }
  assert (Hdn : Fs.dirname trimmed = RemoveColumns_output n).
  { apply dirname_join; [apply RemoveColumns_output_plain|done]. }
  unfold Fs.write_file, Fs.dir_present.
  rewrite Hdn, Ht1, (makedirs_Ok _ _ _ Hmk).
  rewrite bool_decide_eq_true_2, orb_true_r by done.
  by destruct (fs !! trimmed) as [[]|].
Qed.

Section TrimmerExtras.
Variable read_csv : header → string → result DataFrame.
Variable to_csv : DataFrame → string.

Local Abbreviation RemoveColumns_run := (RemoveColumns_run read_csv to_csv).
Local Abbreviation SplitTables_run := (SplitTables_run read_csv to_csv).

(** X7. Whatever other columns the [Probes] table has, when the seven
    target columns are all there the stage writes to [Probes_trimmed.tsv]
    the table made of the columns that are not targets, each with its
    cells, in the order they had; nothing else of the table is lost and
    no target column is left. *)
Theorem X7_trim_removes_exactly_the_targets
    (n text : string) (df : DataFrame) (fs fs1 : gmap string entry) :
  Fs.makedirs (RemoveColumns_output n) fs = (fs1, Ok tt) →
  fs !! Py.path_join (RemoveColumns_input n) "Probes.tsv" = Some (File text) →
  read_csv HeaderInfer text = Ok df →
  (∀ c, c ∈ COLUMNS_TO_DROP → Name c ∈ columns df) →
  fs !! Py.path_join (RemoveColumns_output n) "Probes_trimmed.tsv"
    ≠ Some Dir →
  ∃ df',
    RemoveColumns_run n fs =
      (<[Py.path_join (RemoveColumns_output n) "Probes_trimmed.tsv"
         := File (to_csv df')]> fs1, Ok tt)
    ∧ sublist df' df
    ∧ (∀ col, col ∈ df' ↔ col ∈ df ∧ col.1 ∉ Name <$> COLUMNS_TO_DROP)
    ∧ (∀ c, c ∈ COLUMNS_TO_DROP → Name c ∉ columns df').
Proof.
  intros Hmk Hfile Hread Hall Hnodir.
  exists (filter (λ c, c.1 ∉ Name <$> COLUMNS_TO_DROP) df).
  split; [|split; [|split]].
  - rewrite (RemoveColumns_run_read read_csv to_csv n text df fs fs1)
      by done.
    rewrite drop_columns_present by done.
    by apply (RemoveColumns_write_Ok n _ fs fs1).
  - apply sublist_filter.
  - intros col. rewrite list_elem_of_filter. tauto.
  - intros c Hc. eapply drop_columns_gone; [|exact Hc].
    by apply drop_columns_present.
Qed.

(** X8. The trim cannot be applied twice: a table that the drop of the
    target columns produced has none of them left, and the stage that
    reads it raises the [KeyError] of all seven and writes nothing. *)
Theorem X8_trim_of_trimmed_table_fails
    (n text : string) (df0 df : DataFrame) (fs fs1 : gmap string entry) :
  Fs.makedirs (RemoveColumns_output n) fs = (fs1, Ok tt) →
  fs !! Py.path_join (RemoveColumns_input n) "Probes.tsv" = Some (File text) →
  read_csv HeaderInfer text = Ok df →
  drop_columns COLUMNS_TO_DROP df0 = Ok df →
  RemoveColumns_run n fs = (fs1, Raise (KeyError COLUMNS_TO_DROP)).
Proof.
  intros Hmk Hfile Hread Hdrop.
  rewrite (RemoveColumns_run_read read_csv to_csv n text df fs fs1) by done.
  by rewrite (drop_columns_twice _ df0 df).
Qed.

(** The trim stage after its directory was made. *)
Lemma trim_rest_same (n : string) :
  along (fs_same (λ q, q ≠ Py.path_join (RemoveColumns_output n)
                             "Probes_trimmed.tsv"))
    (do text <- Fs.read_file
                  (Py.path_join (RemoveColumns_input n) "Probes.tsv");
     do df <- lift (read_csv HeaderInfer text);
     do df' <- lift (drop_columns COLUMNS_TO_DROP df);
     Fs.write_file
       (Py.path_join (RemoveColumns_output n) "Probes_trimmed.tsv")
       (to_csv df')).
Proof.
  apply along_bind; [apply _|along_idle|]. intros text.
  apply along_bind; [apply _|along_idle|]. intros df.
  apply along_bind; [apply _|along_idle|]. intros df'.
  apply write_file_same. by intros [].
Qed.

(** X9. Whatever its outcome, the trim stage leaves every file but
    [Probes_trimmed.tsv] as it was, the [Probes.tsv] it reads among them,
    and creates no other file. *)
Theorem X9_trim_leaves_other_files
    (n p c : string) (fs : gmap string entry) :
  p ≠ Py.path_join (RemoveColumns_output n) "Probes_trimmed.tsv" →
  (RemoveColumns_run n fs).1 !! p = Some (File c) ↔ fs !! p = Some (File c).
Proof.
  intros Hp. unfold RemoveColumns_run.
  assert (Hdirs := makedirs_new_dirs (RemoveColumns_output n) fs).
  destruct (Fs.makedirs (RemoveColumns_output n) fs) as [fs0 [[]|e]] eqn:Hmk;
    cbn [fst] in Hdirs.
  - rewrite (bind_Ok _ _ _ _ _ Hmk), (trim_rest_same n fs0 p Hp).
    by apply fs_new_dirs_file.
  - rewrite (bind_Raise _ _ _ _ _ Hmk). by apply fs_new_dirs_file.
Qed.

Variable download : string → string → M unit.
Variable extractall : string → string → M unit.

Local Abbreviation run := (run read_csv to_csv download extractall).

(** X10. The split and the trim stage make their output directory, which
    is their output target, before any other work: once that succeeded
    the target is there when [run] ends, also when it ends in failure. *)
Theorem X10_target_made_before_the_work
    (n d : string) (t : Task) (fs fs0 : gmap string entry) :
  t = SplitTables n ∨ t = RemoveColumns n →
  output t = Some d →
  Fs.makedirs d fs = (fs0, Ok tt) →
  (run t fs).1 !! d = Some Dir.
Proof.
  intros [-> | ->] [= <-] Hmk; cbn [run].
  - unfold SplitTables_run. rewrite (bind_Ok _ _ _ _ _ Hmk).
    rewrite (split_loop_same read_csv to_csv n fs0).
    + by eapply makedirs_Ok.
    + unfold SplitTables_output.
      replace (n +:+ "_split") with ((n +:+ "_s") +:+ "plit")
        by (by rewrite append_assoc).
      destruct (path_join_suffix DATA_DIR ((n +:+ "_s") +:+ "plit"))
        as [x ->].
      rewrite <-append_assoc. by apply endswith_same_length.
  - assert (Hne : RemoveColumns_output n
             ≠ Py.path_join (RemoveColumns_output n) "Probes_trimmed.tsv").
    { intros Heq. assert (Hlen := RemoveColumns_trimmed_longer n).
      rewrite <-Heq in Hlen. lia. }
    unfold RemoveColumns_run. rewrite (bind_Ok _ _ _ _ _ Hmk).
    rewrite (trim_rest_same n fs0 _ Hne). by eapply makedirs_Ok.
Qed.

End TrimmerExtras.

(* ===================================================================== *)
(** * Further properties of the cleanup task *)
(* ===================================================================== *)

(** When the loop of [Cleanup.run] returns, every listed name that ends
    with [".txt"] was a file. *)
Lemma cleanup_loop_files (d : string) (names : list string)
    (fs fs1 : gmap string entry) :
  d ≠ "" → NoDup names →
  (∀ name, name ∈ names → Fs.has_slash name = false) →
  for_each names (λ filename,
    if Py.endswith ".txt" filename
    then Fs.remove (Py.path_join d filename) else ret tt) fs
  = (fs1, Ok tt) →
  ∀ name, name ∈ names → Py.endswith ".txt" name = true →
          ∃ c, fs !! Py.path_join d name = Some (File c).
Proof.
  intros Hd Hnd. revert fs.
  induction Hnd as [|x xs Hx Hnd IH]; intros fs Hplain Hrun name Hname Htxt.
  { by apply elem_of_nil in Hname. }
  assert (Hplain' : ∀ name, name ∈ xs → Fs.has_slash name = false).
  { intros name' Hname'. apply Hplain. by right. }
  revert Hrun. cbn [for_each]. unfold bind.
  destruct (Py.endswith ".txt" x) eqn:Hxt.
  - unfold Fs.remove at 1.
    destruct (fs !! Py.path_join d x) as [[c|]|] eqn:Hc; [|done..].
    intros Hrun. apply elem_of_cons in Hname as [->|Hname]; [by exists c|].
    destruct (IH _ Hplain' Hrun name Hname Htxt) as [c' Hc'].
    exists c'. rewrite lookup_delete_ne in Hc'; [done|].
    intros Heq. apply path_join_child_inj in Heq;
      [|done|apply Hplain; by left|by apply Hplain'].
    by subst.
  - cbn. intros Hrun. apply elem_of_cons in Hname as [->|Hname];
      [congruence|]. by apply (IH _ Hplain' Hrun).
Qed.

(** The effect of a [Cleanup.run] that returned. *)
Lemma Cleanup_run_effect (n : string) (fs fs' : gmap string entry) :
  Cleanup_run n fs = (fs', Ok tt) →
  fs !! Cleanup_input n = Some Dir
  ∧ (∀ name, Fs.has_slash name = false → Py.endswith ".txt" name = true →
             fs !! Py.path_join (Cleanup_input n) name ≠ Some Dir)
  ∧ fs' !! Cleanup_output n = Some (File CLEANUP_MESSAGE)
  ∧ (∀ name, Fs.has_slash name = false → Py.endswith ".txt" name = true →
             name ≠ "cleanup_complete.txt" →
             fs' !! Py.path_join (Cleanup_input n) name = None)
  ∧ (∀ p, (∀ name, Fs.has_slash name = false →
                   Py.endswith ".txt" name = true →
                   p ≠ Py.path_join (Cleanup_input n) name) →
          fs' !! p = fs !! p).
Proof.
  intros Hrun. assert (Hrun' := Hrun). revert Hrun'. unfold Cleanup_run.
  intros (fs0 & names & Hls & (fs1 & [] & Hloop & Hw)%bind_inv_Ok)%bind_inv_Ok.
  apply listdir_inv in Hls as Hinv. destruct Hinv as (-> & Hd & Hdir).
  destruct (listdir_Ok _ _ Hd Hdir) as (names' & Hls' & Hnd & Hnames).
  rewrite Hls in Hls'. injection Hls' as <-.
  assert (Hplain : ∀ name, name ∈ names → Fs.has_slash name = false).
  { intros name Hname. by apply Hnames. }
  assert (Hfiles := cleanup_loop_files _ _ _ _ Hd Hnd Hplain Hloop).
  destruct (cleanup_loop_Ok (Cleanup_input n) names fs Hd Hnd Hplain Hfiles)
    as (fs1' & Hloop' & Hgone & Hrest).
  rewrite Hloop in Hloop'. injection Hloop' as <-.
  apply write_file_Ok in Hw as ->.
  assert (Hlisted : ∀ name, Fs.has_slash name = false →
            Py.endswith ".txt" name = true → name ∉ names →
            fs !! Py.path_join (Cleanup_input n) name = None).
  { intros name Hs Htxt Hout. apply eq_None_not_Some. intros Hsome.
    apply Hout, Hnames. split; [done|]. split; [|done].
    by apply (endswith_nonempty ".txt"). }
  split; [done|]. split; [|split; [|split]].
  - intros name Hs Htxt Hdir'.
    destruct (decide (name ∈ names)) as [Hin|Hout].
    + destruct (Hfiles name Hin Htxt) as [c Hc]. congruence.
    + rewrite Hlisted in Hdir' by done. done.
  - apply lookup_insert_eq.
  - intros name Hs Htxt Hne. rewrite lookup_insert_ne.
    2:{ unfold Cleanup_output. intros Heq.
        apply path_join_child_inj in Heq; [|done..]. by subst. }
    destruct (decide (name ∈ names)) as [Hin|Hout]; [by apply Hgone|].
    rewrite Hrest; [by apply Hlisted|].
    intros name' Hname' _ Heq.
    apply path_join_child_inj in Heq; [|done|done|by apply Hplain].
    by subst.
  - intros p Hp. rewrite lookup_insert_ne.
    2:{ intros Heq. by apply (Hp "cleanup_complete.txt"). }
    apply Hrest. intros name Hname Htxt. apply Hp; [by apply Hplain|done].
Qed.

(** [Cleanup.run] returns when its input directory is there and no name
    in it that ends with [".txt"] is a directory. *)
Lemma Cleanup_run_returns (n : string) (fs : gmap string entry) :
  fs !! Cleanup_input n = Some Dir →
  (∀ name, Fs.has_slash name = false → Py.endswith ".txt" name = true →
           fs !! Py.path_join (Cleanup_input n) name ≠ Some Dir) →
  ∃ fs', Cleanup_run n fs = (fs', Ok tt).
Proof.
  intros Hdir Hnodir.
  assert (Hplain := RemoveColumns_output_plain n).
  fold (Cleanup_input n) in Hplain.
  assert (Hd : Cleanup_input n ≠ "") by by apply plain_path_nonempty.
  destruct (listdir_Ok _ _ Hd Hdir) as (names & Hls & Hnd & Hnames).
  destruct (cleanup_loop_Ok (Cleanup_input n) names fs)
    as (fs1 & Hloop & Hgone & Hrest); [done|done|..].
  { intros name Hname. by apply Hnames. }
  { intros name (Hs & _ & [e He])%Hnames Htxt.
    destruct e as [c|]; [by exists c|]. by destruct (Hnodir name). }
  unfold Cleanup_run. rewrite (bind_Ok _ _ _ _ _ Hls).
  rewrite (bind_Ok _ _ _ _ _ Hloop).
  assert (Hdir1 : fs1 !! Cleanup_input n = Some Dir).
  { rewrite Hrest; [done|]. intros name (Hs & _ & [e He])%Hnames Htxt Heq.
    rewrite <-Heq, Hdir in He. injection He as <-.
    destruct (Hnodir name Hs Htxt). by rewrite <-Heq. }
  assert (Hmarker : fs1 !! Cleanup_output n ≠ Some Dir).
  { unfold Cleanup_output.
    destruct (decide ("cleanup_complete.txt" ∈ names)) as [Hin|Hout].
    - by rewrite Hgone.
    - rewrite Hrest; [by apply Hnodir|].
      intros name Hname _ Heq.
      apply path_join_child_inj in Heq; [|done|done|by apply Hnames].
      by subst. }
  assert (Hdn : Fs.dirname (Cleanup_output n) = Cleanup_input n)
    by (by apply dirname_join).
  unfold Fs.write_file, Fs.dir_present. rewrite Hdn, Hdir1.
  rewrite bool_decide_eq_true_2, orb_true_r by done.
  destruct (fs1 !! Cleanup_output n) as [[]|]; by eauto.
Qed.

(** X11. What a [Cleanup.run] that returned leaves at each path: the
    marker holds the message; any other path that lies directly in the
    input directory under a name that ends with [".txt"] is gone; every
    other path holds what it held. *)
Theorem X11_cleanup_effect_at_each_path
    (n p : string) (fs fs' : gmap string entry) :
  Cleanup_run n fs = (fs', Ok tt) →
  fs' !! p =
    if decide (p = Cleanup_output n) then Some (File CLEANUP_MESSAGE)
    else match Fs.child_name (Cleanup_input n) p with
         | Some name => if Py.endswith ".txt" name then None else fs !! p
         | None => fs !! p
         end.
Proof.
  intros (Hdir & _ & Hmarker & Hgone & Hrest)%Cleanup_run_effect.
  assert (Hd : Cleanup_input n ≠ "").
  { apply plain_path_nonempty, RemoveColumns_output_plain. }
  case_decide as Hp; [by subst|].
  destruct (Fs.child_name (Cleanup_input n) p) as [name|] eqn:Hchild.
  - apply child_name_Some in Hchild as (-> & Hs & Hne); [|done].
    destruct (Py.endswith ".txt" name) eqn:Htxt.
    + apply Hgone; [done..|]. intros ->. by apply Hp.
    + apply Hrest. intros name' Hs' Htxt' Heq.
      apply path_join_child_inj in Heq; [|done..]. congruence.
  - apply Hrest. intros name Hs Htxt ->.
    rewrite child_name_join in Hchild; [done..|].
    by apply (endswith_nonempty ".txt").
Qed.

(** X12. [Cleanup.run] returns exactly when its input directory is
    there and no name in it that ends with [".txt"] is a directory;
    in every other file system it raises. *)
Theorem X12_cleanup_returns_exactly_when
    (n : string) (fs : gmap string entry) :
  (∃ fs', Cleanup_run n fs = (fs', Ok tt))
  ↔ fs !! Cleanup_input n = Some Dir
    ∧ ∀ name, Fs.has_slash name = false → Py.endswith ".txt" name = true →
              fs !! Py.path_join (Cleanup_input n) name ≠ Some Dir.
Proof.
  split.
  - intros [fs' (Hdir & Hnodir & _)%Cleanup_run_effect]. by split.
  - intros [Hdir Hnodir]. by apply Cleanup_run_returns.
Qed.

(** X13. Running [Cleanup.run] again on what it left changes nothing:
    the marker, whose name ends with [".txt"], is removed by the loop and
    written anew. *)
Theorem X13_cleanup_again_changes_nothing
    (n : string) (fs fs' : gmap string entry) :
  Cleanup_run n fs = (fs', Ok tt) →
  Cleanup_run n fs' = (fs', Ok tt).
Proof.
  intros (Hdir & Hnodir & Hmarker & Hgone & Hrest)%Cleanup_run_effect.
  assert (Hplain := RemoveColumns_output_plain n).
  fold (Cleanup_input n) in Hplain.
  assert (Hd : Cleanup_input n ≠ "") by by apply plain_path_nonempty.
  assert (Hdir' : fs' !! Cleanup_input n = Some Dir).
  { rewrite Hrest; [done|]. intros name Hs _ Heq.
    assert (Hlen := path_join_longer (Cleanup_input n) name Hplain Hs).
    rewrite <-Heq in Hlen. lia. }
  destruct (Cleanup_run_returns n fs') as [fs'' Hrun'']; [done| |].
  { intros name Hs Htxt.
    destruct (decide (name = "cleanup_complete.txt")) as [->|Hne].
    - fold (Cleanup_output n). by rewrite Hmarker.
    - by rewrite Hgone. }
  rewrite Hrun''. f_equal.
  apply Cleanup_run_effect in Hrun''
    as (_ & _ & Hmarker2 & Hgone2 & Hrest2).
  apply map_eq. intros p.
  destruct (decide (p = Cleanup_output n)) as [->|Hp]; [congruence|].
  destruct (Fs.child_name (Cleanup_input n) p) as [name|] eqn:Hchild.
  - apply child_name_Some in Hchild as (-> & Hs & Hne); [|done].
    destruct (Py.endswith ".txt" name) eqn:Htxt.
    + rewrite Hgone, Hgone2; [done|done..|intros ->; by apply Hp
                             |done|done|intros ->; by apply Hp].
    + apply Hrest2. intros name' Hs' Htxt' Heq.
      apply path_join_child_inj in Heq; [|done..]. congruence.
  - apply Hrest2. intros name Hs Htxt ->.
    rewrite child_name_join in Hchild; [done..|].
    by apply (endswith_nonempty ".txt").
Qed.

(* ===================================================================== *)
(** * Properties of the output targets *)
(* ===================================================================== *)

(** A target [os.path.join(DATA_DIR, n + suf)] determines [n]. *)
Lemma data_path_inj (n1 n2 suf : string) :
  Py.startswith "/" suf = false →
  Py.path_join DATA_DIR (n1 +:+ suf) = Py.path_join DATA_DIR (n2 +:+ suf) →
  n1 = n2.
Proof.
  intros Hsuf. unfold Py.path_join.
  rewrite !startswith_slash_app by done.
  change (String.eqb DATA_DIR "") with false.
  change (Py.endswith "/" DATA_DIR) with false. cbn match.
  assert (Hcancel : ∀ a b, a +:+ suf = b +:+ suf → a = b).
  { intros a b Heq. by apply append_inj_length in Heq as [-> _]. }
  destruct (Py.startswith "/" n1) eqn:H1, (Py.startswith "/" n2) eqn:H2.
  - apply Hcancel.
  - intros Heq. exfalso. destruct n1 as [|c n1]; [done|].
    rewrite append_cons in Heq. injection Heq as -> _.
    by vm_compute in H1.
  - intros Heq. exfalso. destruct n2 as [|c n2]; [done|].
    rewrite append_cons in Heq. injection Heq as <- _.
    by vm_compute in H2.
  - intros Heq. apply Hcancel.
    by do 2 apply String.app_inj in Heq.
Qed.

(** The last four characters of each target. *)
Lemma output_suffix (t : Task) (p : string) :
  output t = Some p →
  ∃ x, p = x +:+ match t with
                 | DownloadDataset _ => ".tar"
                 | ExtractArchive _ => "cted"
                 | SplitTables _ => "plit"
                 | RemoveColumns _ => "inal"
                 | Cleanup _ | Pipeline _ => ".txt"
                 end.
Proof.
  destruct t as [n|n|n|n|n|n]; intros [= <-].
  - unfold DownloadDataset_output.
    destruct (path_join_suffix DATA_DIR (n +:+ "_RAW.tar")) as [x ->].
    exists (x +:+ n +:+ "_RAW"). by rewrite !append_assoc.
  - unfold ExtractArchive_output.
    destruct (path_join_suffix DATA_DIR (n +:+ "_extracted")) as [x ->].
    exists (x +:+ n +:+ "_extra"). by rewrite !append_assoc.
  - unfold SplitTables_output.
    destruct (path_join_suffix DATA_DIR (n +:+ "_split")) as [x ->].
    exists (x +:+ n +:+ "_s"). by rewrite !append_assoc.
  - unfold RemoveColumns_output.
    destruct (path_join_suffix DATA_DIR (n +:+ "_final")) as [x ->].
    exists (x +:+ n +:+ "_f"). by rewrite !append_assoc.
  - unfold Cleanup_output.
    destruct (path_join_suffix (Cleanup_input n) "cleanup_complete.txt")
      as [x ->].
    exists (x +:+ "cleanup_complete"). by rewrite !append_assoc.
Qed.

(** X14. No two tasks share an output target: the target determines the
    task class and its [dataset_name], so the checkpoint of one stage or
    data set is never taken for that of another. *)
Theorem X14_output_targets_distinct (t1 t2 : Task) (p : string) :
  output t1 = Some p → output t2 = Some p → t1 = t2.
Proof.
  intros H1 H2.
  destruct (output_suffix _ _ H1) as [x1 Hx1].
  destruct (output_suffix _ _ H2) as [x2 Hx2].
  rewrite Hx1 in Hx2.
  destruct t1 as [n1|n1|n1|n1|n1|n1], t2 as [n2|n2|n2|n2|n2|n2];
    try discriminate H1; try discriminate H2;
    try (by apply append_inj_length in Hx2 as [_ ?]);
    clear Hx1 Hx2; injection H1 as <-; injection H2 as Heq; f_equal.
  - by apply data_path_inj in Heq.
  - by apply data_path_inj in Heq.
  - by apply data_path_inj in Heq.
  - by apply data_path_inj in Heq.
  - unfold Cleanup_output in Heq.
    apply path_join_same_dir in Heq;
      [|apply RemoveColumns_output_plain..|done|done].
    by apply data_path_inj in Heq.
Qed.

Section TaskContracts.
Variable read_csv : header → string → result DataFrame.
Variable to_csv : DataFrame → string.
Variable download : string → string → M unit.
Variable extractall : string → string → M unit.
Hypothesis download_keeps :
  ∀ url out, along (fs_keeps (λ _, True)) (download url out).
Hypothesis download_Ok :
  ∀ url out fs fs', download url out fs = (fs', Ok tt) → is_Some (fs' !! out).
Hypothesis extractall_keeps :
  ∀ archive dest, along (fs_keeps (λ _, True)) (extractall archive dest).

Local Abbreviation run := (run read_csv to_csv download extractall).

(** X15. Each of the five tasks honours the completion contract: when
    its [run] returns, its output target is there, provided a download
    that returns has left its file and the extraction removes nothing. *)
Theorem X15_run_leaves_its_target
    (t : Task) (p : string) (fs fs' : gmap string entry) :
  output t = Some p →
  run t fs = (fs', Ok tt) →
  Fs.path_exists fs' p = true.
Proof.
  intros Hp Hrun. unfold Fs.path_exists. apply bool_decide_eq_true_2.
  apply (is_complete_output fs' t p Hp).
  eapply (run_complete read_csv to_csv download extractall); [done..| |done].
  rewrite Hp. by eexists.
Qed.

(** X16. No task removes a path, whatever its outcome, but for paths
    that end with [".txt"]: archives, directories and tables that were
    there before a [run] are there after it, provided the download and
    the extraction remove nothing. *)
Theorem X16_run_removes_only_text_files
    (t : Task) (p : string) (fs : gmap string entry) :
  Py.endswith ".txt" p = false →
  Fs.path_exists fs p = true →
  Fs.path_exists (run t fs).1 p = true.
Proof.
  unfold Fs.path_exists. intros Hp Hin%bool_decide_eq_true.
  apply bool_decide_eq_true_2.
  by apply (run_keeps read_csv to_csv download extractall
              download_keeps extractall_keeps t fs p).
Qed.

End TaskContracts.

(* ===================================================================== *)
(** * The further properties at work on sample files *)
(* ===================================================================== *)

(** In a file system none of whose paths ends with [".txt"], a name that
    ends with [".txt"] is in no directory. *)
Lemma no_txt_path (fs : gmap string entry) (d : string) :
  map_Forall (λ p _, Py.endswith ".txt" p = false) fs →
  ∀ name, Py.endswith ".txt" name = true → fs !! Py.path_join d name = None.
Proof.
  intros Hfs name Htxt. apply eq_None_not_Some. intros [e He].
  specialize (Hfs _ _ He). cbn in Hfs.
  by rewrite endswith_path_join in Hfs.
Qed.

Lemma X1_witness :
  parse_tables Sample.read_csv
    ([Sample.line "GEO sample file"]
     ++ [Sample.line "[A]"; Sample.row ["x"; "y"]; Sample.row ["1"; "2"]])
  = Ok Sample.ONE_SECTION_TABLES.
Proof.
  etrans.
  - apply (X1_lines_before_first_marker_dropped Sample.read_csv
             [Sample.line "GEO sample file"]).
    repeat constructor.
  - vm_compute. exact eq_refl.
Defined.

Lemma X2_witness :
  parse_tables Sample.read_csv
    ([] ++ Sample.line "[]"
        :: [Sample.row ["lost"; "cells"]]
        ++ [Sample.line "[A]"; Sample.row ["x"; "y"]; Sample.row ["1"; "2"]])
  = Ok Sample.ONE_SECTION_TABLES.
Proof.
  destruct (X2_empty_name_drops_lines Sample.read_csv []
              [Sample.row ["lost"; "cells"]]
              [Sample.line "[A]"; Sample.row ["x"; "y"];
               Sample.row ["1"; "2"]]
              (Sample.line "[]")) as [_ H].
  - vm_compute. exact eq_refl.
  - vm_compute. exact eq_refl.
  - repeat constructor.
  - etrans; [exact H|reflexivity].
Defined.

Lemma X3_witness :
  ∃ m, m ∈ Py.file_lines Sample.ONE_SECTION_TEXT ∧ is_marker m = true
       ∧ Py.strip MARKER_CHARS m ≠ ""
       ∧ Some "A" = Some (Py.strip MARKER_CHARS m).
Proof.
  apply (X3_table_names_are_marker_names Sample.read_csv
           Sample_read_csv_empty (Py.file_lines Sample.ONE_SECTION_TEXT)
           Sample.ONE_SECTION_TABLES).
  - vm_compute. exact eq_refl.
  - by_evaluation.
Defined.

Lemma X4_witness :
  ∃ fs',
    _split_file Sample.read_csv Sample.to_csv DEFAULT_DATASET_NAME
      "data/GSE68849_extracted/one.txt" Sample.ONE_SECTION_FS = (fs', Ok tt)
    ∧ fs' !! Py.path_join (SplitTables_output DEFAULT_DATASET_NAME)
               ("A" +:+ ".tsv")
      = Some (File (Sample.to_csv [(Name "x", ["1"]); (Name "y", ["2"])])).
Proof.
  destruct (X4_split_file_writes_each_table Sample.read_csv Sample.to_csv
              DEFAULT_DATASET_NAME "data/GSE68849_extracted/one.txt"
              Sample.ONE_SECTION_TEXT Sample.ONE_SECTION_TABLES
              Sample.ONE_SECTION_FS) as (fs' & Hrun & Hfile & _).
  - vm_compute. exact eq_refl.
  - vm_compute. exact eq_refl.
  - vm_compute. exact eq_refl.
  - intros k Hk. apply list_elem_of_singleton in Hk as ->. by exists "A".
  - intros k Hk Hdir. apply list_elem_of_singleton in Hk as ->.
    vm_compute in Hdir. discriminate Hdir.
  - exists fs'. split; [exact Hrun|]. apply Hfile. reflexivity.
Defined.

Lemma X5_witness :
  (SplitTables_run Sample.read_csv Sample.to_csv DEFAULT_DATASET_NAME
     Sample.EXTRACTED_FS).1 !! "data/GSE68849_extracted/plain.txt"
  = Some (File Sample.NO_MARKER_TEXT).
Proof.
  apply (X5_split_leaves_other_files Sample.read_csv Sample.to_csv
           DEFAULT_DATASET_NAME "data/GSE68849_extracted/plain.txt").
  - vm_compute. exact eq_refl.
  - vm_compute. exact eq_refl.
Defined.

Lemma X6_witness :
  SplitTables_run Sample.read_csv Sample.to_csv DEFAULT_DATASET_NAME
    Sample.COMPRESSED_FS
  = Fs.makedirs (SplitTables_output DEFAULT_DATASET_NAME) Sample.COMPRESSED_FS.
Proof.
  apply (X6_split_without_text_files Sample.read_csv Sample.to_csv).
  - vm_compute. exact eq_refl.
  - intros name Htxt _. apply no_txt_path; [|exact Htxt]. by_evaluation.
Defined.

Lemma X7_witness :
  ∃ df',
    (RemoveColumns_run Sample.read_csv Sample.to_csv DEFAULT_DATASET_NAME
       (Sample.split_fs Sample.ALL_COLUMNS_TEXT)).2 = Ok tt
    ∧ sublist df' Sample.ALL_COLUMNS_DF
    ∧ ∀ c, c ∈ COLUMNS_TO_DROP → Name c ∉ columns df'.
Proof.
  destruct (X7_trim_removes_exactly_the_targets Sample.read_csv Sample.to_csv
              DEFAULT_DATASET_NAME Sample.ALL_COLUMNS_TEXT
              Sample.ALL_COLUMNS_DF (Sample.split_fs Sample.ALL_COLUMNS_TEXT)
              (Fs.makedirs (RemoveColumns_output DEFAULT_DATASET_NAME)
                 (Sample.split_fs Sample.ALL_COLUMNS_TEXT)).1)
    as (df' & Hrun & Hsub & _ & Hgone).
  - vm_compute. exact eq_refl.
  - vm_compute. exact eq_refl.
  - vm_compute. exact eq_refl.
  - apply (proj1 (Forall_forall _ _)). by_evaluation.
  - intros Hdir. vm_compute in Hdir. discriminate Hdir.
  - exists df'. split; [rewrite Hrun; reflexivity|].
    split; [exact Hsub|exact Hgone].
Defined.

Lemma X8_witness :
  RemoveColumns_run Sample.read_csv Sample.to_csv DEFAULT_DATASET_NAME
    (Sample.split_fs Sample.TWO_COLUMNS_TEXT)
  = ((Fs.makedirs (RemoveColumns_output DEFAULT_DATASET_NAME)
        (Sample.split_fs Sample.TWO_COLUMNS_TEXT)).1,
     Raise (KeyError COLUMNS_TO_DROP)).
Proof.
  apply (X8_trim_of_trimmed_table_fails Sample.read_csv Sample.to_csv
           DEFAULT_DATASET_NAME Sample.TWO_COLUMNS_TEXT
           Sample.ALL_COLUMNS_DF Sample.TWO_COLUMNS_DF).
  - vm_compute. exact eq_refl.
  - vm_compute. exact eq_refl.
  - vm_compute. exact eq_refl.
  - vm_compute. exact eq_refl.
Defined.

Lemma X9_witness :
  (RemoveColumns_run Sample.read_csv Sample.to_csv DEFAULT_DATASET_NAME
     (Sample.split_fs Sample.ALL_COLUMNS_TEXT)).1
    !! "data/GSE68849_split/Probes.tsv"
  = Some (File Sample.ALL_COLUMNS_TEXT).
Proof.
  apply (X9_trim_leaves_other_files Sample.read_csv Sample.to_csv
           DEFAULT_DATASET_NAME "data/GSE68849_split/Probes.tsv").
  - intros Heq. vm_compute in Heq. discriminate Heq.
  - vm_compute. exact eq_refl.
Defined.

Lemma X10_witness :
  (run Sample.read_csv Sample.to_csv Sample.download Sample.extractall
     (RemoveColumns DEFAULT_DATASET_NAME)
     (Sample.split_fs Sample.FIVE_COLUMNS_TEXT)).1
    !! RemoveColumns_output DEFAULT_DATASET_NAME
  = Some Dir.
Proof.
  apply (X10_target_made_before_the_work Sample.read_csv Sample.to_csv
           Sample.download Sample.extractall DEFAULT_DATASET_NAME
           (RemoveColumns_output DEFAULT_DATASET_NAME)
           (RemoveColumns DEFAULT_DATASET_NAME)
           (Sample.split_fs Sample.FIVE_COLUMNS_TEXT)
           (Fs.makedirs (RemoveColumns_output DEFAULT_DATASET_NAME)
              (Sample.split_fs Sample.FIVE_COLUMNS_TEXT)).1).
  - right. vm_compute. exact eq_refl.
  - vm_compute. exact eq_refl.
  - vm_compute. exact eq_refl.
Defined.

Lemma X11_witness :
  (Cleanup_run DEFAULT_DATASET_NAME Sample.TRIMMED_FS).1
    !! "data/GSE68849_final/notes.txt" = None.
Proof.
  etrans.
  - apply (X11_cleanup_effect_at_each_path DEFAULT_DATASET_NAME
             "data/GSE68849_final/notes.txt" Sample.TRIMMED_FS
             (Cleanup_run DEFAULT_DATASET_NAME Sample.TRIMMED_FS).1).
    vm_compute. exact eq_refl.
  - vm_compute. exact eq_refl.
Defined.

Lemma X12_witness :
  ∃ fs', Cleanup_run DEFAULT_DATASET_NAME Sample.TRIMMED_FS = (fs', Ok tt).
Proof.
  apply (X12_cleanup_returns_exactly_when DEFAULT_DATASET_NAME
           Sample.TRIMMED_FS).
  split.
  - vm_compute. exact eq_refl.
  - intros name _ Htxt. apply no_txt_dir_child; [|exact Htxt]. by_evaluation.
Defined.

Lemma X13_witness :
  Cleanup_run DEFAULT_DATASET_NAME
    (Cleanup_run DEFAULT_DATASET_NAME Sample.TRIMMED_FS).1
  = ((Cleanup_run DEFAULT_DATASET_NAME Sample.TRIMMED_FS).1, Ok tt).
Proof.
  apply (X13_cleanup_again_changes_nothing DEFAULT_DATASET_NAME
           Sample.TRIMMED_FS).
  vm_compute. exact eq_refl.
Defined.

Lemma X14_witness :
  SplitTables DEFAULT_DATASET_NAME = SplitTables "GSE68849".
Proof.
  apply (X14_output_targets_distinct (SplitTables DEFAULT_DATASET_NAME)
           (SplitTables "GSE68849") "data/GSE68849_split").
  - vm_compute. exact eq_refl.
  - vm_compute. exact eq_refl.
Defined.

Lemma X15_witness :
  Fs.path_exists
    (run Sample.read_csv Sample.to_csv Sample.download Sample.extractall
       (DownloadDataset DEFAULT_DATASET_NAME) ∅).1
    "data/GSE68849_RAW.tar" = true.
Proof.
  apply (X15_run_leaves_its_target Sample.read_csv Sample.to_csv
           Sample.download Sample.extractall
           Sample_download_Ok Sample_extractall_keeps
           (DownloadDataset DEFAULT_DATASET_NAME) "data/GSE68849_RAW.tar" ∅).
  - vm_compute. exact eq_refl.
  - vm_compute. exact eq_refl.
Defined.

Lemma X16_witness :
  Fs.path_exists
    (run Sample.read_csv Sample.to_csv Sample.download Sample.extractall
       (Cleanup DEFAULT_DATASET_NAME) Sample.TRIMMED_FS).1
    "data/GSE68849_split/Probes.tsv" = true.
Proof.
  apply (X16_run_removes_only_text_files Sample.read_csv Sample.to_csv
           Sample.download Sample.extractall
           Sample_download_keeps Sample_extractall_keeps
           (Cleanup DEFAULT_DATASET_NAME) "data/GSE68849_split/Probes.tsv").
  - vm_compute. exact eq_refl.
  - vm_compute. exact eq_refl.
Defined.

Lemma C9_witness :
  ∃ fs',
    _split_file Sample.read_csv Sample.to_csv DEFAULT_DATASET_NAME
      "data/GSE68849_extracted/twice.txt" Sample.REPEATED_FS = (fs', Ok tt)
    ∧ fs' !! Py.path_join (SplitTables_output DEFAULT_DATASET_NAME)
               (Py.strip MARKER_CHARS (Sample.line "[A]") +:+ ".tsv")
      = Some (File (Sample.to_csv [(Name "u", ["3"]); (Name "v", ["4"])])).
Proof.
  destruct (C9_repeated_section_last_written Sample.read_csv Sample.to_csv
              DEFAULT_DATASET_NAME "data/GSE68849_extracted/twice.txt"
              Sample.REPEATED_TEXT (Sample.line "[A]")
              Sample.REPEATED_PRE Sample.REPEATED_BODY []
              [(Some "A", [(Name "u", ["3"]); (Name "v", ["4"])])]
              Sample.REPEATED_FS)
    as (df & before & after & fs' & Hdf & _ & _ & _ & _ & Hrun & Hfile).
  - vm_compute. exact eq_refl.
  - vm_compute. exact eq_refl.
  - vm_compute. exact eq_refl.
  - intros Hname. vm_compute in Hname. discriminate Hname.
  - repeat constructor.
  - exact I.
  - constructor.
  - vm_compute. exact eq_refl.
  - vm_compute. exact eq_refl.
  - intros k Hk. apply list_elem_of_singleton in Hk as ->. by exists "A".
  - intros k Hk Hdir. apply list_elem_of_singleton in Hk as ->.
    vm_compute in Hdir. discriminate Hdir.
  - vm_compute in Hdf. injection Hdf as <-.
    exists fs'. split; [exact Hrun|exact Hfile].
Defined.
